(** * DREW AI backend: credential lifecycle, request disambiguation and
      draft cleaning, checked against [routes.py] and [google_integration.py].

    The Python functions are embedded shallowly: pure helpers become
    functions on [string], request handlers become functions from a request
    record and a database state to a response, and the code that talks to
    the database or to Google is written in a small exception monad over an
    explicit world state that records every outside effect. *)

From Stdlib Require Import ZArith Ascii String List Bool Lia.
From stdpp Require Import base option gmap strings.
Import ListNotations.

Local Open Scope Z_scope.

(** ** Python [str] on code points below 256 *)

Module PyStr.

Definition code (c : ascii) : N := N_of_ascii c.

(** [str.isspace] restricted to code points below 256: TAB..CR, FS..US,
    SPACE, NEL and NBSP. *)
Definition isspace (c : ascii) : bool :=
  let n := code c in
  ((9 <=? n) && (n <=? 13) || (28 <=? n) && (n <=? 32)
   || (n =? 133) || (n =? 160))%N.

(** Line boundaries recognised by [str.splitlines] below 256. *)
Definition is_cr (c : ascii) : bool := (code c =? 13)%N.
Definition is_lf (c : ascii) : bool := (code c =? 10)%N.
Definition is_linebreak (c : ascii) : bool :=
  let n := code c in
  ((10 <=? n) && (n <=? 13) || (28 <=? n) && (n <=? 30) || (n =? 133))%N.

Definition nl : string := String (ascii_of_N 10) EmptyString.

Fixpoint lstrip (s : string) : string :=
  match s with
  | EmptyString => EmptyString
  | String c s' => if isspace c then lstrip s' else s
  end.

Fixpoint rstrip (s : string) : string :=
  match s with
  | EmptyString => EmptyString
  | String c s' =>
      match rstrip s' with
      | EmptyString => if isspace c then EmptyString else String c EmptyString
      | r => String c r
      end
  end.

(** [s.strip()] *)
Definition strip (s : string) : string := lstrip (rstrip s).

(** [s.startswith(p)] *)
Fixpoint startswith (s p : string) : bool :=
  match p, s with
  | EmptyString, _ => true
  | String a p', String b s' => Ascii.eqb a b && startswith s' p'
  | String _ _, EmptyString => false
  end.

(** [s[i:]] for [0 <= i] *)
Fixpoint drop (i : nat) (s : string) : string :=
  match i, s with
  | O, _ => s
  | S i', String _ s' => drop i' s'
  | S _, EmptyString => EmptyString
  end.

(** [s[:n]] for [0 <= n] *)
Fixpoint take (n : nat) (s : string) : string :=
  match n, s with
  | O, _ => EmptyString
  | S n', String c s' => String c (take n' s')
  | S _, EmptyString => EmptyString
  end.

(** [s.endswith(p)] *)
Definition endswith (s p : string) : bool :=
  (String.length p <=? String.length s)%nat
  && String.eqb (drop (String.length s - String.length p) s) p.

(** [s[i:-j]] for [0 <= i] and [0 < j]: the stop index is [len(s) - j]
    clipped at 0, and the slice is empty when it does not exceed [i]. *)
Definition slice_neg (i j : nat) (s : string) : string :=
  drop i (take (String.length s - j) s).

(** [str.lower] below 256: A..Z and the Latin-1 capitals move by 32. *)
Definition lower_char (c : ascii) : ascii :=
  let n := code c in
  if ((65 <=? n) && (n <=? 90)
      || (192 <=? n) && (n <=? 222) && negb (n =? 215))%N
  then ascii_of_N (n + 32) else c.

Fixpoint lower (s : string) : string :=
  match s with
  | EmptyString => EmptyString
  | String c s' => String (lower_char c) (lower s')
  end.

(** [s.splitlines()]: CR LF counts as one boundary and a final boundary
    opens no further line. *)
Fixpoint splitlines (s : string) : list string :=
  match s with
  | EmptyString => []
  | String c s' =>
      if is_cr c then
        match s' with
        | String c2 s'' =>
            if is_lf c2 then EmptyString :: splitlines s''
            else EmptyString :: splitlines s'
        | EmptyString => [EmptyString]
        end
      else if is_linebreak c then EmptyString :: splitlines s'
      else match splitlines s' with
           | [] => [String c EmptyString]
           | l :: ls => String c l :: ls
           end
  end.

(** [sep.join(parts)] *)
Fixpoint join (sep : string) (parts : list string) : string :=
  match parts with
  | [] => EmptyString
  | [p] => p
  | p :: ps => p +:+ sep +:+ join sep ps
  end.

(** [s.replace(c, r)] for a one-character [c]: every occurrence is
    replaced. *)
Fixpoint replace_char (c : ascii) (r : string) (s : string) : string :=
  match s with
  | EmptyString => EmptyString
  | String a s' =>
      if Ascii.eqb a c then r +:+ replace_char c r s'
      else String a (replace_char c r s')
  end.

(** [s.find(c)] for a one-character [c]; [None] stands for -1. *)
Fixpoint find_char (c : ascii) (s : string) : option nat :=
  match s with
  | EmptyString => None
  | String a s' =>
      if Ascii.eqb a c then Some O
      else match find_char c s' with Some i => Some (S i) | None => None end
  end.

(** [str.upper] below 256.  The sharp s, the micro sign and y-diaeresis,
    whose capitals are two letters or lie above 255, are left alone; the
    code below only compares the result with "CALL", "SMS" and "EMAIL",
    which cannot tell. *)
Definition upper_char (c : ascii) : ascii :=
  let n := code c in
  if ((97 <=? n) && (n <=? 122)
      || (224 <=? n) && (n <=? 254) && negb (n =? 247))%N
  then ascii_of_N (n - 32) else c.

Fixpoint upper (s : string) : string :=
  match s with
  | EmptyString => EmptyString
  | String c s' => String (upper_char c) (upper s')
  end.

End PyStr.

(** ** routes.py: [clean_generated_email] *)

Definition fence : string := "```".

Definition clean_generated_email (email_text : string) : string :=
  let email_text := PyStr.strip email_text in
  let email_text :=
    if PyStr.startswith email_text fence && PyStr.endswith email_text fence
    then PyStr.strip (PyStr.slice_neg 3 3 email_text)
    else email_text in
  let lines := PyStr.splitlines email_text in
  match lines with
  | l0 :: rest =>
      if String.eqb (PyStr.lower (PyStr.strip l0)) "html"
      then PyStr.strip (PyStr.join PyStr.nl rest)
      else email_text
  | [] => email_text
  end.

(** The two tests of [clean_generated_email] and the rewriting each one
    guards, named so that statements can refer to them. *)
Definition is_fenced (t : string) : bool :=
  PyStr.startswith t fence && PyStr.endswith t fence.

Definition html_led (t : string) : bool :=
  match PyStr.splitlines t with
  | l0 :: _ => String.eqb (PyStr.lower (PyStr.strip l0)) "html"
  | [] => false
  end.

Definition remove_fences (t : string) : string :=
  if is_fenced t then PyStr.strip (PyStr.slice_neg 3 3 t) else t.

Definition remove_html_line (t : string) : string :=
  if html_led t
  then PyStr.strip (PyStr.join PyStr.nl (tail (PyStr.splitlines t)))
  else t.


(** ** Python [datetime]

    [fromisoformat] follows the grammar documented for Python 3.7 to 3.10,
    [YYYY-MM-DD[*HH[:MM[:SS[.fff[fff]]]][+HH:MM[:SS[.ffffff]]]]], with the
    helper structure of the reference implementation; [None] stands for
    [ValueError].  Later Python versions accept every such string with the
    same result. *)

Module PyDatetime.

(** [tzinfo] is the UTC offset in microseconds; [None] is a naive value. *)
Record datetime := mk_datetime {
  year : Z; month : Z; day : Z;
  hour : Z; minute : Z; second : Z; microsecond : Z;
  tzinfo : option Z
}.

Definition MINYEAR : Z := 1.
Definition MAXYEAR : Z := 9999.

Definition is_leap (y : Z) : bool :=
  (y mod 4 =? 0) && (negb (y mod 100 =? 0) || (y mod 400 =? 0)).

Definition days_in_month (y m : Z) : Z :=
  if m =? 2 then (if is_leap y then 29 else 28)
  else if (m =? 4) || (m =? 6) || (m =? 9) || (m =? 11) then 30 else 31.

(** [_days_before_year]: days before January 1st of year [y]. *)
Definition days_before_year (y : Z) : Z :=
  let y := y - 1 in y * 365 + y / 4 - y / 100 + y / 400.

(** [_DAYS_BEFORE_MONTH] *)
Definition DAYS_BEFORE_MONTH (m : Z) : Z :=
  nth (Z.to_nat m) [0; 0; 31; 59; 90; 120; 151; 181; 212; 243; 273; 304; 334] 0.

Definition days_before_month (y m : Z) : Z :=
  DAYS_BEFORE_MONTH m + (if (2 <? m) && is_leap y then 1 else 0).

(** [_ymd2ord]: January 1st of year 1 is day 1. *)
Definition ymd2ord (y m d : Z) : Z :=
  days_before_year y + days_before_month y m + d.

Definition toordinal (dt : datetime) : Z := ymd2ord (year dt) (month dt) (day dt).

(** Microseconds on the wall clock since the start of day 0. *)
Definition wall_micros (dt : datetime) : Z :=
  (((toordinal dt * 24 + hour dt) * 60 + minute dt) * 60 + second dt) * 1000000
  + microsecond dt.

Definition HOUR_US : Z := 3600 * 1000000.
Definition DAY_US : Z := 24 * HOUR_US.

(** [_check_date_fields], [_check_time_fields] and the bound of
    [timezone(offset)]. *)
Definition check_fields (dt : datetime) : bool :=
  (MINYEAR <=? year dt) && (year dt <=? MAXYEAR)
  && (1 <=? month dt) && (month dt <=? 12)
  && (1 <=? day dt) && (day dt <=? days_in_month (year dt) (month dt))
  && (0 <=? hour dt) && (hour dt <=? 23)
  && (0 <=? minute dt) && (minute dt <=? 59)
  && (0 <=? second dt) && (second dt <=? 59)
  && (0 <=? microsecond dt) && (microsecond dt <=? 999999)
  && match tzinfo dt with
     | None => true
     | Some off => (- DAY_US <? off) && (off <? DAY_US)
     end.

Definition is_digit (c : ascii) : bool :=
  let n := PyStr.code c in ((48 <=? n) && (n <=? 57))%N.

Definition digit_val (c : ascii) : Z := Z.of_N (PyStr.code c) - 48.

Fixpoint digits_acc (s : string) (acc : Z) : option Z :=
  match s with
  | EmptyString => Some acc
  | String c s' =>
      if is_digit c then digits_acc s' (acc * 10 + digit_val c) else None
  end.

(** [int(s)] on a field of exactly [w] ASCII digits. *)
Definition parse_digits (w : nat) (s : string) : option Z :=
  if (String.length s =? w)%nat then digits_acc s 0 else None.

Definition char_at (i : nat) (s : string) (c : ascii) : bool :=
  match String.get i s with
  | Some a => Ascii.eqb a c
  | None => false
  end.

(** [_parse_isoformat_date] on the first ten characters. *)
Definition parse_isoformat_date (dtstr : string) : option (Z * Z * Z) :=
  if (String.length dtstr =? 10)%nat && char_at 4 dtstr "-"%char && char_at 7 dtstr "-"%char
  then
    y ← parse_digits 4 (PyStr.take 4 dtstr);
    m ← parse_digits 2 (PyStr.take 2 (PyStr.drop 5 dtstr));
    d ← parse_digits 2 (PyStr.drop 8 dtstr);
    Some (y, m, d)
  else None.

(** The microsecond field: three or six digits. *)
Definition parse_fraction (frac : string) : option Z :=
  if (String.length frac =? 3)%nat then
    us ← digits_acc frac 0; Some (us * 1000)
  else parse_digits 6 frac.

(** [_parse_hh_mm_ss_ff]: [HH[:MM[:SS[.fff[fff]]]]]. *)
Definition parse_hh_mm_ss_ff (tstr : string) : option (Z * Z * Z * Z) :=
  hh ← parse_digits 2 (PyStr.take 2 tstr);
  match PyStr.drop 2 tstr with
  | EmptyString => Some (hh, 0, 0, 0)
  | String c1 r1 =>
      if Ascii.eqb c1 ":"%char then
        mm ← parse_digits 2 (PyStr.take 2 r1);
        match PyStr.drop 2 r1 with
        | EmptyString => Some (hh, mm, 0, 0)
        | String c2 r2 =>
            if Ascii.eqb c2 ":"%char then
              ss ← parse_digits 2 (PyStr.take 2 r2);
              match PyStr.drop 2 r2 with
              | EmptyString => Some (hh, mm, ss, 0)
              | String c3 frac =>
                  if Ascii.eqb c3 "."%char then
                    us ← parse_fraction frac; Some (hh, mm, ss, us)
                  else None
              end
            else None
        end
      else None
  end.

(** [tstr.find('-') + 1 or tstr.find('+') + 1], as the index of the sign. *)
Definition tz_sign_pos (tstr : string) : option nat :=
  match PyStr.find_char "-"%char tstr with
  | Some i => Some i
  | None => PyStr.find_char "+"%char tstr
  end.

(** The offset part after the sign; an all-zero offset is [timezone.utc]. *)
Definition parse_tz (negative : bool) (tzstr : string) : option Z :=
  let n := String.length tzstr in
  if (n =? 5)%nat || (n =? 8)%nat || (n =? 15)%nat then
    c ← parse_hh_mm_ss_ff tzstr;
    let '(h, m, s, us) := c in
    let td := ((h * 3600 + m * 60 + s) * 1000000 + us) in
    Some (if negative then - td else td)
  else None.

(** [_parse_isoformat_time] *)
Definition parse_isoformat_time (tstr : string)
  : option (Z * Z * Z * Z * option Z) :=
  match tz_sign_pos tstr with
  | None =>
      c ← parse_hh_mm_ss_ff tstr; Some (c, None)
  | Some i =>
      c ← parse_hh_mm_ss_ff (PyStr.take i tstr);
      off ← parse_tz (char_at i tstr "-"%char) (PyStr.drop (S i) tstr);
      Some (c, Some off)
  end.

(** [datetime.fromisoformat] *)
Definition fromisoformat (date_string : string) : option datetime :=
  ymd ← parse_isoformat_date (PyStr.take 10 date_string);
  let '(y, m, d) := ymd in
  t ← (if (String.length date_string =? 10)%nat
       then Some (0, 0, 0, 0, None)
       else parse_isoformat_time (PyStr.drop 11 date_string));
  let '(hh, mm, ss, us, tz) := t in
  let dt := mk_datetime y m d hh mm ss us tz in
  if check_fields dt then Some dt else None.

(** The digit for [0 <= k <= 9]. *)
Definition digit_char (k : Z) : ascii := ascii_of_N (Z.to_N (48 + k)).

(** ["%0wd" % n] for [0 <= n < 10^w]: exactly [w] digits. *)
Fixpoint pad (w : nat) (n : Z) : string :=
  match w with
  | O => EmptyString
  | S w' => pad w' (n / 10) +:+ String (digit_char (n mod 10)) EmptyString
  end.

(** [_format_offset] *)
Definition format_offset (off : Z) : string :=
  let sign := if off <? 0 then "-" else "+" in
  let a := Z.abs off in
  let hh := a / HOUR_US in
  let r := a mod HOUR_US in
  let mm := r / 60000000 in
  let ss := r mod 60000000 in
  sign +:+ pad 2 hh +:+ ":" +:+ pad 2 mm
  +:+ (if ss =? 0 then ""
       else ":" +:+ pad 2 (ss / 1000000)
            +:+ (if ss mod 1000000 =? 0 then ""
                 else "." +:+ pad 6 (ss mod 1000000))).

(** [datetime.isoformat()] *)
Definition isoformat (dt : datetime) : string :=
  pad 4 (year dt) +:+ "-" +:+ pad 2 (month dt) +:+ "-" +:+ pad 2 (day dt)
  +:+ "T" +:+ pad 2 (hour dt) +:+ ":" +:+ pad 2 (minute dt)
  +:+ ":" +:+ pad 2 (second dt)
  +:+ (if microsecond dt =? 0 then "" else "." +:+ pad 6 (microsecond dt))
  +:+ match tzinfo dt with
      | None => ""
      | Some off => format_offset off
      end.

(** [YYYY-MM-DDTHH:MM:SS], the form [isoformat] gives a time without
    microseconds, before any offset. *)
Definition canonical (y m d hh mm ss : Z) : string :=
  pad 4 y +:+ "-" +:+ pad 2 m +:+ "-" +:+ pad 2 d
  +:+ "T" +:+ pad 2 hh +:+ ":" +:+ pad 2 mm +:+ ":" +:+ pad 2 ss.

(** The day after [(y, m, d)]. *)
Definition next_day (y m d : Z) : Z * Z * Z :=
  if d <? days_in_month y m then (y, m, d + 1)
  else if m <? 12 then (y, m + 1, 1)
  else (y + 1, 1, 1).

(** [dt + timedelta(hours=1)]: the time zone is kept, the date moves on when
    the hour passes midnight, and a result after year 9999 is
    [OverflowError] ([None]). *)
Definition add_one_hour (dt : datetime) : option datetime :=
  if hour dt <? 23 then
    Some (mk_datetime (year dt) (month dt) (day dt) (hour dt + 1)
            (minute dt) (second dt) (microsecond dt) (tzinfo dt))
  else
    let '(y, m, d) := next_day (year dt) (month dt) (day dt) in
    if y <=? MAXYEAR then
      Some (mk_datetime y m d 0 (minute dt) (second dt) (microsecond dt) (tzinfo dt))
    else None.

End PyDatetime.

(** ** PostgreSQL [ILIKE]

    [%] matches any run of characters, [_] any one character, and a
    backslash takes the next pattern character literally; a pattern that
    ends in a lone backslash is an error ([None]).  Letters are compared
    without case; the fold is the one every locale applies, A..Z. *)

Module Sql.

Inductive tok :=
| Any
| One
| Lit (c : ascii).

Fixpoint tokens (pattern : string) : option (list tok) :=
  match pattern with
  | EmptyString => Some []
  | String c p' =>
      if Ascii.eqb c "\"%char then
        match p' with
        | String d p'' => option_map (cons (Lit d)) (tokens p'')
        | EmptyString => None
        end
      else if Ascii.eqb c "%"%char then option_map (cons Any) (tokens p')
      else if Ascii.eqb c "_"%char then option_map (cons One) (tokens p')
      else option_map (cons (Lit c)) (tokens p')
  end.

Definition fold_char (c : ascii) : ascii :=
  let n := PyStr.code c in
  if ((65 <=? n) && (n <=? 90))%N then ascii_of_N (n + 32) else c.

Definition same_letter (a b : ascii) : bool :=
  Ascii.eqb (fold_char a) (fold_char b).

Fixpoint like (ts : list tok) (s : string) {struct ts} : bool :=
  match ts with
  | [] => match s with EmptyString => true | _ => false end
  | Any :: ts' =>
      (fix skip (s : string) : bool :=
         like ts' s || match s with
                       | String _ s' => skip s'
                       | EmptyString => false
                       end) s
  | One :: ts' =>
      match s with String _ s' => like ts' s' | EmptyString => false end
  | Lit c :: ts' =>
      match s with
      | String d s' => same_letter c d && like ts' s'
      | EmptyString => false
      end
  end.

(** [value ILIKE pattern] *)
Definition ilike (value pattern : string) : option bool :=
  option_map (fun ts => like ts value) (tokens pattern).

(** The characters with a meaning of their own in a pattern. *)
Definition is_meta (c : ascii) : bool :=
  Ascii.eqb c "\"%char || Ascii.eqb c "%"%char || Ascii.eqb c "_"%char.

Fixpoint has_meta (s : string) : bool :=
  match s with
  | EmptyString => false
  | String c s' => is_meta c || has_meta s'
  end.

End Sql.

(** Case-insensitive substring test, as the specification words the lead
    lookup: some position of [hay] starts with [needle], letters compared
    without case. *)
Fixpoint ci_prefix (needle hay : string) : bool :=
  match needle, hay with
  | EmptyString, _ => true
  | String a n', String b h' => Sql.same_letter a b && ci_prefix n' h'
  | String _ _, EmptyString => false
  end.

Fixpoint ci_substring (needle hay : string) : bool :=
  ci_prefix needle hay
  || match hay with
     | String _ h' => ci_substring needle h'
     | EmptyString => false
     end.

(** ** JSON values and Python truthiness *)

#[local] Set Warnings "-register-all".
Inductive json :=
| JNull
| JBool (b : bool)
| JNum (n : Z)
| JStr (s : string)
| JArr (l : list json)
| JObj (l : list (string * json)).

(** [bool(v)] for a decoded JSON value. *)
Definition truthy (v : json) : bool :=
  match v with
  | JNull => false
  | JBool b => b
  | JNum n => negb (n =? 0)
  | JStr s => negb (String.eqb s "")
  | JArr l => match l with [] => false | _ => true end
  | JObj l => match l with [] => false | _ => true end
  end.

(** A nullable text column or attribute as JSON: [None] is [null]. *)
Definition json_of_text (o : option string) : json :=
  match o with Some s => JStr s | None => JNull end.

(** [bool(s)] for an optional string: [None] and [""] are false. *)
Definition text_truthy (o : option string) : bool :=
  match o with Some s => negb (String.eqb s "") | None => false end.

(** ** models.py: the tables the checked functions read or write *)

Record User := mk_User { u_id : Z; u_name : string }.

Record Lead := mk_Lead {
  l_id : Z;
  l_user_id : option Z;
  l_source : option string;
  l_name : option string;
  l_email : option string;
  l_phone : option string;
  l_status : option string
}.

Record Integration := mk_Integration {
  i_user_id : Z;
  i_platform_name : string;
  i_credentials : gmap string json
}.

Record IntegrationStatus := mk_IntegrationStatus {
  s_user_id : Z;
  s_platform_name : string;
  s_status : string;
  s_last_checked : PyDatetime.datetime
}.

Inductive comm_class := DrewLeadCommunication | UserLeadCommunication | UserDrewCommunication.

Record Communication := mk_Communication {
  c_class : comm_class;
  c_user_id : Z;
  c_lead_id : option Z;
  c_drew_id : option string;
  c_type : string;
  c_status : string;
  c_details : json
}.

Record Call := mk_Call {
  k_user_id : Z;
  k_call_time : PyDatetime.datetime;
  k_status : string;
  k_duration : Z;
  k_call_id : string
}.

(** The database: one list of rows per table, in insertion order. *)
Record DB := mk_DB {
  users : list User;
  leads : list Lead;
  integrations : list Integration;
  integration_status : list IntegrationStatus;
  communications : list Communication;
  calls : list Call
}.

(** ** Effects: exceptions, a session over the database and a trace *)

Inductive exn :=
| HTTPException (status_code : Z) (detail : json)
| DbError
| RefreshError
| TransportError
| EncodeError
| KeyError (key : string)
| ValueError
| TypeError
| AttributeError
| OverflowError.

Record mime_part := mk_part { subtype : string; payload : string }.

Record mime_message := mk_message {
  headers : list (string * string);
  parts : list mime_part
}.

(** A closure handed to [background_tasks.add_task], by what it captured. *)
Inductive task :=
| BookingTask (user_id : Z) (lead : Lead)
    (start_time end_time : PyDatetime.datetime)
    (description location meeting_type : option string)
| CallTask (user_id : Z) (contact : Lead) (call_time : PyDatetime.datetime)
    (discussion_points : option string)
| MessageTask (user_id : Z) (lead : Lead) (message_type message_content : string).

(** What leaves the process: statements sent to the database, requests to
    Google, lines printed to the log, and tasks handed to the framework. *)
Inductive event :=
| EvAddTask (t : task)
| EvSelect (table : string)
| EvFlush
| EvWrite
| EvRollback
| EvTokenRefresh
| EvTokenExchange
| EvUserinfo
| EvGmailSend (m : mime_message)
| EvPrint (line : string).

Definition is_external_call (e : event) : bool :=
  match e with
  | EvTokenRefresh | EvTokenExchange | EvUserinfo | EvGmailSend _ => true
  | _ => false
  end.

Definition is_db_write (e : event) : bool :=
  match e with EvWrite | EvFlush => true | _ => false end.

(** [committed] is what the database holds, [session] what the open ORM
    session sees, [dirty] whether the session has unflushed changes.
    [faults] scripts the operations that can fail, in the order they are
    attempted: [true] makes the next one raise. *)
Record state := mk_state {
  committed : DB;
  session : DB;
  dirty : bool;
  faults : list bool;
  trace : list event
}.

Inductive result (A : Type) :=
| Ok (a : A)
| Raise (e : exn).
Arguments Ok {A} a.
Arguments Raise {A} e.

Definition M (A : Type) : Type := state -> result A * state.

Definition ret {A} (a : A) : M A := fun st => (Ok a, st).
Definition raise {A} (e : exn) : M A := fun st => (Raise e, st).
Definition bind {A B} (m : M A) (k : A -> M B) : M B :=
  fun st => match m st with
            | (Ok a, st') => k a st'
            | (Raise e, st') => (Raise e, st')
            end.

Declare Scope py_scope.
Delimit Scope py_scope with py.
Notation "x <- m ;; k" := (bind m (fun x => k))
  (at level 100, m at next level, k at level 200, only parsing,
   right associativity) : py_scope.
Notation "m ;; k" := (bind m (fun _ => k))
  (at level 100, k at level 200, only parsing, right associativity) : py_scope.
Local Open Scope py_scope.

(** [try: m except Exception as e: h e] *)
Definition try_except {A} (m : M A) (h : exn -> M A) : M A :=
  fun st => match m st with
            | (Ok a, st') => (Ok a, st')
            | (Raise e, st') => h e st'
            end.

(** [try: m finally: f] *)
Definition try_finally {A} (m : M A) (f : M unit) : M A :=
  fun st => match m st with
            | (r, st') =>
                match f st' with
                | (Ok _, st'') => (r, st'')
                | (Raise e, st'') => (Raise e, st'')
                end
            end.

(** A computation without effects. *)
Definition lift {A} (r : result A) : M A := fun st => (r, st).

Definition get_state : M state := fun st => (Ok st, st).

Definition emit (e : event) : M unit :=
  fun st => (Ok tt, mk_state (committed st) (session st) (dirty st) (faults st)
                      (trace st ++ [e])).

Definition print (line : string) : M unit := emit (EvPrint line).

(** The next fallible operation: raises [e] when the script says so. *)
Definition fallible (e : exn) : M unit :=
  fun st => match faults st with
            | true :: fs =>
                (Raise e, mk_state (committed st) (session st) (dirty st) fs (trace st))
            | false :: fs =>
                (Ok tt, mk_state (committed st) (session st) (dirty st) fs (trace st))
            | [] => (Ok tt, st)
            end.

(** [SessionLocal()]: a fresh session on the committed rows. *)
Definition SessionLocal : M unit :=
  fun st => (Ok tt, mk_state (committed st) (committed st) false (faults st) (trace st)).

(** A [SELECT]: can fail, then reads the session's rows. *)
Definition select {A} (table : string) (read : DB -> A) : M A :=
  emit (EvSelect table) ;; fallible DbError ;;
  st <- get_state ;; ret (read (session st)).

(** A change to the session's rows ([db.add] or an attribute assignment). *)
Definition modify (f : DB -> DB) : M unit :=
  fun st => (Ok tt, mk_state (committed st) (f (session st)) true (faults st) (trace st)).

(** The session's rows become the committed ones. *)
Definition persist : M unit :=
  fun st => (Ok tt, mk_state (session st) (session st) false (faults st) (trace st)).

(** [db.commit()]: flushes and commits a dirty session, which can fail;
    with nothing pending no statement is sent. *)
Definition commit : M unit :=
  st <- get_state ;;
  if dirty st then
    emit EvWrite ;; fallible DbError ;; persist
  else ret tt.

(** [db.flush()]: sends the pending statements inside the open transaction;
    nothing is committed by it. *)
Definition flush : M unit := emit EvFlush ;; fallible DbError.

(** [db.rollback()] *)
Definition rollback : M unit :=
  fun st => (Ok tt, mk_state (committed st) (committed st) false (faults st)
                      (trace st ++ [EvRollback])).

(** [db.close()] *)
Definition close : M unit :=
  fun st => (Ok tt, mk_state (committed st) (committed st) false (faults st) (trace st)).

(** [with db.begin(): body]: commit on leaving, roll back and re-raise when
    the body or the commit raises. *)
Definition with_begin {A} (body : M A) : M A :=
  try_except (a <- body ;; commit ;; ret a)
             (fun e => rollback ;; raise e).

(** Running a call from a committed database with a fault script. *)
Definition run {A} (m : M A) (db : DB) (fs : list bool) : result A * state :=
  m (mk_state db db false fs []).

(** ** google_integration.py *)

Definition google_calendar : string := "google_calendar".

Record Credentials := mk_Credentials {
  token : option string;
  refresh_token : option string;
  token_uri : option string;
  client_id : option string;
  client_secret : option string;
  scopes : option (list string);
  expiry : option PyDatetime.datetime
}.

Definition json_of_scopes (o : option (list string)) : json :=
  match o with Some l => JArr (map JStr l) | None => JNull end.

Definition json_of_expiry (o : option PyDatetime.datetime) : json :=
  match o with Some e => JStr (PyDatetime.isoformat e) | None => JNull end.

Definition same_key (user_id : Z) (platform_name : string) (u : Z) (p : string) : bool :=
  (u =? user_id) && String.eqb p platform_name.

(** [query(...).filter_by(user_id=..., platform_name=...).first()] as the
    position of the row in its table. *)
Fixpoint first_index {A} (p : A -> bool) (l : list A) : option nat :=
  match l with
  | [] => None
  | x :: l' => if p x then Some O
               else match first_index p l' with
                    | Some i => Some (S i)
                    | None => None
                    end
  end.

Definition integration_matches (user_id : Z) (platform_name : string) (r : Integration) : bool :=
  same_key user_id platform_name (i_user_id r) (i_platform_name r).

Definition status_matches (user_id : Z) (platform_name : string) (r : IntegrationStatus) : bool :=
  same_key user_id platform_name (s_user_id r) (s_platform_name r).

Definition set_integrations (f : list Integration -> list Integration) (d : DB) : DB :=
  mk_DB (users d) (leads d) (f (integrations d)) (integration_status d)
        (communications d) (calls d).

Definition set_integration_status
  (f : list IntegrationStatus -> list IntegrationStatus) (d : DB) : DB :=
  mk_DB (users d) (leads d) (integrations d) (f (integration_status d))
        (communications d) (calls d).

Definition set_credentials (c : gmap string json) (r : Integration) : Integration :=
  mk_Integration (i_user_id r) (i_platform_name r) c.

(** What a reader of the tables finds for one (user, platform) pair. *)
Definition bundle_of (user_id : Z) (platform_name : string) (d : DB)
  : option (gmap string json) :=
  option_map i_credentials
    (List.find (integration_matches user_id platform_name) (integrations d)).

Definition bundle_count (user_id : Z) (platform_name : string) (d : DB) : nat :=
  length (List.filter (integration_matches user_id platform_name) (integrations d)).

Definition status_of (user_id : Z) (platform_name : string) (d : DB)
  : option (string * PyDatetime.datetime) :=
  option_map (fun r => (s_status r, s_last_checked r))
    (List.find (status_matches user_id platform_name) (integration_status d)).

Definition status_count (user_id : Z) (platform_name : string) (d : DB) : nat :=
  length (List.filter (status_matches user_id platform_name) (integration_status d)).

(** No request to Google and no write to the database in a trace. *)
Definition quiet (t : list event) : Prop :=
  existsb is_external_call t = false /\ existsb is_db_write t = false.

Definition is_raise {A} (r : result A) : bool :=
  match r with Raise _ => true | Ok _ => false end.

Section GoogleIntegration.

(** [datetime.utcnow()], google-auth's [REFRESH_THRESHOLD] in microseconds,
    and what the token endpoint grants when a refresh succeeds: the access
    token, its expiry and, when the provider rotates it, a new refresh
    token. *)
Variable utcnow : PyDatetime.datetime.
Variable REFRESH_THRESHOLD : Z.
Variable token_endpoint : Credentials -> string * option PyDatetime.datetime * option string.

(** The dict written by [save_integration_to_db] (lines 47-56). *)
Definition credentials_dict (credentials : Credentials) (email : json) : gmap string json :=
  <["token" := json_of_text (token credentials)]>
  (<["refresh_token" := json_of_text (refresh_token credentials)]>
  (<["token_uri" := json_of_text (token_uri credentials)]>
  (<["client_id" := json_of_text (client_id credentials)]>
  (<["client_secret" := json_of_text (client_secret credentials)]>
  (<["scopes" := json_of_scopes (scopes credentials)]>
  (<["expiry" := json_of_expiry (expiry credentials)]>
  (<["email" := email]> ∅))))))).

Definition save_integration_to_db (credentials : Credentials) (email : json) (user_id : Z)
  : M unit :=
  SessionLocal ;;
  try_finally
    (try_except
       (let credentials_dict := credentials_dict credentials email in
        with_begin
          (integration <- select "integrations"
             (fun d => first_index (integration_matches user_id google_calendar) (integrations d)) ;;
           match integration with
           | None =>
               modify (set_integrations (fun l =>
                 l ++ [mk_Integration user_id google_calendar credentials_dict]))
           | Some i =>
               modify (set_integrations (alter (set_credentials credentials_dict) i))
           end ;;
           integration_status <- select "integration_status"
             (fun d => first_index (status_matches user_id google_calendar) (integration_status d)) ;;
           match integration_status with
           | None =>
               modify (set_integration_status (fun l =>
                 l ++ [mk_IntegrationStatus user_id google_calendar "active" utcnow]))
           | Some i =>
               modify (set_integration_status (alter (fun r =>
                 mk_IntegrationStatus (s_user_id r) (s_platform_name r) "active" utcnow) i))
           end) ;;
        commit)
       (fun e =>
          rollback ;;
          print "Error saving integration to database" ;;
          raise e))
    close.

(** [credentials.expired] of google-auth: never without an expiry, and
    comparing [utcnow()] with an aware expiry is a [TypeError]. *)
Definition expired_value (credentials : Credentials) : result bool :=
  match expiry credentials with
  | None => Ok false
  | Some e =>
      match PyDatetime.tzinfo e with
      | Some _ => Raise TypeError
      | None =>
          Ok (PyDatetime.wall_micros e - REFRESH_THRESHOLD
              <=? PyDatetime.wall_micros utcnow)
      end
  end.

Definition expired (credentials : Credentials) : M bool :=
  lift (expired_value credentials).

Definition is_none {A} (o : option A) : bool :=
  match o with None => true | Some _ => false end.

(** What a granted refresh leaves in the credentials object: the new
    access token and expiry, and the refresh token unless the provider sent
    a new one. *)
Definition apply_grant (credentials : Credentials)
  (grant : string * option PyDatetime.datetime * option string) : Credentials :=
  let '(access_token, new_expiry, rotated) := grant in
  mk_Credentials (Some access_token)
    (match rotated with Some r => Some r | None => refresh_token credentials end)
    (token_uri credentials) (client_id credentials)
    (client_secret credentials) (scopes credentials) new_expiry.

(** [credentials.refresh(request)] of google-auth: refuses before any
    request when a field the grant needs is missing, otherwise posts to the
    token endpoint and takes over what it grants. *)
Definition refresh (credentials : Credentials) : M Credentials :=
  if is_none (refresh_token credentials) || is_none (token_uri credentials)
     || is_none (client_id credentials) || is_none (client_secret credentials)
  then raise RefreshError
  else
    emit EvTokenRefresh ;; fallible RefreshError ;;
    ret (apply_grant credentials (token_endpoint credentials)).

(** The dict written after a refresh (lines 159-167). *)
Definition refreshed_dict (credentials : Credentials) : gmap string json :=
  <["token" := json_of_text (token credentials)]>
  (<["refresh_token" := json_of_text (refresh_token credentials)]>
  (<["token_uri" := json_of_text (token_uri credentials)]>
  (<["client_id" := json_of_text (client_id credentials)]>
  (<["client_secret" := json_of_text (client_secret credentials)]>
  (<["scopes" := json_of_scopes (scopes credentials)]>
  (<["expiry" := json_of_expiry (expiry credentials)]> ∅)))))).

Definition refresh_and_save_credentials
  (user_id : Z) (credentials : option Credentials) (platform_name : string)
  : M (option Credentials) :=
  SessionLocal ;;
  try_finally
    (try_except
       (match credentials with
        | None => print "No credentials provided" ;; ret None
        | Some credentials =>
            is_expired <- expired credentials ;;
            if negb is_expired then
              print "Credentials are not expired" ;; ret (Some credentials)
            else if negb (text_truthy (refresh_token credentials)) then
              print "No refresh token available" ;; ret None
            else
              refreshed <- try_except
                (c <- refresh credentials ;; ret (Some c))
                (fun refresh_error =>
                   print "Credential refresh failed" ;;
                   print "Existing token details" ;;
                   ret None) ;;
              match refreshed with
              | None => ret None
              | Some credentials =>
                  integration <- select "integrations"
                    (fun d => first_index (integration_matches user_id platform_name)
                                (integrations d)) ;;
                  match integration with
                  | Some i =>
                      try_except
                        (modify (set_integrations
                           (alter (set_credentials (refreshed_dict credentials)) i)) ;;
                         commit)
                        (fun db_error =>
                           print "Failed to update credentials in database" ;;
                           rollback)
                  | None => ret tt
                  end ;;
                  ret (Some credentials)
              end
        end)
       (fun e => print "Unexpected error in credential refresh" ;; ret None))
    close.

End GoogleIntegration.

(** [send_email_notification]: [event_details] maps a key to a string or
    to Python's [None]. *)
Definition py_str (v : option string) : string :=
  match v with Some s => s | None => "None" end.

Definition get_default (event_details : gmap string (option string))
  (key default : string) : string :=
  match event_details !! key with
  | Some v => py_str v
  | None => default
  end.

(** [message.attach(part)] *)
Definition attach (message : mime_message) (part : mime_part) : mime_message :=
  mk_message (headers message) (parts message ++ [part]).

Definition text_content (summary : string) (event_details : gmap string (option string))
  : string :=
  "Calendar Invitation: " +:+ summary +:+ PyStr.nl +:+ PyStr.nl
  +:+ "Details:" +:+ PyStr.nl
  +:+ get_default event_details "description" "No additional details provided."
  +:+ PyStr.nl +:+ PyStr.nl
  +:+ "Meeting Link: " +:+ get_default event_details "html_link" "N/A"
  +:+ PyStr.nl +:+ PyStr.nl
  +:+ "This is an automated message. Please do not reply.".

Definition html_content (event_details : gmap string (option string)) : string :=
  "<!DOCTYPE html>" +:+ "<html>" +:+ "<head><meta charset='UTF-8'></head>"
  +:+ "<body style='font-family: Arial, sans-serif;'>"
  +:+ get_default event_details "description" "No additional details provided."
  +:+ "</body>" +:+ "</html>".

(** The fallible steps, in order: building each [MIMEText] part and
    serialising the message can fail to encode; building the Gmail service
    and executing the send can fail in transport.  The credentials only
    travel to the Gmail client. *)
Definition send_email_notification (credentials : option Credentials)
  (sender_email recipient_email : string)
  (event_details : gmap string (option string)) : M bool :=
  try_except
    (let message := mk_message [("to", recipient_email); ("from", sender_email)] [] in
     summary <- match event_details !! "summary" with
                | Some v => ret (py_str v)
                | None => raise (KeyError "summary")
                end ;;
     let message :=
       mk_message (headers message ++ [("subject", "Calendar Invitation: " +:+ summary)])
                  (parts message) in
     fallible EncodeError ;;
     let text_part := mk_part "plain" (text_content summary event_details) in
     let message := attach message text_part in
     fallible EncodeError ;;
     let html_part := mk_part "html" (html_content event_details) in
     let message := attach message html_part in
     fallible EncodeError ;;
     fallible TransportError ;;
     emit (EvGmailSend message) ;; fallible TransportError ;;
     ret true)
    (fun e => print "Error sending email" ;; ret false).

(** ** routes.py *)

Record Response := mk_Response { status_code : Z; content : json }.

(** The value under a key of a JSON object. *)
Fixpoint assoc (key : string) (l : list (string * json)) : option json :=
  match l with
  | [] => None
  | (k, v) :: l' => if String.eqb k key then Some v else assoc key l'
  end.

Definition jget (key : string) (v : json) : option json :=
  match v with JObj l => assoc key l | _ => None end.

(** The text an exception carries into a 500 detail. *)
Definition exn_text (e : exn) : string :=
  match e with
  | HTTPException _ (JStr d) => d
  | HTTPException _ _ => "HTTPException"
  | DbError => "DbError"
  | RefreshError => "RefreshError"
  | TransportError => "TransportError"
  | EncodeError => "EncodeError"
  | KeyError k => k
  | ValueError => "ValueError"
  | TypeError => "TypeError"
  | AttributeError => "AttributeError"
  | OverflowError => "OverflowError"
  end.

(** FastAPI around a handler: a raised [HTTPException] becomes the response
    with its status code, any other exception a 500. *)
Definition fastapi (handler : M Response) : state -> Response * state :=
  fun st => match handler st with
            | (Ok r, st') => (r, st')
            | (Raise (HTTPException code detail), st') =>
                (mk_Response code (JObj [("detail", detail)]), st')
            | (Raise _, st') =>
                (mk_Response 500 (JStr "Internal Server Error"), st')
            end.

Definition serve (handler : M Response) (db : DB) (fs : list bool) : Response * state :=
  fastapi handler (mk_state db db false fs []).

(** [get_db]: the request's session, closed when the request ends. *)
Definition with_request_session {A} (handler : M A) : M A :=
  SessionLocal ;; try_finally handler close.

(** [int(v)] for a decoded JSON value; a string may carry surrounding
    whitespace, a sign and single underscores between digits. *)
Fixpoint int_digits (s : string) (acc : Z) (after_digit : bool) : option Z :=
  match s with
  | EmptyString => if after_digit then Some acc else None
  | String c s' =>
      if PyDatetime.is_digit c
      then int_digits s' (acc * 10 + PyDatetime.digit_val c) true
      else if Ascii.eqb c "_"%char && after_digit then int_digits s' acc false
      else None
  end.

Definition int_of_string (s : string) : option Z :=
  match PyStr.strip s with
  | String c s' =>
      if Ascii.eqb c "-"%char then option_map Z.opp (int_digits s' 0 false)
      else if Ascii.eqb c "+"%char then int_digits s' 0 false
      else int_digits (String c s') 0 false
  | EmptyString => None
  end.

Definition py_int (v : json) : result Z :=
  match v with
  | JNum n => Ok n
  | JBool b => Ok (if b then 1 else 0)
  | JStr s => match int_of_string s with Some n => Ok n | None => Raise ValueError end
  | _ => Raise TypeError
  end.

(** The [state] query parameter: absent, text that [json.loads] decodes,
    or text that it rejects. *)
Inductive state_param :=
| StateAbsent
| StateJson (decoded : json)
| StateGarbage.

Record callback_request := mk_callback_request {
  q_state : state_param;
  q_code : option string
}.

Section OAuthCallback.

(** The clock, what the token exchange grants, what the userinfo endpoint
    reports as email ([JNull] when it reports none), and the text of
    [datetime.now().timestamp()]. *)
Variable utcnow : PyDatetime.datetime.
Variable exchanged : Credentials.
Variable userinfo_email : json.
Variable timestamp_text : string.

(** [json.loads(request.query_params.get('state', '{}'))] *)
Definition load_state (q : state_param) : M json :=
  match q with
  | StateAbsent => ret (JObj [])
  | StateJson v => ret v
  | StateGarbage => raise ValueError
  end.

(** [state_data.get('user_id')] *)
Definition state_user_id (state_data : json) : M json :=
  match state_data with
  | JObj l => ret (match assoc "user_id" l with Some v => v | None => JNull end)
  | _ => raise AttributeError
  end.

Definition google_callback (request : callback_request) : M Response :=
  try_except
    (state_data <- load_state (q_state request) ;;
     user_id <- state_user_id state_data ;;
     if negb (truthy user_id) then
       raise (HTTPException 400 (JStr "No user ID provided"))
     else if negb (text_truthy (q_code request)) then
       raise (HTTPException 400 (JStr "No authorization code received"))
     else
       emit EvTokenExchange ;; fallible TransportError ;;
       let credentials := exchanged in
       if negb (text_truthy (refresh_token credentials)) then
         ret (mk_Response 400 (JObj [("error",
           JStr "No refresh token received. Please revoke application access and try again.")]))
       else
         fallible TransportError ;;
         email <- try_except
           (emit EvUserinfo ;; fallible TransportError ;;
            let email := userinfo_email in
            if negb (truthy email) then
              raise (HTTPException 400 (JStr "Could not get user email"))
            else ret email)
           (fun e =>
              print "Error getting user info" ;;
              ret (JStr ("user_" +:+ timestamp_text))) ;;
         uid <- lift (py_int user_id) ;;
         save_integration_to_db utcnow credentials email uid ;;
         ret (mk_Response 200 (JObj [("status", JStr "success");
                ("message", JStr "Successfully connected to Google Calendar");
                ("user_id", user_id)])))
    (fun e =>
       print "Error in callback" ;;
       raise (HTTPException 500 (JStr (exn_text e)))).

End OAuthCallback.

(** *** [save_communication]

    The request body, each field with its documented JSON type; [None] is
    an absent key. *)
Record communication_request := mk_communication_request {
  cr_user_id : option Z;
  cr_type : option string;
  cr_status : option string;
  cr_details : option json;
  cr_lead_id : option Z;
  cr_drew_id : option string;
  cr_duration : option Z;
  cr_call_id : option string;
  cr_call_time : option string
}.

(** [bool(n)] for an optional integer. *)
Definition int_truthy (o : option Z) : bool :=
  match o with Some n => negb (n =? 0) | None => false end.

Definition set_communications (f : list Communication -> list Communication) (d : DB) : DB :=
  mk_DB (users d) (leads d) (integrations d) (integration_status d)
        (f (communications d)) (calls d).

Definition set_calls (f : list Call -> list Call) (d : DB) : DB :=
  mk_DB (users d) (leads d) (integrations d) (integration_status d)
        (communications d) (f (calls d)).

Definition same_class (a b : comm_class) : bool :=
  match a, b with
  | DrewLeadCommunication, DrewLeadCommunication
  | UserLeadCommunication, UserLeadCommunication
  | UserDrewCommunication, UserDrewCommunication => true
  | _, _ => false
  end.

(** The autoincrement id of the row just added to a table that never lost
    a row: its position. *)
Definition communication_id (cls : comm_class) (d : DB) : Z :=
  Z.of_nat (length (List.filter (fun c => same_class cls (c_class c)) (communications d))).

Definition call_row_id (d : DB) : Z := Z.of_nat (length (calls d)).

Section SaveCommunication.
Variable utcnow : PyDatetime.datetime.

(** [datetime.fromisoformat(text.replace('Z', '+00:00'))] *)
Definition parse_time (text : string) : M PyDatetime.datetime :=
  match PyDatetime.fromisoformat (PyStr.replace_char "Z"%char "+00:00" text) with
  | Some t => ret t
  | None => raise ValueError
  end.

Definition save_communication (data : communication_request) : M Response :=
  with_request_session
    (try_except
       (match cr_user_id data, cr_type data, cr_status data, cr_details data with
        | Some user_id, Some type, Some status, Some details =>
            user <- select "users"
                      (fun d => List.find (fun u => u_id u =? user_id) (users d)) ;;
            match user with
            | None => raise (HTTPException 404 (JStr "User not found"))
            | Some _ =>
                communication <-
                  (if int_truthy (cr_lead_id data) && text_truthy (cr_drew_id data) then
                     ret (mk_Communication DrewLeadCommunication user_id
                            (cr_lead_id data) (cr_drew_id data) type status details)
                   else if int_truthy (cr_lead_id data) then
                     ret (mk_Communication UserLeadCommunication user_id
                            (cr_lead_id data) None type status details)
                   else if text_truthy (cr_drew_id data) then
                     ret (mk_Communication UserDrewCommunication user_id
                            None (cr_drew_id data) type status details)
                   else
                     raise (HTTPException 400
                              (JStr "Either lead_id or drew_id must be provided"))) ;;
                modify (set_communications (fun l => l ++ [communication])) ;;
                call_id <-
                  (if String.eqb (PyStr.upper type) "CALL" then
                     match cr_duration data, cr_call_id data with
                     | Some duration, Some call_id =>
                         call_time <-
                           (if text_truthy (cr_call_time data)
                            then parse_time (default "" (cr_call_time data))
                            else ret utcnow) ;;
                         modify (set_calls (fun l =>
                           l ++ [mk_Call user_id call_time status duration call_id])) ;;
                         flush ;;
                         st <- get_state ;;
                         ret (Some (call_row_id (session st)))
                     | _, _ =>
                         raise (HTTPException 400
                                  (JStr "Duration and call_id are required for call records"))
                     end
                   else ret None) ;;
                commit ;;
                id <- select "communication"
                        (fun d => communication_id (c_class communication) d) ;;
                ret (mk_Response 201
                       (JObj ([("status", JStr "success"); ("communication_id", JNum id)]
                              ++ match call_id with
                                 | Some k => [("call_id", JNum k)]
                                 | None => []
                                 end)))
            end
        | _, _, _, _ =>
            raise (HTTPException 400
                     (JObj [("error", JStr "Missing required fields");
                            ("required_fields",
                             JArr [JStr "user_id"; JStr "type"; JStr "status"; JStr "details"])]))
        end)
       (fun e =>
          rollback ;;
          raise (HTTPException 500
                   (JObj [("error", JStr "Server error");
                          ("details", JStr (exn_text e))])))).

End SaveCommunication.

(** *** Lead lookup and the three workflow endpoints

    Response bodies carry the structured keys; the prose under [message],
    [context_for_llm] and [suggestion] is left out. *)

(** [Lead.user_id == user_id] and [Lead.name.ilike(f"%{name}%")]; a NULL
    column satisfies neither. *)
Definition lead_matches (user_id : Z) (name : string) (lead : Lead) : option bool :=
  match l_user_id lead, l_name lead with
  | Some u, Some n =>
      option_map (andb (u =? user_id)) (Sql.ilike n ("%" +:+ name +:+ "%"))
  | _, _ => Some false
  end.

Fixpoint filter_rows {A} (p : A -> option bool) (l : list A) : option (list A) :=
  match l with
  | [] => Some []
  | x :: l' =>
      match p x, filter_rows p l' with
      | Some b, Some r => Some (if b then x :: r else r)
      | _, _ => None
      end
  end.

(** [db.query(Lead).filter(...).all()]; a pattern the server rejects is a
    database error. *)
Definition query_leads (user_id : Z) (name : string) : M (list Lead) :=
  rows <- select "leads" (fun d => filter_rows (lead_matches user_id name) (leads d)) ;;
  match rows with
  | Some r => ret r
  | None => raise DbError
  end.

Definition lead_info (id_key : string) (lead : Lead) : json :=
  JObj [(id_key, JNum (l_id lead));
        ("name", json_of_text (l_name lead));
        ("email", json_of_text (l_email lead));
        ("phone", json_of_text (l_phone lead));
        ("status", json_of_text (l_status lead));
        ("source", json_of_text (l_source lead))].

Definition not_found : Response :=
  mk_Response 404 (JObj [("status", JStr "error")]).

Definition multiple_matches (list_key id_key : string) (matching : list Lead) : Response :=
  mk_Response 300 (JObj [("status", JStr "multiple_matches");
                         (list_key, JArr (map (lead_info id_key) matching))]).

Definition missing_fields (required_fields : list string) : json :=
  JObj [("status", JStr "error");
        ("required_fields", JArr (map JStr required_fields))].

Record book_request := mk_book_request {
  b_user_id : option Z;
  b_lead_name : option string;
  b_start_time : option string;
  b_description : option string;
  b_location : option string;
  b_meeting_type : option string
}.

Record call_request := mk_call_request {
  k_req_user_id : option Z;
  k_contact_name : option string;
  k_req_call_time : option string;
  k_discussion_points : option string
}.

Record message_request := mk_message_request {
  m_user_id : option Z;
  m_lead_name : option string;
  m_message_type : option string;
  m_message_content : option string
}.

(** [start_time + timedelta(hours=1)] *)
Definition plus_one_hour (t : PyDatetime.datetime) : M PyDatetime.datetime :=
  match PyDatetime.add_one_hour t with
  | Some t' => ret t'
  | None => raise OverflowError
  end.

Definition book_appointment (data : book_request) : M Response :=
  with_request_session
    (try_except
       (match b_user_id data, b_lead_name data, b_start_time data with
        | Some user_id, Some lead_name, Some start_text =>
            matching_leads <- query_leads user_id lead_name ;;
            match matching_leads with
            | [] => ret not_found
            | _ :: _ :: _ =>
                ret (multiple_matches "matching_leads" "lead_id" matching_leads)
            | [lead] =>
                start_time <- parse_time start_text ;;
                end_time <- plus_one_hour start_time ;;
                emit (EvAddTask (BookingTask user_id lead start_time end_time
                        (b_description data) (b_location data) (b_meeting_type data))) ;;
                ret (mk_Response 202
                  (JObj [("status", JStr "success");
                         ("lead_details",
                          JObj [("lead_id", JNum (l_id lead));
                                ("name", json_of_text (l_name lead));
                                ("email", json_of_text (l_email lead));
                                ("status", json_of_text (l_status lead))]);
                         ("appointment_details",
                          JObj [("start_time", JStr (PyDatetime.isoformat start_time));
                                ("end_time", JStr (PyDatetime.isoformat end_time));
                                ("location",
                                 JStr (default "Google Meet" (b_location data)));
                                ("description",
                                 JStr (default "Scheduled meeting" (b_description data)))])]))
            end
        | _, _, _ =>
            raise (HTTPException 400
                     (missing_fields ["user_id"; "lead_name"; "start_time"]))
        end)
       (fun e =>
          match e with
          | ValueError =>
              raise (HTTPException 400
                       (JObj [("status", JStr "error");
                              ("message", JStr "Invalid date/time format")]))
          | _ =>
              print "Error in book_appointment" ;;
              raise (HTTPException 500
                       (JObj [("status", JStr "error");
                              ("message", JStr "Internal server error");
                              ("error_details", JStr (exn_text e))]))
          end)).

Section InitiateCall.

(** [datetime.now()], a naive local time. *)
Variable now : PyDatetime.datetime.

(** [call_time <= now]: comparing an aware with a naive value is a
    [TypeError]. *)
Definition le_now (call_time : PyDatetime.datetime) : M bool :=
  match PyDatetime.tzinfo call_time with
  | Some _ => raise TypeError
  | None => ret (PyDatetime.wall_micros call_time <=? PyDatetime.wall_micros now)
  end.

Definition initiate_call (data : call_request) : M Response :=
  with_request_session
    (try_except
       (match k_req_user_id data, k_contact_name data, k_req_call_time data with
        | Some user_id, Some contact_name, Some call_text =>
            matching_contacts <- query_leads user_id contact_name ;;
            match matching_contacts with
            | [] => ret not_found
            | _ :: _ :: _ =>
                ret (multiple_matches "matching_contacts" "contact_id" matching_contacts)
            | [contact] =>
                parsed <- try_except
                            (t <- parse_time call_text ;; ret (Some t))
                            (fun e => ret None) ;;
                match parsed with
                | None =>
                    ret (mk_Response 400
                           (JObj [("status", JStr "error");
                                  ("message",
                                   JStr "Invalid date/time format for call_time.")]))
                | Some call_time =>
                    emit (EvAddTask (CallTask user_id contact call_time
                            (k_discussion_points data))) ;;
                    immediate <- le_now call_time ;;
                    ret (mk_Response 202
                      (JObj [("status", JStr "success");
                             ("contact_details",
                              JObj [("contact_id", JNum (l_id contact));
                                    ("name", json_of_text (l_name contact));
                                    ("email", json_of_text (l_email contact));
                                    ("phone", json_of_text (l_phone contact));
                                    ("status", json_of_text (l_status contact))]);
                             ("call_details",
                              JObj [("call_time", JStr (PyDatetime.isoformat call_time));
                                    ("discussion_points",
                                     JStr (default "" (k_discussion_points data)))])]))
                end
            end
        | _, _, _ =>
            ret (mk_Response 400
                   (missing_fields ["user_id"; "contact_name"; "call_time"]))
        end)
       (fun e =>
          print "Error in initiate_call" ;;
          raise (HTTPException 500
                   (JObj [("status", JStr "error");
                          ("message", JStr "Internal server error.");
                          ("error_details", JStr (exn_text e))])))).

End InitiateCall.

Definition allowed_message_type (message_type : string) : bool :=
  let t := PyStr.upper message_type in
  String.eqb t "SMS" || String.eqb t "EMAIL".

Definition send_message (data : message_request) : M Response :=
  with_request_session
    (try_except
       (match m_user_id data, m_lead_name data, m_message_type data,
              m_message_content data with
        | Some user_id, Some lead_name, Some message_type, Some message_content =>
            if negb (allowed_message_type message_type) then
              ret (mk_Response 400
                     (JObj [("status", JStr "error");
                            ("message",
                             JStr "Invalid message_type. Allowed values are 'SMS' or 'Email'.")]))
            else
              matching_leads <- query_leads user_id lead_name ;;
              match matching_leads with
              | [] => ret not_found
              | _ :: _ :: _ =>
                  ret (multiple_matches "matching_leads" "lead_id" matching_leads)
              | [lead] =>
                  emit (EvAddTask (MessageTask user_id lead
                          (PyStr.upper message_type) message_content)) ;;
                  ret (mk_Response 202
                    (JObj [("status", JStr "success");
                           ("lead_details",
                            JObj [("lead_id", JNum (l_id lead));
                                  ("name", json_of_text (l_name lead));
                                  ("email", json_of_text (l_email lead));
                                  ("phone", json_of_text (l_phone lead));
                                  ("status", json_of_text (l_status lead))]);
                           ("message_details",
                            JObj [("message_type", JStr (PyStr.upper message_type));
                                  ("message_content", JStr message_content)])]))
              end
        | _, _, _, _ =>
            ret (mk_Response 400
                   (missing_fields ["user_id"; "lead_name"; "message_type";
                                    "message_content"]))
        end)
       (fun e =>
          print "Error in send_message endpoint" ;;
          raise (HTTPException 500
                   (JObj [("status", JStr "error");
                          ("message", JStr "Internal server error.");
                          ("error_details", JStr (exn_text e))])))).

(** The lookup and its outcome as the specification words them: the leads
    of the user whose name contains the given text, letters compared without
    case; none is a 404, one is accepted with 202, several are a 300 that
    lists each of them with id, name, email, phone, status and source. *)
Definition named_like (user_id : Z) (name : string) (lead : Lead) : bool :=
  match l_user_id lead, l_name lead with
  | Some u, Some n => (u =? user_id) && ci_substring name n
  | _, _ => false
  end.

Definition leads_named (user_id : Z) (name : string) (d : DB) : list Lead :=
  List.filter (named_like user_id name) (leads d).





(** The value at a path of keys in a response body. *)
Fixpoint field (path : list string) (v : json) : option json :=
  match path with
  | [] => Some v
  | key :: path' =>
      match jget key v with
      | Some v' => field path' v'
      | None => None
      end
  end.

(** What an accepted booking shows: one lead matched the lookup of the
    code and its name is [lead_details.name]; the submitted start time, with
    every Z replaced by +00:00, parsed to [t]; [start_time] renders [t], with
    +00:00 in place of the Z for a time submitted as YYYY-MM-DDTHH:MM:SSZ and
    with no offset for a time parsed without one; [end_time] renders the time
    exactly one hour after [t] on the same offset. *)
Definition accepted_booking (data : book_request) (db : DB) (r : Response) : Prop :=
  exists user_id name start lead t t',
    b_user_id data = Some user_id /\ b_lead_name data = Some name
    /\ b_start_time data = Some start
    /\ filter_rows (lead_matches user_id name) (leads db) = Some [lead]
    /\ field ["lead_details"; "name"] (content r) = Some (json_of_text (l_name lead))
    /\ PyDatetime.fromisoformat (PyStr.replace_char "Z"%char "+00:00" start) = Some t
    /\ field ["appointment_details"; "start_time"] (content r)
       = Some (JStr (PyDatetime.isoformat t))
    /\ field ["appointment_details"; "end_time"] (content r)
       = Some (JStr (PyDatetime.isoformat t'))
    /\ PyDatetime.wall_micros t' = PyDatetime.wall_micros t + PyDatetime.HOUR_US
    /\ PyDatetime.tzinfo t' = PyDatetime.tzinfo t
    /\ (forall y m d hh mm ss,
          start = PyDatetime.canonical y m d hh mm ss +:+ "Z" ->
          PyDatetime.check_fields (PyDatetime.mk_datetime y m d hh mm ss 0 (Some 0)) = true ->
          PyDatetime.isoformat t = PyDatetime.canonical y m d hh mm ss +:+ "+00:00")
    /\ (PyDatetime.tzinfo t = None -> PyDatetime.microsecond t = 0 ->
        PyDatetime.isoformat t
        = PyDatetime.canonical (PyDatetime.year t) (PyDatetime.month t)
            (PyDatetime.day t) (PyDatetime.hour t) (PyDatetime.minute t)
            (PyDatetime.second t)).

(** Observations on [send_email_notification]. *)
Definition has_summary (event_details : gmap string (option string)) : bool :=
  match event_details !! "summary" with Some _ => true | None => false end.

Definition plain_then_html (e : event) : Prop :=
  match e with
  | EvGmailSend m => map subtype (parts m) = ["plain"; "html"]
  | _ => True
  end.

(** ** Sample data used by the closed examples *)

Definition at_time (y m d hh mm : Z) : PyDatetime.datetime :=
  PyDatetime.mk_datetime y m d hh mm 0 0 None.

Definition sample_now : PyDatetime.datetime := at_time 2024 1 15 12 0.

(** Three minutes and forty-five seconds, google-auth's threshold. *)
Definition sample_threshold : Z := 225 * 1000000.

Definition sample_credentials (expires : PyDatetime.datetime) (rt : option string)
  : Credentials :=
  mk_Credentials (Some "ya29.old") rt (Some "https://oauth2.googleapis.com/token")
    (Some "client-id") (Some "client-secret")
    (Some ["https://www.googleapis.com/auth/calendar"]) (Some expires).

Definition fresh_credentials : Credentials :=
  sample_credentials (at_time 2024 1 15 13 0) (Some "1//refresh").

Definition stale_credentials : Credentials :=
  sample_credentials (at_time 2024 1 15 11 0) (Some "1//refresh").

Definition stale_credentials_no_refresh_token : Credentials :=
  sample_credentials (at_time 2024 1 15 11 0) None.

Definition sample_endpoint (c : Credentials)
  : string * option PyDatetime.datetime * option string :=
  ("ya29.new", Some (at_time 2024 1 15 13 0), None).

Definition empty_db : DB := mk_DB [] [] [] [] [] [].

(** User 1 connected earlier as agent@example.com. *)
Definition connected_db : DB :=
  mk_DB [mk_User 1 "Ada Agent"] []
    [mk_Integration 1 google_calendar
       (credentials_dict stale_credentials (JStr "agent@example.com"))]
    [mk_IntegrationStatus 1 google_calendar "active" (at_time 2024 1 1 9 0)]
    [] [].

Definition granted_without_refresh_token : Credentials :=
  mk_Credentials (Some "ya29.first") None (Some "https://oauth2.googleapis.com/token")
    (Some "client-id") (Some "client-secret")
    (Some ["https://www.googleapis.com/auth/calendar"]) (Some (at_time 2024 1 15 13 0)).

Definition state_of_user_1 : state_param :=
  StateJson (JObj [("user_id", JStr "1"); ("prompt", JStr "consent")]).

(** A call record for user 1 and lead 5 without the duration key. *)
Definition call_without_duration : communication_request :=
  mk_communication_request (Some 1) (Some "CALL") (Some "completed")
    (Some (JObj [("notes", JStr "left a voicemail")]))
    (Some 5) None None (Some "call_17") None.

Definition sample_lead (id user_id : Z) (name : string) : Lead :=
  mk_Lead id (Some user_id) (Some "website") (Some name)
    (Some "lead@example.com") (Some "+15550100") (Some "new").

(** User 1 has four leads, user 2 one. *)
Definition leads_db : DB :=
  mk_DB [mk_User 1 "Ada Agent"; mk_User 2 "Bo Broker"]
    [sample_lead 1 1 "John Smith"; sample_lead 2 1 "Jane Smithers";
     sample_lead 3 1 "Bob Stone"; sample_lead 4 2 "Smithy"; sample_lead 5 1 "abc"]
    [] [] [] [].

Definition booking (name start : string) : book_request :=
  mk_book_request (Some 1) (Some name) (Some start) None None None.

Definition calling (name call_time : string) : call_request :=
  mk_call_request (Some 1) (Some name) (Some call_time) None.

Definition messaging (name message_type : string) : message_request :=
  mk_message_request (Some 1) (Some name) (Some message_type) (Some "Are you free on Monday?").

(* ------------------------------------------------------------------ *)
(** * Further functions and observations *)
(* ------------------------------------------------------------------ *)

(** ** Counting what a trace holds *)

Definition count_events (p : event -> bool) (t : list event) : nat :=
  length (List.filter p t).

Definition is_token_refresh (e : event) : bool :=
  match e with EvTokenRefresh => true | _ => false end.

Definition is_select (e : event) : bool :=
  match e with EvSelect _ => true | _ => false end.

Definition is_add_task (e : event) : bool :=
  match e with EvAddTask _ => true | _ => false end.

Definition is_gmail_send (e : event) : bool :=
  match e with EvGmailSend _ => true | _ => false end.

(** The bundle can be refreshed: it is past its expiry, carries a non-empty
    refresh token and the three client fields the grant needs. *)
Definition refreshable (utcnow : PyDatetime.datetime) (threshold : Z)
  (credentials : Credentials) : Prop :=
  expired_value utcnow threshold credentials = Ok true
  /\ text_truthy (refresh_token credentials) = true
  /\ is_none (token_uri credentials) = false
  /\ is_none (client_id credentials) = false
  /\ is_none (client_secret credentials) = false.

(** The (user, platform) key of every row of [integrations], in table
    order, and the rows that belong to other pairs than the given one. *)
Definition integration_keys (d : DB) : list (Z * string) :=
  map (fun r => (i_user_id r, i_platform_name r)) (integrations d).

Definition other_bundles (user_id : Z) (platform_name : string) (d : DB)
  : list Integration :=
  List.filter (fun r => negb (integration_matches user_id platform_name r))
    (integrations d).

(** The message [send_email_notification] builds for a summary. *)
Definition invitation_message (sender_email recipient_email summary : string)
  (event_details : gmap string (option string)) : mime_message :=
  mk_message [("to", recipient_email); ("from", sender_email);
              ("subject", "Calendar Invitation: " +:+ summary)]
             [mk_part "plain" (text_content summary event_details);
              mk_part "html" (html_content event_details)].

(** The row [save_communication] adds for a request: the class follows from
    which of [lead_id] and [drew_id] is truthy. *)
Definition communication_of (data : communication_request)
  (user_id : Z) (type status : string) (details : json) : Communication :=
  if int_truthy (cr_lead_id data) && text_truthy (cr_drew_id data) then
    mk_Communication DrewLeadCommunication user_id (cr_lead_id data) (cr_drew_id data)
      type status details
  else if int_truthy (cr_lead_id data) then
    mk_Communication UserLeadCommunication user_id (cr_lead_id data) None
      type status details
  else
    mk_Communication UserDrewCommunication user_id None (cr_drew_id data)
      type status details.

(** What a 201 of [save_communication] has persisted. *)
Definition communication_saved (data : communication_request) (db after : DB) : Prop :=
  exists user_id type status details,
    cr_user_id data = Some user_id /\ cr_type data = Some type
    /\ cr_status data = Some status /\ cr_details data = Some details
    /\ (int_truthy (cr_lead_id data) || text_truthy (cr_drew_id data)) = true
    /\ List.find (fun u => u_id u =? user_id) (users db) <> None
    /\ communications after
       = communications db ++ [communication_of data user_id type status details]
    /\ (if String.eqb (PyStr.upper type) "CALL"
        then exists call_time duration call_id,
               cr_duration data = Some duration /\ cr_call_id data = Some call_id
               /\ calls after
                  = calls db ++ [mk_Call user_id call_time status duration call_id]
        else calls after = calls db)
    /\ users after = users db /\ leads after = leads db
    /\ integrations after = integrations db
    /\ integration_status after = integration_status db.

(** A note on lead 5 by user 1, and a finished call reported in lower case. *)
Definition note_request : communication_request :=
  mk_communication_request (Some 1) (Some "EMAIL") (Some "sent")
    (Some (JObj [("subject", JStr "Viewing"); ("body", JStr "See you at ten.")]))
    (Some 5) None None None None.

Definition lowercase_call_request : communication_request :=
  mk_communication_request (Some 1) (Some "call") (Some "completed")
    (Some (JObj [("notes", JStr "asked for a callback")]))
    (Some 5) (Some "agent_drew") (Some 120) (Some "call_18")
    (Some "2024-01-15T14:00:00Z").

(** A lead of the user that has a name. *)
Definition named_lead_of (user_id : Z) (lead : Lead) : bool :=
  match l_user_id lead, l_name lead with
  | Some u, Some _ => u =? user_id
  | _, _ => false
  end.

(** ** Date arithmetic of [datetime] used when stored credentials are read *)

Definition DI400Y : Z := 146097.
Definition DI100Y : Z := 36524.
Definition DI4Y : Z := 1461.
Definition MAXORDINAL : Z := 3652059.

(** [_DAYS_IN_MONTH] *)
Definition DAYS_IN_MONTH (m : Z) : Z :=
  nth (Z.to_nat m) [-1; 31; 28; 31; 30; 31; 30; 31; 31; 30; 31; 30; 31] 0.

(** [_ord2ymd]: the date of ordinal [n], January 1st of year 1 being 1. *)
Definition ord2ymd (n : Z) : Z * Z * Z :=
  let n := n - 1 in
  let n400 := n / DI400Y in
  let n := n mod DI400Y in
  let year := n400 * 400 + 1 in
  let n100 := n / DI100Y in
  let n := n mod DI100Y in
  let n4 := n / DI4Y in
  let n := n mod DI4Y in
  let n1 := n / 365 in
  let n := n mod 365 in
  let year := year + n100 * 100 + n4 * 4 + n1 in
  if (n1 =? 4) || (n100 =? 4) then (year - 1, 12, 31)
  else
    let leapyear := (n1 =? 3) && (negb (n4 =? 24) || (n100 =? 3)) in
    let month := Z.shiftr (n + 50) 5 in
    let preceding :=
      PyDatetime.DAYS_BEFORE_MONTH month + (if (2 <? month) && leapyear then 1 else 0) in
    if n <? preceding then
      let month := month - 1 in
      let preceding :=
        preceding - (DAYS_IN_MONTH month + (if (month =? 2) && leapyear then 1 else 0)) in
      (year, month, n - preceding + 1)
    else (year, month, n - preceding + 1).

(** [dt + timedelta(microseconds=us)]: the sum is normalised to days,
    seconds and microseconds, the time zone is kept, and a day outside
    [1 .. _MAXORDINAL] is [OverflowError] ([None]). *)
Definition add_timedelta (dt : PyDatetime.datetime) (us : Z) : option PyDatetime.datetime :=
  let total := PyDatetime.wall_micros dt + us in
  let microseconds := total mod 1000000 in
  let s := total / 1000000 in
  let seconds := s mod 86400 in
  let days := s / 86400 in
  if (0 <? days) && (days <=? MAXORDINAL) then
    let '(y, m, d) := ord2ymd days in
    Some (PyDatetime.mk_datetime y m d
            (seconds / 3600) (seconds mod 3600 / 60) (seconds mod 3600 mod 60)
            microseconds (PyDatetime.tzinfo dt))
  else None.

(** [dt.replace(tzinfo=tz)] *)
Definition replace_tzinfo (tz : option Z) (dt : PyDatetime.datetime) : PyDatetime.datetime :=
  PyDatetime.mk_datetime (PyDatetime.year dt) (PyDatetime.month dt) (PyDatetime.day dt)
    (PyDatetime.hour dt) (PyDatetime.minute dt) (PyDatetime.second dt)
    (PyDatetime.microsecond dt) tz.

(** ** google_integration.py: [get_user_credentials] *)

(** The [Credentials] object built from a stored dict: the six constructor
    arguments are the stored values as they are, whatever their JSON type. *)
Record LoadedCredentials := mk_LoadedCredentials {
  ld_token : json;
  ld_refresh_token : json;
  ld_token_uri : json;
  ld_client_id : json;
  ld_client_secret : json;
  ld_scopes : json;
  ld_expiry : option PyDatetime.datetime
}.

(** [creds_data[key]] *)
Definition item (creds_data : gmap string json) (key : string) : M json :=
  match creds_data !! key with
  | Some v => ret v
  | None => raise (KeyError key)
  end.

Section GetUserCredentials.

(** The UTC offset, in microseconds, that the host's local time zone has at
    a naive wall-clock time; [None] when the platform cannot convert the
    time. *)
Variable local_utcoffset : PyDatetime.datetime -> option Z.

(** [dt.astimezone(timezone.utc)]: a naive value is taken as local time of
    the host; a value that is already in UTC is returned as it is;
    otherwise the offset is subtracted. *)
Definition astimezone_utc (dt : PyDatetime.datetime) : result PyDatetime.datetime :=
  match PyDatetime.tzinfo dt with
  | Some off =>
      if off =? 0 then Ok dt
      else match add_timedelta dt (- off) with
           | Some utc => Ok (replace_tzinfo (Some 0) utc)
           | None => Raise OverflowError
           end
  | None =>
      match local_utcoffset dt with
      | Some off =>
          match add_timedelta dt (- off) with
          | Some utc => Ok (replace_tzinfo (Some 0) utc)
          | None => Raise OverflowError
          end
      | None => Raise OverflowError
      end
  end.

(** Lines 116-119: the stored expiry as a naive UTC time. *)
Definition load_expiry (creds_data : gmap string json) : M (option PyDatetime.datetime) :=
  match creds_data !! "expiry" with
  | Some v =>
      if truthy v then
        match v with
        | JStr s =>
            match PyDatetime.fromisoformat (PyStr.replace_char "Z"%char "+00:00" s) with
            | Some dt =>
                utc <- lift (astimezone_utc dt) ;;
                ret (Some (replace_tzinfo None utc))
            | None => raise ValueError
            end
        | _ => raise AttributeError
        end
      else ret None
  | None => ret None
  end.

Definition get_user_credentials (user_id : Z) (platform_name : string)
  : M (option LoadedCredentials) :=
  SessionLocal ;;
  try_finally
    (try_except
       (integration <- select "integrations"
          (fun d => List.find (integration_matches user_id platform_name) (integrations d)) ;;
        match integration with
        | None => ret None
        | Some integration =>
            if bool_decide (i_credentials integration = ∅) then ret None
            else
              let creds_data := i_credentials integration in
              token <- item creds_data "token" ;;
              refresh_token <- item creds_data "refresh_token" ;;
              token_uri <- item creds_data "token_uri" ;;
              client_id <- item creds_data "client_id" ;;
              client_secret <- item creds_data "client_secret" ;;
              scopes <- item creds_data "scopes" ;;
              expiry <- load_expiry creds_data ;;
              ret (Some (mk_LoadedCredentials token refresh_token token_uri client_id
                           client_secret scopes expiry))
        end)
       (fun e => print "Error retrieving credentials from database" ;; ret None))
    close.

End GetUserCredentials.

(** The values a typed [Credentials] object stores, as they are read back. *)
Definition loaded_fields (credentials : Credentials) (expiry : option PyDatetime.datetime)
  : LoadedCredentials :=
  mk_LoadedCredentials (json_of_text (token credentials))
    (json_of_text (refresh_token credentials)) (json_of_text (token_uri credentials))
    (json_of_text (client_id credentials)) (json_of_text (client_secret credentials))
    (json_of_scopes (scopes credentials)) expiry.

(** ** Checking the date arithmetic on one 400-year cycle *)

(** [p] holds for the [count] integers from [start] on. *)
Fixpoint all_from (p : Z -> bool) (start : Z) (count : nat) : bool :=
  match count with
  | O => true
  | S c => p start && all_from p (start + 1) c
  end.

Definition valid_date (y m d : Z) : bool :=
  (1 <=? m) && (m <=? 12) && (1 <=? d) && (d <=? PyDatetime.days_in_month y m).

(** The ordinal [n] of the first cycle is the ordinal of the date
    [ord2ymd] gives for it, a date of the years 1 to 400 and, up to the
    last day of year 399, of the years 1 to 399. *)
Definition ordinal_ok (n : Z) : bool :=
  let '(y, m, d) := ord2ymd n in
  (1 <=? y) && (y <=? 400) && ((y <=? 399) || (145731 <? n))
  && valid_date y m d && (PyDatetime.ymd2ord y m d =? n).

(** The date [(y, m, d)], when it is one, has an ordinal of the first cycle
    and [ord2ymd] gives the date back. *)
Definition date_ok (y m d : Z) : bool :=
  negb (valid_date y m d)
  || (let n := PyDatetime.ymd2ord y m d in
      (1 <=? n) && (n <=? DI400Y) && ((400 <=? y) || (n <=? 145731))
      && (let '(y2, m2, d2) := ord2ymd n in (y2 =? y) && (m2 =? m) && (d2 =? d))).

(** The dict holds the fields of [credentials] under the seven keys that
    [get_user_credentials] looks at. *)
Definition stores (d : gmap string json) (credentials : Credentials) : Prop :=
  d !! "token" = Some (json_of_text (token credentials))
  /\ d !! "refresh_token" = Some (json_of_text (refresh_token credentials))
  /\ d !! "token_uri" = Some (json_of_text (token_uri credentials))
  /\ d !! "client_id" = Some (json_of_text (client_id credentials))
  /\ d !! "client_secret" = Some (json_of_text (client_secret credentials))
  /\ d !! "scopes" = Some (json_of_scopes (scopes credentials))
  /\ d !! "expiry" = Some (json_of_expiry (expiry credentials)).

(** The expiry of [credentials] is absent or a valid naive time, as
    google-auth keeps it. *)
Definition naive_expiry (credentials : Credentials) : Prop :=
  match expiry credentials with
  | None => True
  | Some e => PyDatetime.check_fields e = true /\ PyDatetime.tzinfo e = None
  end.

(** The offset [astimezone] subtracts from a time: its own, or the host's
    for a naive time. *)
Definition offset_of (local_utcoffset : PyDatetime.datetime -> option Z)
  (dt : PyDatetime.datetime) : option Z :=
  match PyDatetime.tzinfo dt with
  | Some off => Some off
  | None => local_utcoffset dt
  end.

(** ** routes.py: [search_leads] *)

(** [data.get(key)] on the decoded body: only a dict has [get]. *)
Definition dict_get (key : string) (data : json) : M json :=
  match data with
  | JObj l => ret (default JNull (assoc key l))
  | _ => raise AttributeError
  end.

Section SearchLeads.

(** [str(v)] for a decoded value that is not a string, and the dict of the
    ten columns built for a row (lines 855-866); the columns beyond those of
    [Lead] are not followed here, so the dict is kept as it comes. *)
Variable str_of : json -> string.
Variable lead_data : Lead -> json.

(** The text the f-string puts between the two percent signs. *)
Definition formatted (search_term : json) : string :=
  match search_term with
  | JStr s => s
  | v => str_of v
  end.

(** The body is the decoded JSON, or [None] when it cannot be decoded. *)
Definition search_leads (body : option json) : M Response :=
  with_request_session
    (try_except
       (data <- match body with
                | Some v => ret v
                | None => raise ValueError
                end ;;
        print "Initial request data" ;;
        if negb (truthy data) then
          raise (HTTPException 400 (JObj [("error", JStr "No JSON data provided")]))
        else
          user_id <- dict_get "user_id" data ;;
          search_term <- dict_get "search_term" data ;;
          if negb (truthy user_id) || negb (truthy search_term) then
            raise (HTTPException 400 (JObj [("error",
              JStr "Missing required fields: 'user_id' and 'search_term' must be provided.")]))
          else
            user_id <- try_except (lift (py_int user_id))
              (fun e =>
                 match e with
                 | ValueError =>
                     raise (HTTPException 400 (JObj [("error",
                       JStr "Invalid user_id format. It must be convertible to an integer.")]))
                 | _ => raise e
                 end) ;;
            matching_leads <- query_leads user_id (formatted search_term) ;;
            let leads_list := map lead_data matching_leads in
            print "Lead list" ;;
            ret (mk_Response 200 (JArr leads_list)))
       (fun e =>
          print "Error in /search_leads" ;;
          raise (HTTPException 500 (JObj [("error", JStr (exn_text e))])))).

End SearchLeads.

(** A search request as the documented client sends it. *)
Definition search_request (user_id : json) (search_term : string) : option json :=
  Some (JObj [("user_id", user_id); ("search_term", JStr search_term)]).

(** ** Further sample data *)

(** A host whose local time is always [off] microseconds ahead of UTC. *)
Definition host_at (off : Z) : PyDatetime.datetime -> option Z := fun _ => Some off.

(** User 1 connected, but the stored dict has lost its [scopes] key. *)
Definition damaged_db : DB :=
  mk_DB [mk_User 1 "Ada Agent"] []
    [mk_Integration 1 google_calendar
       (delete "scopes" (credentials_dict stale_credentials (JStr "agent@example.com")))]
    [] [] [].

(* ------------------------------------------------------------------ *)
(** * Properties *)
(* ------------------------------------------------------------------ *)

(** ** Draft cleaning *)

Section Cleaning.
Import PyStr.

Lemma append_length a b :
  String.length (a +:+ b) = (String.length a + String.length b)%nat.
Proof. induction a as [|c a IH]; simpl; [reflexivity|]. now rewrite IH. Qed.

Lemma lstrip_length s : (String.length (lstrip s) <= String.length s)%nat.
Proof.
  induction s as [|c s IH]; simpl; [lia|].
  destruct (isspace c); simpl; lia.
Qed.

Lemma rstrip_length s : (String.length (rstrip s) <= String.length s)%nat.
Proof.
  induction s as [|c s IH]; simpl; [lia|].
  destruct (rstrip s); [destruct (isspace c)|]; simpl in *; lia.
Qed.

Lemma strip_length s : (String.length (strip s) <= String.length s)%nat.
Proof.
  unfold strip. pose proof (lstrip_length (rstrip s)).
  pose proof (rstrip_length s). lia.
Qed.

Lemma lstrip_lstrip s : lstrip (lstrip s) = lstrip s.
Proof.
  induction s as [|c s IH]; simpl; [reflexivity|].
  destruct (isspace c) eqn:E; [exact IH|]. simpl. now rewrite E.
Qed.

Lemma rstrip_rstrip s : rstrip (rstrip s) = rstrip s.
Proof.
  induction s as [|c s IH]; simpl; [reflexivity|].
  destruct (rstrip s) as [|a r] eqn:E.
  - destruct (isspace c) eqn:Ec; simpl; [reflexivity|]. now rewrite Ec.
  - change (rstrip (String c (String a r))) with
      (match rstrip (String a r) with
       | EmptyString => if isspace c then EmptyString else String c EmptyString
       | x => String c x end).
    now rewrite IH.
Qed.

Lemma rstrip_lstrip s : rstrip (lstrip s) = lstrip (rstrip s).
Proof.
  induction s as [|c s IH]; simpl; [reflexivity|].
  destruct (isspace c) eqn:Ec.
  - rewrite IH. destruct (rstrip s) as [|a r]; simpl; [reflexivity|].
    now rewrite Ec.
  - simpl. destruct (rstrip s) as [|a r]; simpl; now rewrite Ec.
Qed.

Lemma strip_strip s : strip (strip s) = strip s.
Proof.
  unfold strip. now rewrite rstrip_lstrip, rstrip_rstrip, lstrip_lstrip.
Qed.

Lemma lower_length s : String.length (lower s) = String.length s.
Proof. induction s; simpl; congruence. Qed.

Lemma drop_length i s : (String.length (drop i s) <= String.length s - i)%nat.
Proof.
  revert s; induction i as [|i IH]; intros [|c s]; simpl; try lia.
  apply IH.
Qed.

Lemma take_length n s : (String.length (take n s) <= n)%nat.
Proof.
  revert s; induction n as [|n IH]; intros [|c s]; simpl; try lia.
  specialize (IH s). lia.
Qed.

Lemma startswith_length s p :
  startswith s p = true -> (String.length p <= String.length s)%nat.
Proof.
  revert s; induction p as [|a p IH]; intros [|b s]; simpl; try lia;
    try discriminate.
  intros H. apply andb_prop in H as [_ H]. apply IH in H. lia.
Qed.

Lemma join_cons_length l ls :
  (String.length l + String.length (join nl ls)
   <= String.length (join nl (l :: ls)))%nat.
Proof.
  destruct ls as [|l' ls]; [simpl; lia|].
  change (join nl (l :: l' :: ls)) with (l +:+ nl +:+ join nl (l' :: ls)).
  rewrite !append_length. lia.
Qed.

Lemma join_push c l ls :
  join nl (String c l :: ls) = String c (join nl (l :: ls)).
Proof. destruct ls; reflexivity. Qed.

Lemma join_empty_head_length ls :
  (String.length (join nl (EmptyString :: ls)) <= S (String.length (join nl ls)))%nat.
Proof.
  destruct ls as [|l ls]; [simpl; lia|].
  change (join nl (EmptyString :: l :: ls)) with (nl +:+ join nl (l :: ls)).
  rewrite append_length. simpl. lia.
Qed.

Lemma splitlines_join_length_fuel n :
  forall s, (String.length s <= n)%nat ->
  (String.length (join nl (splitlines s)) <= String.length s)%nat.
Proof.
  induction n as [|n IH]; intros [|c s] Hn;
    cbn [splitlines String.length] in *; try (simpl; lia).
  destruct (is_cr c).
  - destruct s as [|c2 s2]; [simpl; lia|].
    cbn [String.length] in *.
    destruct (is_lf c2).
    + pose proof (join_empty_head_length (splitlines s2)).
      assert (String.length (join nl (splitlines s2)) <= String.length s2)%nat
        by (apply IH; lia).
      lia.
    + pose proof (join_empty_head_length (splitlines (String c2 s2))).
      assert (String.length (join nl (splitlines (String c2 s2)))
              <= String.length (String c2 s2))%nat
        by (apply IH; cbn [String.length]; lia).
      cbn [String.length] in *. lia.
  - assert (Hs : (String.length (join nl (splitlines s)) <= String.length s)%nat)
      by (apply IH; lia).
    destruct (is_linebreak c).
    + pose proof (join_empty_head_length (splitlines s)). lia.
    + destruct (splitlines s) as [|l ls]; [simpl; lia|].
      rewrite join_push. cbn [String.length]. lia.
Qed.

Lemma splitlines_join_length s :
  (String.length (join nl (splitlines s)) <= String.length s)%nat.
Proof. now apply (splitlines_join_length_fuel (String.length s)). Qed.

Lemma splitlines_tail_length s l ls :
  splitlines s = l :: ls ->
  (String.length l + String.length (join nl ls) <= String.length s)%nat.
Proof.
  intros E. pose proof (splitlines_join_length s) as H. rewrite E in H.
  pose proof (join_cons_length l ls). lia.
Qed.

Lemma clean_stages s :
  clean_generated_email s = remove_html_line (remove_fences (strip s)).
Proof.
  unfold clean_generated_email, remove_html_line, remove_fences, html_led, is_fenced.
  destruct (startswith (strip s) fence && endswith (strip s) fence);
    match goal with |- context [splitlines ?x] => destruct (splitlines x) end;
    try reflexivity;
    match goal with |- context [String.eqb ?a ?b] => destruct (String.eqb a b) end;
    reflexivity.
Qed.

Lemma remove_fences_stripped t : strip t = t -> strip (remove_fences t) = remove_fences t.
Proof.
  intros H. unfold remove_fences. destruct (is_fenced t); [apply strip_strip|exact H].
Qed.

Lemma remove_html_line_stripped t :
  strip t = t -> strip (remove_html_line t) = remove_html_line t.
Proof.
  intros H. unfold remove_html_line. destruct (html_led t); [apply strip_strip|exact H].
Qed.

Lemma clean_stripped s : strip (clean_generated_email s) = clean_generated_email s.
Proof.
  rewrite clean_stages.
  apply remove_html_line_stripped, remove_fences_stripped, strip_strip.
Qed.

Lemma remove_html_line_length t :
  (String.length (remove_html_line t) <= String.length t)%nat.
Proof.
  unfold remove_html_line, html_led.
  destruct (splitlines t) as [|l ls] eqn:E; [lia|].
  destruct (String.eqb _ _); [|lia].
  pose proof (splitlines_tail_length _ _ _ E).
  pose proof (strip_length (join nl (tail (l :: ls)))). simpl in *. lia.
Qed.

Lemma remove_html_line_shrinks t :
  html_led t = true ->
  (String.length (remove_html_line t) < String.length t)%nat.
Proof.
  unfold remove_html_line. intros H. rewrite H. unfold html_led in H.
  destruct (splitlines t) as [|l ls] eqn:E; [discriminate|].
  apply String.eqb_eq in H.
  assert (String.length l >= 4)%nat.
  { pose proof (strip_length l). rewrite <- (lower_length (strip l)), H in H0.
    simpl in H0. lia. }
  pose proof (splitlines_tail_length _ _ _ E).
  pose proof (strip_length (join nl (tail (l :: ls)))). simpl in *. lia.
Qed.

Lemma remove_fences_shrinks t :
  is_fenced t = true ->
  (String.length (remove_fences t) < String.length t)%nat.
Proof.
  unfold remove_fences. intros H. rewrite H. unfold is_fenced in H.
  apply andb_prop in H as [H _]. apply startswith_length in H.
  change (String.length fence) with 3%nat in H.
  pose proof (strip_length (slice_neg 3 3 t)). unfold slice_neg in *.
  pose proof (drop_length 3 (take (String.length t - 3) t)).
  pose proof (take_length (String.length t - 3) t). lia.
Qed.

Lemma clean_fixed_point t :
  strip t = t ->
  (clean_generated_email t = t <-> is_fenced t = false /\ html_led t = false).
Proof.
  intros Ht. rewrite clean_stages, Ht. split.
  - intros E. destruct (is_fenced t) eqn:Ef.
    + pose proof (remove_fences_shrinks t Ef).
      pose proof (remove_html_line_length (remove_fences t)).
      rewrite E in *. lia.
    + assert (remove_fences t = t) as R by (unfold remove_fences; now rewrite Ef).
      rewrite R in E. destruct (html_led t) eqn:Eh; [|easy].
      pose proof (remove_html_line_shrinks t Eh). rewrite E in *. lia.
  - intros [Ef Eh]. unfold remove_fences. rewrite Ef.
    unfold remove_html_line. now rewrite Eh.
Qed.

End Cleaning.

(** C7 (as amended). [clean_generated_email] maps the fenced sample to
    "Hello" and leaves "Hello" alone; cleaning a second time changes
    nothing exactly when the once-cleaned text is neither wrapped in triple
    backticks nor led by a bare "html" line. *)
Theorem clean_generated_email_twice :
  clean_generated_email ("```html" +:+ PyStr.nl +:+ "Hello" +:+ PyStr.nl +:+ "```") = "Hello"
  /\ clean_generated_email "Hello" = "Hello"
  /\ forall s,
       clean_generated_email (clean_generated_email s) = clean_generated_email s
       <-> is_fenced (clean_generated_email s) = false
           /\ html_led (clean_generated_email s) = false.
Proof.
  split; [reflexivity|]. split; [reflexivity|].
  intros s. apply clean_fixed_point, clean_stripped.
Qed.

Lemma clean_generated_email_twice_witness :
  clean_generated_email (clean_generated_email " Hello ") = clean_generated_email " Hello ".
Proof.
  apply (proj2 (proj2 clean_generated_email_twice) " Hello "). split; reflexivity.
Defined.

(** C7, counterexample: a draft wrapped in two levels of fences loses one
    level per cleaning, so cleaning twice differs from cleaning once. *)
Lemma clean_generated_email_not_idempotent :
  clean_generated_email (clean_generated_email "``````Hello``````")
  <> clean_generated_email "``````Hello``````".
Proof. vm_compute. discriminate. Qed.

(** ** Credential store *)

Section Rows.
Context {A : Type}.
Implicit Types (p q : A -> bool) (f : A -> A) (l : list A).

Lemma first_index_none p l :
  first_index p l = None -> List.find p l = None /\ List.filter p l = [].
Proof.
  induction l as [|x l IH]; cbn; [easy|].
  destruct (p x); [discriminate|].
  destruct (first_index p l); [discriminate|]. auto.
Qed.

Lemma first_index_some p l i :
  first_index p l = Some i ->
  exists x, List.find p l = Some x /\ l !! i = Some x /\ p x = true.
Proof.
  revert i; induction l as [|x l IH]; cbn; intros i; [discriminate|].
  destruct (p x) eqn:E.
  - intros [= <-]. eauto.
  - destruct (first_index p l) as [j|]; [|discriminate].
    intros [= <-]. destruct (IH j eq_refl) as (y & ? & ? & ?). eauto.
Qed.

Lemma find_alter_first p f l i :
  (forall x, p (f x) = p x) ->
  first_index p l = Some i ->
  List.find p (alter f i l) = option_map f (List.find p l).
Proof.
  intros Hf. revert i; induction l as [|x l IH]; cbn; intros i; [discriminate|].
  destruct (p x) eqn:E.
  - intros [= <-]. cbn. now rewrite Hf, E.
  - destruct (first_index p l) as [j|]; [|discriminate].
    intros [= <-]. cbn. rewrite E. now apply IH.
Qed.

Lemma filter_alter_length p f l i :
  (forall x, p (f x) = p x) ->
  length (List.filter p (alter f i l)) = length (List.filter p l).
Proof.
  intros Hf. revert i; induction l as [|x l IH]; intros [|i]; cbn; try easy.
  - rewrite Hf. now destruct (p x).
  - destruct (p x); cbn; now rewrite IH.
Qed.

Lemma filter_alter_other p q f l i :
  (forall x, p x = true -> q x = false /\ q (f x) = false) ->
  first_index p l = Some i ->
  List.filter q (alter f i l) = List.filter q l.
Proof.
  intros Hq. revert i; induction l as [|x l IH]; cbn; intros i; [discriminate|].
  destruct (p x) eqn:E.
  - intros [= <-]. cbn. destruct (Hq x E) as [-> ->]. reflexivity.
  - destruct (first_index p l) as [j|]; [|discriminate].
    intros [= <-]. cbn. rewrite (IH j eq_refl). reflexivity.
Qed.

Lemma find_app_none p l x :
  List.find p l = None -> List.find p (l ++ [x]) = List.find p [x].
Proof.
  induction l as [|y l IH]; cbn; [easy|]. destruct (p y); [discriminate|exact IH].
Qed.

Lemma find_filter_head p l : List.find p l = head (List.filter p l).
Proof. induction l as [|x l IH]; cbn; [easy|]. now destruct (p x). Qed.

End Rows.

Ltac unfold_py :=
  unfold run, with_begin, select, commit, expired, lift,
    try_finally, try_except, bind, SessionLocal, emit, fallible, get_state,
    ret, modify, persist, rollback, raise, print, emit, close in *.

Ltac script fs :=
  let b := fresh "b" in
  destruct fs as [|b fs]; [|destruct b].

Section SaveIntegration.
Variable utcnow : PyDatetime.datetime.

Lemma integration_matches_refl u p c :
  integration_matches u p (mk_Integration u p c) = true.
Proof.
  unfold integration_matches, same_key; cbn.
  now rewrite Z.eqb_refl, String.eqb_refl.
Qed.

Lemma status_matches_refl u p s t :
  status_matches u p (mk_IntegrationStatus u p s t) = true.
Proof.
  unfold status_matches, same_key; cbn.
  now rewrite Z.eqb_refl, String.eqb_refl.
Qed.

Lemma same_key_exclusive u p u' p' a b :
  same_key u p u' p' = false ->
  same_key u p a b = true -> same_key u' p' a b = false.
Proof.
  unfold same_key. intros H1 H2.
  apply andb_prop in H2 as [Ha Hb].
  apply Z.eqb_eq in Ha. apply String.eqb_eq in Hb. subst.
  apply andb_false_iff in H1. apply andb_false_iff.
  destruct H1 as [H|H]; [left|right].
  - rewrite Z.eqb_sym. exact H.
  - rewrite String.eqb_sym. exact H.
Qed.

(** The rows of [integrations] after a successful save. *)
Lemma upsert_bundle u (c : gmap string json) (l : list Integration) :
  let p := integration_matches u google_calendar in
  let l' := match first_index p l with
            | None => l ++ [mk_Integration u google_calendar c]
            | Some i => alter (set_credentials c) i l
            end in
  option_map i_credentials (List.find p l') = Some c
  /\ length (List.filter p l') = Nat.max 1 (length (List.filter p l))
  /\ forall u' p', same_key u google_calendar u' p' = false ->
       List.filter (integration_matches u' p') l'
       = List.filter (integration_matches u' p') l.
Proof.
  intros p l'. subst l'.
  destruct (first_index p l) as [i|] eqn:E.
  - destruct (first_index_some _ _ _ E) as (x & Hx & _ & Hp).
    split; [|split].
    + rewrite find_alter_first by easy. now rewrite Hx.
    + rewrite filter_alter_length by easy.
      rewrite find_filter_head in Hx.
      destruct (List.filter p l); [discriminate|cbn; lia].
    + intros u' p' Hk. apply (filter_alter_other p); [|exact E].
      intros y Hy. unfold integration_matches in *. cbn.
      split; eapply same_key_exclusive; eauto.
  - destruct (first_index_none _ _ E) as [Hf Hl].
    split; [|split].
    + rewrite find_app_none by exact Hf. cbn. subst p.
      now rewrite integration_matches_refl.
    + rewrite List.filter_app, Hl. cbn. subst p.
      now rewrite integration_matches_refl.
    + intros u' p' Hk. rewrite List.filter_app. cbn.
      unfold integration_matches at 2. cbn.
      rewrite (same_key_exclusive _ _ _ _ _ _ Hk) by
        (unfold same_key; now rewrite Z.eqb_refl, String.eqb_refl).
      apply app_nil_r.
Qed.

Lemma upsert_status u (l : list IntegrationStatus) :
  let p := status_matches u google_calendar in
  let l' := match first_index p l with
            | None => l ++ [mk_IntegrationStatus u google_calendar "active" utcnow]
            | Some i => alter (fun r => mk_IntegrationStatus (s_user_id r)
                                 (s_platform_name r) "active" utcnow) i l
            end in
  option_map (fun r => (s_status r, s_last_checked r)) (List.find p l')
    = Some ("active", utcnow)
  /\ length (List.filter p l') = Nat.max 1 (length (List.filter p l)).
Proof.
  intros p l'. subst l'.
  destruct (first_index p l) as [i|] eqn:E.
  - destruct (first_index_some _ _ _ E) as (x & Hx & _ & Hp).
    split.
    + rewrite find_alter_first by easy. now rewrite Hx.
    + rewrite filter_alter_length by easy.
      rewrite find_filter_head in Hx.
      destruct (List.filter p l); [discriminate|cbn; lia].
  - destruct (first_index_none _ _ E) as [Hf Hl].
    split.
    + rewrite find_app_none by exact Hf. cbn. subst p.
      now rewrite status_matches_refl.
    + rewrite List.filter_app, Hl. cbn. subst p.
      now rewrite status_matches_refl.
Qed.

(** C2. [save_integration_to_db] either returns, and then the pair
    (user, google_calendar) has the new bundle as its first row, as many rows
    as before but at least one, an [active] status stamped with the current
    time, and every other pair keeps its rows; or it raises the database
    error it met, and then the committed rows are exactly those before the
    call.  It raises exactly when one of its three database operations (two
    selects and the commit) fails. *)
Theorem save_integration_to_db_atomic_upsert
  (credentials : Credentials) (email : json) (user_id : Z) (db : DB) (fs : list bool) :
  let '(r, st) := run (save_integration_to_db utcnow credentials email user_id) db fs in
  is_raise r = existsb id (firstn 3 fs)
  /\ match r with
     | Ok _ =>
         bundle_of user_id google_calendar (committed st)
           = Some (credentials_dict credentials email)
         /\ bundle_count user_id google_calendar (committed st)
            = Nat.max 1 (bundle_count user_id google_calendar db)
         /\ status_of user_id google_calendar (committed st)
            = Some ("active", utcnow)
         /\ status_count user_id google_calendar (committed st)
            = Nat.max 1 (status_count user_id google_calendar db)
         /\ (forall u p,
               bundle_count u p (committed st)
               = if same_key user_id google_calendar u p
                 then Nat.max 1 (bundle_count u p db)
                 else bundle_count u p db)
         /\ users (committed st) = users db /\ leads (committed st) = leads db
         /\ communications (committed st) = communications db
         /\ calls (committed st) = calls db
     | Raise e => e = DbError /\ committed st = db
     end.
Proof.
  pose proof (upsert_bundle user_id (credentials_dict credentials email)
                (integrations db)) as (B1 & B2 & B3).
  pose proof (upsert_status user_id (integration_status db)) as (S1 & S2).
  unfold save_integration_to_db. unfold_py.
  destruct (first_index _ (integrations db)) eqn:E1;
    destruct (first_index _ (integration_status db)) eqn:E2;
    destruct fs as [|[] [|[] [|[] fs]]];
    cbn; rewrite ?E1; cbn; rewrite ?E2; cbn; try easy.
  all: unfold bundle_of, bundle_count, status_of, status_count; cbn.
  all: repeat split; try assumption; try reflexivity.
  all: intros u p; destruct (same_key user_id google_calendar u p) eqn:K;
    [ apply andb_prop in K as [Ka Kb]; apply Z.eqb_eq in Ka;
      apply String.eqb_eq in Kb; subst; exact B2
    | now rewrite B3 ].
Qed.

End SaveIntegration.

(** Saving twice with different bundles, starting without a row, leaves one
    row for the pair, holding the second bundle. *)
Example save_twice_keeps_second :
  let '(_, st1) := run (save_integration_to_db sample_now stale_credentials
                          (JStr "agent@example.com") 1) empty_db [] in
  let '(r, st2) := run (save_integration_to_db sample_now fresh_credentials
                          (JStr "agent@example.com") 1) (committed st1) [] in
  is_raise r = false
  /\ bundle_count 1 google_calendar (committed st2) = 1%nat
  /\ bundle_of 1 google_calendar (committed st2)
     = Some (credentials_dict fresh_credentials (JStr "agent@example.com")).
Proof. vm_compute. repeat split. Qed.

Section RefreshCredentials.
Variable utcnow : PyDatetime.datetime.
Variable REFRESH_THRESHOLD : Z.
Variable token_endpoint : Credentials -> string * option PyDatetime.datetime * option string.

Abbreviation refresh_and_save :=
  (refresh_and_save_credentials utcnow REFRESH_THRESHOLD token_endpoint).

(** C3. With a bundle that is not expired the call returns that bundle; with
    an expired bundle that has no refresh token it returns [None].  In both
    cases the committed rows are those before the call, no fallible
    operation was attempted, and the trace holds neither a request to
    Google nor a database write. *)
Theorem refresh_and_save_credentials_untouched
  (user_id : Z) (credentials : Credentials) (platform_name : string)
  (db : DB) (fs : list bool) :
  (expired_value utcnow REFRESH_THRESHOLD credentials = Ok false ->
   let '(r, st) := run (refresh_and_save user_id (Some credentials) platform_name) db fs in
   r = Ok (Some credentials)
   /\ committed st = db /\ faults st = fs /\ quiet (trace st))
  /\ (expired_value utcnow REFRESH_THRESHOLD credentials = Ok true ->
      text_truthy (refresh_token credentials) = false ->
      let '(r, st) := run (refresh_and_save user_id (Some credentials) platform_name) db fs in
      r = Ok None
      /\ committed st = db /\ faults st = fs /\ quiet (trace st)).
Proof.
  split.
  - intros E. unfold refresh_and_save_credentials. unfold_py.
    rewrite E. cbn. repeat split; reflexivity.
  - intros E R. unfold refresh_and_save_credentials. unfold_py.
    rewrite E. cbn. rewrite R. cbn. repeat split; reflexivity.
Qed.

Lemma refresh_granted (credentials : Credentials) st :
  text_truthy (refresh_token credentials) = true ->
  is_none (token_uri credentials) = false ->
  is_none (client_id credentials) = false ->
  is_none (client_secret credentials) = false ->
  refresh token_endpoint credentials st
  = (bind (emit EvTokenRefresh) (fun _ => bind (fallible RefreshError) (fun _ =>
       ret (apply_grant credentials (token_endpoint credentials))))) st.
Proof.
  intros R U C S. unfold refresh.
  destruct (refresh_token credentials); [|discriminate].
  now rewrite U, C, S.
Qed.

(** C10. When the bundle is expired, the token endpoint grants the refresh,
    the row is found and the commit of the updated row fails, the call
    still returns the refreshed credentials, exactly as it does when the
    commit succeeds; the failure is printed and rolled back, and the
    committed rows are those before the call, whereas after a successful
    commit the row holds the refreshed bundle. *)
Theorem refresh_and_save_credentials_swallows_write_error
  (user_id : Z) (credentials : Credentials) (platform_name : string)
  (db : DB) (fs : list bool) (i : nat) :
  expired_value utcnow REFRESH_THRESHOLD credentials = Ok true ->
  text_truthy (refresh_token credentials) = true ->
  is_none (token_uri credentials) = false ->
  is_none (client_id credentials) = false ->
  is_none (client_secret credentials) = false ->
  first_index (integration_matches user_id platform_name) (integrations db) = Some i ->
  let refreshed := apply_grant credentials (token_endpoint credentials) in
  let '(r_fail, st_fail) :=
    run (refresh_and_save user_id (Some credentials) platform_name) db
        (false :: false :: true :: fs) in
  let '(r_ok, st_ok) :=
    run (refresh_and_save user_id (Some credentials) platform_name) db
        (false :: false :: false :: fs) in
  r_fail = Ok (Some refreshed) /\ r_ok = r_fail
  /\ committed st_fail = db
  /\ In (EvPrint "Failed to update credentials in database") (trace st_fail)
  /\ In EvRollback (trace st_fail)
  /\ bundle_of user_id platform_name (committed st_ok)
     = Some (refreshed_dict refreshed).
Proof.
  intros E R U C S F refreshed.
  unfold refresh_and_save_credentials. unfold_py.
  rewrite E. cbn. rewrite R. cbn.
  rewrite !refresh_granted by assumption. unfold_py. cbn.
  rewrite F. cbn.
  repeat split; try reflexivity; try (cbn; tauto).
  unfold bundle_of. cbn.
  destruct (first_index_some _ _ _ F) as (x & Hx & _ & Hp).
  rewrite find_alter_first by easy. now rewrite Hx.
Qed.

(** What the refresh path stores: the email key is gone, the four client
    fields are those of the in-memory bundle, and the refresh token is kept
    unless the provider rotated it. *)
Lemma refreshed_dict_frame (credentials : Credentials) (email : json)
  (grant : string * option PyDatetime.datetime * option string) (k : string) :
  let stored := credentials_dict credentials email in
  let after := refreshed_dict (apply_grant credentials grant) in
  after !! "email" = None
  /\ stored !! "email" = Some email
  /\ (k = "token_uri" \/ k = "client_id" \/ k = "client_secret" \/ k = "scopes" ->
      after !! k = stored !! k)
  /\ (grant.2 = None -> after !! "refresh_token" = stored !! "refresh_token").
Proof.
  destruct grant as [[tok exp] rot]. cbn.
  unfold refreshed_dict, credentials_dict. cbn.
  repeat split.
  - intros [->|[->|[->| ->]]]; reflexivity.
  - intros ->. reflexivity.
Qed.

End RefreshCredentials.

Lemma refresh_and_save_credentials_untouched_witness :
  (let '(r, st) := run (refresh_and_save_credentials sample_now sample_threshold
                          sample_endpoint 1 (Some fresh_credentials) google_calendar)
                       connected_db [true] in
   r = Ok (Some fresh_credentials)
   /\ committed st = connected_db /\ faults st = [true] /\ quiet (trace st))
  /\ (let '(r, st) := run (refresh_and_save_credentials sample_now sample_threshold
                             sample_endpoint 1 (Some stale_credentials_no_refresh_token)
                             google_calendar)
                          connected_db [true] in
      r = Ok None
      /\ committed st = connected_db /\ faults st = [true] /\ quiet (trace st)).
Proof.
  split.
  - apply (proj1 (refresh_and_save_credentials_untouched sample_now sample_threshold
                    sample_endpoint 1 fresh_credentials google_calendar connected_db [true])).
    reflexivity.
  - apply (proj2 (refresh_and_save_credentials_untouched sample_now sample_threshold
                    sample_endpoint 1 stale_credentials_no_refresh_token google_calendar
                    connected_db [true])); reflexivity.
Defined.

Lemma refresh_and_save_credentials_swallows_write_error_witness :
  let refreshed := apply_grant stale_credentials (sample_endpoint stale_credentials) in
  let '(r_fail, st_fail) :=
    run (refresh_and_save_credentials sample_now sample_threshold sample_endpoint
           1 (Some stale_credentials) google_calendar) connected_db
        [false; false; true] in
  let '(r_ok, st_ok) :=
    run (refresh_and_save_credentials sample_now sample_threshold sample_endpoint
           1 (Some stale_credentials) google_calendar) connected_db
        [false; false; false] in
  r_fail = Ok (Some refreshed) /\ r_ok = r_fail
  /\ committed st_fail = connected_db
  /\ In (EvPrint "Failed to update credentials in database") (trace st_fail)
  /\ In EvRollback (trace st_fail)
  /\ bundle_of 1 google_calendar (committed st_ok)
     = Some (refreshed_dict refreshed).
Proof.
  apply (refresh_and_save_credentials_swallows_write_error sample_now
           sample_threshold sample_endpoint 1 stale_credentials google_calendar
           connected_db [] 0); reflexivity.
Defined.

(** C4, at the failing input: user 1 is stored with the email
    agent@example.com; the bundle is expired, the refresh is granted and the
    commit succeeds.  The stored bundle then has the new token and expiry
    and the old refresh token and client fields, but no email key. *)
Theorem refresh_and_save_credentials_drops_email :
  let '(r, st) :=
    run (refresh_and_save_credentials sample_now sample_threshold sample_endpoint
           1 (Some stale_credentials) google_calendar) connected_db [] in
  let before := bundle_of 1 google_calendar connected_db in
  let after := bundle_of 1 google_calendar (committed st) in
  is_raise r = false
  /\ before ≫= (.!! "email") = Some (JStr "agent@example.com")
  /\ after ≫= (.!! "email") = None
  /\ after ≫= (.!! "token") = Some (JStr "ya29.new")
  /\ after ≫= (.!! "expiry") = Some (JStr "2024-01-15T13:00:00")
  /\ after ≫= (.!! "refresh_token") = before ≫= (.!! "refresh_token")
  /\ after ≫= (.!! "token_uri") = before ≫= (.!! "token_uri")
  /\ after ≫= (.!! "client_id") = before ≫= (.!! "client_id")
  /\ after ≫= (.!! "client_secret") = before ≫= (.!! "client_secret")
  /\ after ≫= (.!! "scopes") = before ≫= (.!! "scopes").
Proof. vm_compute. repeat split. Qed.

(** ** Notification dispatcher *)

(** C9. [send_email_notification] always returns a boolean and never
    raises.  It returns true exactly when the summary key is present and
    none of its five fallible steps fails, and then the one message handed
    to Gmail has exactly two parts, the plain-text part first and the HTML
    part second; whenever a step fails it prints the error and returns
    false.  Any message it hands to Gmail has that part order, and the
    database is not touched. *)
Theorem send_email_notification_never_raises
  (credentials : option Credentials) (sender_email recipient_email : string)
  (event_details : gmap string (option string)) (db : DB) (fs : list bool) :
  let '(r, st) :=
    run (send_email_notification credentials sender_email recipient_email event_details)
        db fs in
  r = Ok (has_summary event_details && negb (existsb id (firstn 5 fs)))
  /\ committed st = db
  /\ Forall plain_then_html (trace st)
  /\ match r with
     | Ok true =>
         exists hdrs text html,
           trace st = [EvGmailSend (mk_message hdrs
                         [mk_part "plain" text; mk_part "html" html])]
     | Ok false => last (trace st) = Some (EvPrint "Error sending email")
     | Raise _ => False
     end.
Proof.
  unfold send_email_notification, has_summary. unfold_py.
  destruct (event_details !! "summary") as [v|]; cbn.
  - destruct fs as [|[] [|[] [|[] [|[] [|[] fs]]]]]; cbn;
      repeat split; repeat constructor; eauto.
  - repeat split; repeat constructor.
Qed.

(** ** OAuth callback *)

Section Callback.
Variable utcnow : PyDatetime.datetime.
Variable exchanged : Credentials.
Variable userinfo_email : json.
Variable timestamp_text : string.

Abbreviation callback := (google_callback utcnow exchanged userinfo_email timestamp_text).

(** Whatever is raised inside the handler's [try], an [HTTPException]
    included, leaves as a 500: a request whose state decodes to an object
    without a truthy user id, or that carries no code, is answered 500 and
    reaches neither Google nor the database. *)
Lemma google_callback_rejections_are_500 (l : list (string * json))
  (code : option string) (db : DB) (fs : list bool) :
  truthy (match assoc "user_id" l with Some v => v | None => JNull end) = false
  \/ text_truthy code = false ->
  let '(r, st) := serve (callback (mk_callback_request (StateJson (JObj l)) code)) db fs in
  status_code r = 500 /\ committed st = db /\ quiet (trace st).
Proof.
  intros H. unfold serve, fastapi, google_callback, load_state, state_user_id.
  unfold_py. cbn.
  destruct (truthy _) eqn:T; cbn.
  - destruct H as [H|H]; [discriminate|]. rewrite H. cbn. now repeat split.
  - now repeat split.
Qed.

End Callback.

(** C5, at the failing inputs.  A callback without state, hence without a
    user id, is answered 500, and so is a callback with a user id but
    without a code; only the exchange that grants no refresh token is
    answered 400. *)
Theorem google_callback_bad_request_status :
  status_code (fst (serve (google_callback sample_now fresh_credentials
                             (JStr "agent@example.com") "1705320000.0"
                             (mk_callback_request StateAbsent (Some "4/0AbCd")))
                          empty_db [])) = 500
  /\ status_code (fst (serve (google_callback sample_now fresh_credentials
                                (JStr "agent@example.com") "1705320000.0"
                                (mk_callback_request state_of_user_1 None))
                             empty_db [])) = 500
  /\ status_code (fst (serve (google_callback sample_now granted_without_refresh_token
                                (JStr "agent@example.com") "1705320000.0"
                                (mk_callback_request state_of_user_1 (Some "4/0AbCd")))
                             empty_db [])) = 400
  /\ status_code (fst (serve (google_callback sample_now fresh_credentials
                                (JStr "agent@example.com") "1705320000.0"
                                (mk_callback_request state_of_user_1 (Some "4/0AbCd")))
                             empty_db [])) = 200.
Proof. vm_compute. repeat split. Qed.

(** ** Saving a communication *)

Section SaveCommunicationProps.
Variable utcnow : PyDatetime.datetime.

(** A call record without a duration never gets a 400: the handler's own
    [except Exception] turns every rejection into a 500.  Nothing is
    persisted. *)
Lemma save_communication_call_without_duration (data : communication_request)
  (type : string) (db : DB) (fs : list bool) :
  cr_type data = Some type ->
  PyStr.upper type = "CALL" ->
  cr_duration data = None ->
  let '(r, st) := serve (save_communication utcnow data) db fs in
  status_code r = 500 /\ committed st = db.
Proof.
  intros T U D. unfold serve, fastapi, save_communication, with_request_session.
  rewrite T, D. unfold_py.
  destruct (cr_user_id data), (cr_status data), (cr_details data); cbn;
    try easy.
  all: destruct fs as [|[] fs]; cbn; try easy.
  all: destruct (find _ (users db)); cbn; try easy.
  all: destruct (int_truthy (cr_lead_id data)), (text_truthy (cr_drew_id data));
    cbn; rewrite ?U; cbn; easy.
Qed.

End SaveCommunicationProps.

(** C6, at the failing input: a CALL record for an existing user that omits
    the duration is answered 500, not 400; no Communication row and no Call
    row is persisted, the pending communication is rolled back. *)
Theorem save_communication_missing_duration_status :
  let '(r, st) := serve (save_communication sample_now call_without_duration)
                        connected_db [] in
  status_code r = 500
  /\ communications (committed st) = [] /\ calls (committed st) = []
  /\ committed st = connected_db
  /\ In EvRollback (trace st).
Proof. vm_compute. repeat split; auto. Qed.

(** ** Lead lookup and disambiguation *)

Section Ilike.
Import Sql.

Lemma like_any_end s : like [Any] s = true.
Proof. induction s as [|c s IH]; cbn; [reflexivity|exact IH]. Qed.

Lemma tokens_plain name rest :
  has_meta name = false ->
  tokens (name +:+ rest)
  = option_map (app (map Lit (list_ascii_of_string name))) (tokens rest).
Proof.
  induction name as [|c name IH].
  - intros _. change (EmptyString +:+ rest) with rest.
    destruct (tokens rest); reflexivity.
  - change (String c name +:+ rest) with (String c (name +:+ rest)).
    cbn. unfold is_meta. intros H.
    apply orb_false_elim in H as [H Hn].
    apply orb_false_elim in H as [H H3]. apply orb_false_elim in H as [H1 H2].
    rewrite H1, H2, H3, IH by exact Hn.
    destruct (tokens rest); reflexivity.
Qed.

Lemma like_literals name s :
  like (map Lit (list_ascii_of_string name) ++ [Any]) s = ci_prefix name s.
Proof.
  revert s; induction name as [|c name IH]; intros s.
  - cbn [list_ascii_of_string map app ci_prefix]. apply like_any_end.
  - destruct s as [|d s]; cbn; [reflexivity|]. now rewrite IH.
Qed.

Lemma like_any_first ts s :
  like (Any :: ts) s
  = like ts s || match s with
                 | String _ s' => like (Any :: ts) s'
                 | EmptyString => false
                 end.
Proof. destruct s; reflexivity. Qed.

Lemma like_contains name s :
  like (Any :: map Lit (list_ascii_of_string name) ++ [Any]) s = ci_substring name s.
Proof.
  induction s as [|d s IH]; rewrite like_any_first, like_literals.
  - reflexivity.
  - now rewrite IH.
Qed.

(** For a name without pattern characters the [ILIKE] of the code is the
    case-insensitive substring test. *)
Lemma ilike_is_substring name value :
  has_meta name = false ->
  ilike value ("%" +:+ name +:+ "%") = Some (ci_substring name value).
Proof.
  intros H. unfold ilike.
  change ("%" +:+ name +:+ "%") with (String "%"%char (name +:+ "%")).
  cbn [tokens]. cbn [Ascii.eqb Bool.eqb].
  rewrite tokens_plain by exact H. cbn.
  f_equal. exact (like_contains name value).
Qed.

End Ilike.

Lemma filter_rows_total {A} (p : A -> option bool) (q : A -> bool) (l : list A) :
  (forall x, p x = Some (q x)) -> filter_rows p l = Some (List.filter q l).
Proof.
  intros H. induction l as [|x l IH]; cbn; [reflexivity|].
  now rewrite H, IH.
Qed.

Lemma lead_matches_named user_id name lead :
  Sql.has_meta name = false ->
  lead_matches user_id name lead = Some (named_like user_id name lead).
Proof.
  intros H. unfold lead_matches, named_like.
  destruct (l_user_id lead), (l_name lead); try reflexivity.
  now rewrite ilike_is_substring.
Qed.

Lemma query_leads_ok user_id name st :
  Sql.has_meta name = false ->
  hd false (faults st) = false ->
  query_leads user_id name st
  = (Ok (leads_named user_id name (session st)),
     mk_state (committed st) (session st) (dirty st) (tl (faults st))
       (trace st ++ [EvSelect "leads"])).
Proof.
  intros H F. unfold query_leads. unfold_py. destruct st as [c s d fs t]. cbn in *.
  destruct fs as [|[] fs]; cbn in *; try discriminate;
    rewrite (filter_rows_total _ (named_like user_id name))
      by (intros; now apply lead_matches_named);
    reflexivity.
Qed.

#[local] Arguments query_leads : simpl never.

(** The pattern built around a name is always one the server accepts. *)
Section LookupMore.
Import Sql.

Lemma tokens_with_percent_fuel n :
  forall s, (String.length s <= n)%nat -> is_Some (tokens (s +:+ "%")).
Proof.
  induction n as [|n IH]; intros [|c s] Hn; cbn [String.length] in Hn; try lia;
    try (now eexists).
  change (String c s +:+ "%") with (String c (s +:+ "%")). cbn [tokens].
  destruct (Ascii.eqb c "\").
  - destruct s as [|d s].
    + now eexists.
    + change (String d s +:+ "%") with (String d (s +:+ "%")).
      cbn [String.length] in Hn.
      destruct (IH s ltac:(lia)) as [ts ->]. now eexists.
  - destruct (IH s ltac:(lia)) as [ts ->].
    destruct (Ascii.eqb c "%"), (Ascii.eqb c "_"); now eexists.
Qed.

Lemma pattern_accepted name : is_Some (tokens ("%" +:+ name +:+ "%")).
Proof.
  change ("%" +:+ name +:+ "%") with (String "%"%char (name +:+ "%")).
  cbn [tokens]. cbn [Ascii.eqb Bool.eqb].
  destruct (tokens_with_percent_fuel (String.length name) name (le_n _)) as [ts ->].
  now eexists.
Qed.

Lemma lead_matches_decided user_id name lead :
  exists b, lead_matches user_id name lead = Some b
            /\ (b = true -> named_lead_of user_id lead = true).
Proof.
  unfold lead_matches, named_lead_of.
  destruct (l_user_id lead) as [u|], (l_name lead) as [n|];
    try (exists false; split; [reflexivity|discriminate]).
  unfold ilike. destruct (pattern_accepted name) as [ts ->]. cbn.
  eexists; split; [reflexivity|]. intros H. now apply andb_prop in H as [-> _].
Qed.

End LookupMore.



Section Disambiguation.
Variable now : PyDatetime.datetime.

Ltac run_handler H F :=
  unfold serve, fastapi, with_request_session; unfold_py; cbn;
  rewrite query_leads_ok by (try exact H; try exact F); cbn.



End Disambiguation.

(** ** Dates and times *)

Section Calendar.
Import PyDatetime.

Lemma fromisoformat_checked s t : fromisoformat s = Some t -> check_fields t = true.
Proof.
  unfold fromisoformat.
  destruct (parse_isoformat_date _) as [[[y m] d]|]; cbn; [|discriminate].
  destruct (if (String.length s =? 10)%nat then _ else _) as [[[[[hh mm] ss] us] tz]|];
    cbn; [|discriminate].
  destruct (check_fields _) eqn:E; [|discriminate].
  now intros [= <-].
Qed.

Lemma days_before_year_succ y :
  days_before_year (y + 1) = days_before_year y + (if is_leap y then 366 else 365).
Proof.
  unfold days_before_year, is_leap.
  replace (y + 1 - 1) with y by lia.
  destruct (y mod 4 =? 0) eqn:E4; destruct (y mod 100 =? 0) eqn:E100;
    destruct (y mod 400 =? 0) eqn:E400; cbn;
    rewrite ?Z.eqb_eq, ?Z.eqb_neq in *; Z.div_mod_to_equations; lia.
Qed.

Lemma days_before_month_succ y m :
  1 <= m < 12 ->
  days_before_month y (m + 1) = days_before_month y m + days_in_month y m.
Proof.
  intros Hm. unfold days_before_month, days_in_month.
  assert (m = 1 \/ m = 2 \/ m = 3 \/ m = 4 \/ m = 5 \/ m = 6 \/ m = 7 \/ m = 8
          \/ m = 9 \/ m = 10 \/ m = 11) as C by lia.
  destruct (is_leap y); repeat (destruct C as [->|C]); try subst m; reflexivity.
Qed.

Lemma december_ends_year y :
  days_before_month y 12 + days_in_month y 12 = if is_leap y then 366 else 365.
Proof. unfold days_before_month, days_in_month. now destruct (is_leap y). Qed.

Lemma next_day_ordinal y m d :
  1 <= m <= 12 -> 1 <= d <= days_in_month y m ->
  let '(y', m', d') := next_day y m d in ymd2ord y' m' d' = ymd2ord y m d + 1.
Proof.
  intros Hm Hd. unfold next_day, ymd2ord.
  destruct (d <? days_in_month y m) eqn:E; [lia|].
  apply Z.ltb_ge in E. assert (d = days_in_month y m) as -> by lia.
  destruct (m <? 12) eqn:E12.
  - apply Z.ltb_lt in E12. rewrite days_before_month_succ by lia. lia.
  - apply Z.ltb_ge in E12. assert (m = 12) as -> by lia.
    rewrite days_before_year_succ. pose proof (december_ends_year y).
    change (days_before_month (y + 1) 1) with 0. lia.
Qed.

Lemma check_fields_bounds t :
  check_fields t = true ->
  1 <= month t <= 12 /\ 1 <= day t <= days_in_month (year t) (month t)
  /\ 0 <= hour t <= 23.
Proof.
  unfold check_fields. intros H.
  repeat (apply andb_prop in H as [H ?]).
  rewrite ?Z.leb_le in *. lia.
Qed.

(** [add_one_hour] moves the wall clock by exactly one hour and keeps the
    offset. *)
Lemma add_one_hour_exact t t' :
  check_fields t = true ->
  add_one_hour t = Some t' ->
  wall_micros t' = wall_micros t + HOUR_US /\ tzinfo t' = tzinfo t.
Proof.
  intros V. destruct (check_fields_bounds t V) as (Hm & Hd & Hh).
  unfold add_one_hour.
  destruct (hour t <? 23) eqn:E.
  - intros [= <-]. unfold wall_micros, toordinal, HOUR_US. cbn. split; [lia|easy].
  - apply Z.ltb_ge in E. assert (hour t = 23) as Hh23 by lia.
    pose proof (next_day_ordinal (year t) (month t) (day t) Hm Hd) as N.
    destruct (next_day _ _ _) as [[y' m'] d'].
    destruct (y' <=? MAXYEAR); [|discriminate].
    intros [= <-]. unfold wall_micros, toordinal, HOUR_US. cbn.
    rewrite N, Hh23. split; [lia|easy].
Qed.

End Calendar.

Section IsoRoundTrip.
Import PyDatetime.

Lemma digit_char_cases k :
  exists j, (j < 10)%nat /\ k mod 10 = Z.of_nat j.
Proof.
  exists (Z.to_nat (k mod 10)).
  pose proof (Z.mod_pos_bound k 10 ltac:(lia)). lia.
Qed.

Ltac digit_cases k :=
  let j := fresh "j" in
  let Hj := fresh "Hj" in
  let E := fresh "E" in
  destruct (digit_char_cases k) as (j & Hj & E); rewrite E;
  do 10 (destruct j as [|j]; [reflexivity|]); lia.

Lemma is_digit_digit_char k : is_digit (digit_char (k mod 10)) = true.
Proof. digit_cases k. Qed.

Lemma digit_val_digit_char k : digit_val (digit_char (k mod 10)) = k mod 10.
Proof.
  destruct (digit_char_cases k) as (j & Hj & E). rewrite E.
  do 10 (destruct j as [|j]; [reflexivity|]). lia.
Qed.

Lemma digit_char_not_Z k : Ascii.eqb (digit_char (k mod 10)) "Z" = false.
Proof. digit_cases k. Qed.

Lemma digit_char_not_minus k : Ascii.eqb (digit_char (k mod 10)) "-" = false.
Proof. digit_cases k. Qed.

Lemma digit_char_not_plus k : Ascii.eqb (digit_char (k mod 10)) "+" = false.
Proof. digit_cases k. Qed.

Lemma pad2_value n : 0 <= n < 100 -> (0 * 10 + n / 10 mod 10) * 10 + n mod 10 = n.
Proof. intros H. Z.div_mod_to_equations. lia. Qed.

Lemma pad4_value n :
  0 <= n < 10000 ->
  (((0 * 10 + n / 10 / 10 / 10 mod 10) * 10 + n / 10 / 10 mod 10) * 10
   + n / 10 mod 10) * 10 + n mod 10 = n.
Proof. intros H. Z.div_mod_to_equations. lia. Qed.

#[local] Arguments Z.div : simpl never.
#[local] Arguments Z.modulo : simpl never.
#[local] Arguments Z.mul : simpl never.
#[local] Arguments Z.add : simpl never.
#[local] Arguments digit_char : simpl never.
#[local] Arguments is_digit : simpl never.
#[local] Arguments digit_val : simpl never.
#[local] Arguments Ascii.eqb : simpl nomatch.
#[local] Arguments check_fields : simpl never.

Lemma canonical_offset_chars y m d hh mm ss :
  canonical y m d hh mm ss +:+ "+00:00"
  = String (digit_char (y / 10 / 10 / 10 mod 10))
     (String (digit_char (y / 10 / 10 mod 10))
     (String (digit_char (y / 10 mod 10))
     (String (digit_char (y mod 10))
     (String "-"
     (String (digit_char (m / 10 mod 10))
     (String (digit_char (m mod 10))
     (String "-"
     (String (digit_char (d / 10 mod 10))
     (String (digit_char (d mod 10))
     (String "T"
     (String (digit_char (hh / 10 mod 10))
     (String (digit_char (hh mod 10))
     (String ":"
     (String (digit_char (mm / 10 mod 10))
     (String (digit_char (mm mod 10))
     (String ":"
     (String (digit_char (ss / 10 mod 10))
     (String (digit_char (ss mod 10)) "+00:00")))))))))))))))))).
Proof. reflexivity. Qed.

Lemma append_assoc a b c : (a +:+ b) +:+ c = a +:+ (b +:+ c).
Proof.
  induction a as [|x a IH]; [reflexivity|].
  change ((String x a +:+ b) +:+ c) with (String x ((a +:+ b) +:+ c)).
  now rewrite IH.
Qed.

Lemma replace_char_append c r a b :
  PyStr.replace_char c r (a +:+ b)
  = PyStr.replace_char c r a +:+ PyStr.replace_char c r b.
Proof.
  induction a as [|x a IH]; [reflexivity|].
  change (String x a +:+ b) with (String x (a +:+ b)). cbn [PyStr.replace_char].
  rewrite IH. destruct (Ascii.eqb x c); [|reflexivity].
  now rewrite append_assoc.
Qed.

Lemma replace_Z_pad w n : PyStr.replace_char "Z" "+00:00" (pad w n) = pad w n.
Proof.
  revert n; induction w as [|w IH]; intros n; [reflexivity|].
  cbn [pad]. rewrite replace_char_append, IH. cbn [PyStr.replace_char].
  now rewrite digit_char_not_Z.
Qed.

Lemma replace_Z_canonical y m d hh mm ss :
  PyStr.replace_char "Z" "+00:00" (canonical y m d hh mm ss +:+ "Z")
  = canonical y m d hh mm ss +:+ "+00:00".
Proof.
  unfold canonical.
  rewrite !replace_char_append, !replace_Z_pad. reflexivity.
Qed.

Lemma check_fields_ranges y m d hh mm ss us tz :
  check_fields (mk_datetime y m d hh mm ss us tz) = true ->
  0 <= y < 10000 /\ 0 <= m < 100 /\ 0 <= d < 100
  /\ 0 <= hh < 100 /\ 0 <= mm < 100 /\ 0 <= ss < 100.
Proof.
  unfold check_fields, MINYEAR, MAXYEAR. cbn [year month day hour minute second].
  intros H. repeat (apply andb_prop in H as [H ?]).
  rewrite ?Z.leb_le in *.
  assert (days_in_month y m <= 31)
    by (unfold days_in_month; repeat destruct (_ =? _); try destruct (is_leap y); cbn; lia).
  lia.
Qed.

Lemma parse_canonical_utc y m d hh mm ss :
  check_fields (mk_datetime y m d hh mm ss 0 (Some 0)) = true ->
  fromisoformat (canonical y m d hh mm ss +:+ "+00:00")
  = Some (mk_datetime y m d hh mm ss 0 (Some 0)).
Proof.
  intros V. destruct (check_fields_ranges _ _ _ _ _ _ _ _ V) as (Ry & Rm & Rd & Rh & Rmi & Rs).
  rewrite canonical_offset_chars.
  unfold fromisoformat, parse_isoformat_date, parse_isoformat_time, parse_digits, char_at,
    tz_sign_pos.
  cbn.
  rewrite !is_digit_digit_char, !digit_val_digit_char.
  rewrite !digit_char_not_minus, !digit_char_not_plus.
  rewrite pad4_value, !pad2_value by assumption.
  cbn.
  rewrite !is_digit_digit_char, !digit_val_digit_char.
  rewrite !pad2_value by assumption.
  change (is_digit "0") with true. change (digit_val "0") with 0.
  cbn.
  change ((((0 * 10 + 0) * 10 + 0) * 3600 + ((0 * 10 + 0) * 10 + 0) * 60 + 0) * 1000000 + 0)
    with 0.
  now rewrite V.
Qed.

(** A time submitted as [YYYY-MM-DDTHH:MM:SSZ] is parsed as that time in UTC
    and rendered with [+00:00] in place of the [Z]. *)
Lemma zulu_round_trip y m d hh mm ss :
  check_fields (mk_datetime y m d hh mm ss 0 (Some 0)) = true ->
  fromisoformat (PyStr.replace_char "Z" "+00:00" (canonical y m d hh mm ss +:+ "Z"))
  = Some (mk_datetime y m d hh mm ss 0 (Some 0))
  /\ isoformat (mk_datetime y m d hh mm ss 0 (Some 0))
     = canonical y m d hh mm ss +:+ "+00:00".
Proof.
  intros V. split.
  - rewrite replace_Z_canonical. now apply parse_canonical_utc.
  - rewrite canonical_offset_chars. reflexivity.
Qed.

End IsoRoundTrip.

(** ** Booking: the accepted response *)

(** C8 (as amended).  Whenever [book_appointment] answers 202, exactly one
    lead matched and its name is [lead_details.name]; the submitted start
    time, with every Z replaced by +00:00, parsed to a time [t];
    [appointment_details.start_time] is the ISO rendering of [t], so a time
    submitted as YYYY-MM-DDTHH:MM:SSZ comes back with +00:00 in place of the
    Z while a time submitted without offset comes back without one; and
    [appointment_details.end_time] is the ISO rendering of the time exactly
    one hour after [t] on the same offset. *)
Theorem book_appointment_accepted_times (data : book_request) (db : DB) (fs : list bool) :
  let r := fst (serve (book_appointment data) db fs) in
  status_code r = 202 -> accepted_booking data db r.
Proof.
  destruct data as [uid name start desc loc mt].
  unfold accepted_booking, serve, fastapi, book_appointment, with_request_session,
    query_leads, parse_time, plus_one_hour.
  unfold_py. cbn.
  destruct uid as [uid|], name as [name|], start as [start|]; cbn; try easy.
  destruct fs as [|[] fs]; cbn; try easy.
  all: destruct (filter_rows _ (leads db)) as [[|l1 [|l2 rest]]|] eqn:Q; cbn; try easy.
  all: destruct (PyDatetime.fromisoformat _) as [t|] eqn:P; cbn; try easy.
  all: destruct (PyDatetime.add_one_hour t) as [t'|] eqn:A; cbn; try easy.
  all: intros _; exists uid, name, start, l1, t, t'.
  all: destruct (add_one_hour_exact t t' (fromisoformat_checked _ _ P) A) as [W Z].
  all: repeat split; try assumption; try reflexivity.
  all: try (intros y m d hh mm ss -> V;
            destruct (zulu_round_trip y m d hh mm ss V) as [R1 R2];
            rewrite R1 in P; injection P as <-; exact R2).
  all: intros N U; destruct t; cbn in N, U; subst; reflexivity.
Qed.

Lemma book_appointment_accepted_times_witness :
  accepted_booking (booking "bob" "2024-01-15T14:00:00Z") leads_db
    (fst (serve (book_appointment (booking "bob" "2024-01-15T14:00:00Z")) leads_db [])).
Proof.
  apply (book_appointment_accepted_times (booking "bob" "2024-01-15T14:00:00Z") leads_db []).
  reflexivity.
Defined.

(** The scenario of the specification: the lead Smith, a start at
    2024-01-15T14:00:00Z. *)
Example book_appointment_scenario :
  let db := mk_DB [mk_User 1 "Ada Agent"] [sample_lead 7 1 "Smith"] [] [] [] [] in
  let r := fst (serve (book_appointment (booking "Smith" "2024-01-15T14:00:00Z")) db []) in
  status_code r = 202
  /\ field ["lead_details"; "name"] (content r) = Some (JStr "Smith")
  /\ field ["appointment_details"; "start_time"] (content r)
     = Some (JStr "2024-01-15T14:00:00+00:00")
  /\ field ["appointment_details"; "end_time"] (content r)
     = Some (JStr "2024-01-15T15:00:00+00:00").
Proof. vm_compute. repeat split. Qed.

(** C8, counterexample: a start time submitted as 2024-01-15T14:00 is
    accepted, and the response carries 2024-01-15T14:00:00, which has no
    +00:00 offset and is not the submitted text either. *)
Lemma book_appointment_start_time_without_offset :
  let r := fst (serve (book_appointment (booking "bob" "2024-01-15T14:00")) leads_db []) in
  status_code r = 202
  /\ field ["appointment_details"; "start_time"] (content r)
     = Some (JStr "2024-01-15T14:00:00")
  /\ PyStr.endswith "2024-01-15T14:00:00" "+00:00" = false
  /\ PyStr.replace_char "Z"%char "+00:00" "2024-01-15T14:00" <> "2024-01-15T14:00:00".
Proof. vm_compute. repeat split. discriminate. Qed.



(** An aware call time cannot be compared with [datetime.now()]: the
    accepted path of [initiate_call] ends in a 500 for a time ending in Z. *)
Example initiate_call_aware_time :
  status_code (fst (serve (initiate_call sample_now (calling "bob" "2024-01-15T14:00:00Z"))
                          leads_db [])) = 500
  /\ status_code (fst (serve (initiate_call sample_now (calling "bob" "2024-01-15T14:00:00"))
                             leads_db [])) = 202.
Proof. vm_compute. repeat split. Qed.

(* ------------------------------------------------------------------ *)
(** * Further properties *)
(* ------------------------------------------------------------------ *)

(** ** Refreshing credentials *)

Section RefreshMore.
Variable utcnow : PyDatetime.datetime.
Variable REFRESH_THRESHOLD : Z.
Variable token_endpoint : Credentials -> string * option PyDatetime.datetime * option string.

Abbreviation refresh_save :=
  (refresh_and_save_credentials utcnow REFRESH_THRESHOLD token_endpoint).

Ltac start_refresh H :=
  destruct H as (E & R & U & C & S);
  unfold refresh_and_save_credentials; unfold_py;
  rewrite E; cbn; rewrite R; cbn;
  rewrite !refresh_granted by assumption; unfold_py; cbn.

(** X1. When the token endpoint refuses the refresh of a refreshable bundle,
    the call returns [None] after that single request: it reads and writes
    nothing in the database and the committed rows are those before the
    call. *)
Theorem refresh_refused_leaves_store
  (user_id : Z) (credentials : Credentials) (platform_name : string)
  (db : DB) (fs : list bool) :
  refreshable utcnow REFRESH_THRESHOLD credentials ->
  let '(r, st) := run (refresh_save user_id (Some credentials) platform_name) db
                      (true :: fs) in
  r = Ok None /\ committed st = db
  /\ count_events is_token_refresh (trace st) = 1%nat
  /\ count_events is_select (trace st) = 0%nat
  /\ existsb is_db_write (trace st) = false.
Proof.
  intros H. start_refresh H. repeat split.
Qed.

(** X2. When the refresh is granted but the lookup of the stored row fails,
    the call returns [None] although Google issued a new token, and nothing
    is written. *)
Theorem refresh_granted_lookup_fails
  (user_id : Z) (credentials : Credentials) (platform_name : string)
  (db : DB) (fs : list bool) :
  refreshable utcnow REFRESH_THRESHOLD credentials ->
  let '(r, st) := run (refresh_save user_id (Some credentials) platform_name) db
                      (false :: true :: fs) in
  r = Ok None /\ committed st = db
  /\ count_events is_token_refresh (trace st) = 1%nat
  /\ existsb is_db_write (trace st) = false.
Proof.
  intros H. start_refresh H. repeat split.
Qed.

(** X3. When the refresh is granted and the user has no stored row for the
    platform, the call returns the refreshed credentials and stores nothing:
    no row is created. *)
Theorem refresh_granted_without_row
  (user_id : Z) (credentials : Credentials) (platform_name : string)
  (db : DB) (fs : list bool) :
  refreshable utcnow REFRESH_THRESHOLD credentials ->
  bundle_of user_id platform_name db = None ->
  let '(r, st) := run (refresh_save user_id (Some credentials) platform_name) db
                      (false :: false :: fs) in
  r = Ok (Some (apply_grant credentials (token_endpoint credentials)))
  /\ committed st = db
  /\ existsb is_db_write (trace st) = false.
Proof.
  intros H B. start_refresh H.
  destruct (first_index _ (integrations db)) as [i|] eqn:F; cbn.
  - destruct (first_index_some _ _ _ F) as (x & Hx & _).
    unfold bundle_of in B. now rewrite Hx in B.
  - repeat split.
Qed.

End RefreshMore.

Lemma refresh_refused_leaves_store_witness :
  refreshable sample_now sample_threshold stale_credentials
  /\ (let '(r, st) := run (refresh_and_save_credentials sample_now sample_threshold
                             sample_endpoint 1 (Some stale_credentials) google_calendar)
                          connected_db [true] in
      r = Ok None /\ committed st = connected_db
      /\ count_events is_token_refresh (trace st) = 1%nat
      /\ count_events is_select (trace st) = 0%nat
      /\ existsb is_db_write (trace st) = false).
Proof.
  assert (R : refreshable sample_now sample_threshold stale_credentials)
    by (repeat split; reflexivity).
  split; [exact R|].
  exact (refresh_refused_leaves_store sample_now sample_threshold sample_endpoint 1
           stale_credentials google_calendar connected_db [] R).
Defined.

Lemma refresh_granted_lookup_fails_witness :
  refreshable sample_now sample_threshold stale_credentials
  /\ (let '(r, st) := run (refresh_and_save_credentials sample_now sample_threshold
                             sample_endpoint 1 (Some stale_credentials) google_calendar)
                          connected_db [false; true] in
      r = Ok None /\ committed st = connected_db
      /\ count_events is_token_refresh (trace st) = 1%nat
      /\ existsb is_db_write (trace st) = false).
Proof.
  assert (R : refreshable sample_now sample_threshold stale_credentials)
    by (repeat split; reflexivity).
  split; [exact R|].
  exact (refresh_granted_lookup_fails sample_now sample_threshold sample_endpoint 1
           stale_credentials google_calendar connected_db [] R).
Defined.

Lemma refresh_granted_without_row_witness :
  refreshable sample_now sample_threshold stale_credentials
  /\ bundle_of 1 google_calendar empty_db = None
  /\ (let '(r, st) := run (refresh_and_save_credentials sample_now sample_threshold
                             sample_endpoint 1 (Some stale_credentials) google_calendar)
                          empty_db [false; false] in
      r = Ok (Some (apply_grant stale_credentials (sample_endpoint stale_credentials)))
      /\ committed st = empty_db
      /\ existsb is_db_write (trace st) = false).
Proof.
  assert (R : refreshable sample_now sample_threshold stale_credentials)
    by (repeat split; reflexivity).
  split; [exact R|]. split; [reflexivity|].
  exact (refresh_granted_without_row sample_now sample_threshold sample_endpoint 1
           stale_credentials google_calendar empty_db [] R eq_refl).
Defined.

Lemma keys_alter_credentials c i (l : list Integration) :
  map (fun r => (i_user_id r, i_platform_name r)) (alter (set_credentials c) i l)
  = map (fun r => (i_user_id r, i_platform_name r)) l.
Proof.
  revert i; induction l as [|x l IH]; intros [|i]; cbn; try reflexivity.
  now rewrite IH.
Qed.

Lemma others_alter_credentials u p c i (l : list Integration) :
  first_index (integration_matches u p) l = Some i ->
  List.filter (fun r => negb (integration_matches u p r)) (alter (set_credentials c) i l)
  = List.filter (fun r => negb (integration_matches u p r)) l.
Proof.
  apply (filter_alter_other (integration_matches u p)).
  intros x Hx. unfold integration_matches in *. cbn. now rewrite Hx.
Qed.

Section RefreshFrame.
Variable utcnow : PyDatetime.datetime.
Variable REFRESH_THRESHOLD : Z.
Variable token_endpoint : Credentials -> string * option PyDatetime.datetime * option string.

(** X4. [refresh_and_save_credentials] never raises, whatever it is given
    and whichever of its operations fail.  It never adds or removes a row
    and changes nothing outside the bundle of the pair it was called for:
    the keys of [integrations] stay as they are, the rows of other pairs are
    untouched, and so are all other tables. *)
Theorem refresh_and_save_credentials_contained
  (user_id : Z) (credentials : option Credentials) (platform_name : string)
  (db : DB) (fs : list bool) :
  let '(r, st) := run (refresh_and_save_credentials utcnow REFRESH_THRESHOLD
                         token_endpoint user_id credentials platform_name) db fs in
  is_raise r = false
  /\ integration_keys (committed st) = integration_keys db
  /\ other_bundles user_id platform_name (committed st)
     = other_bundles user_id platform_name db
  /\ users (committed st) = users db /\ leads (committed st) = leads db
  /\ integration_status (committed st) = integration_status db
  /\ communications (committed st) = communications db
  /\ calls (committed st) = calls db.
Proof.
  unfold refresh_and_save_credentials, refresh. unfold_py.
  destruct credentials as [c|]; cbn; [|now repeat split].
  destruct (expired_value utcnow REFRESH_THRESHOLD c) as [[]|]; cbn;
    try (now repeat split).
  destruct (text_truthy (refresh_token c)); cbn; [|now repeat split].
  destruct (is_none (refresh_token c) || is_none (token_uri c)
            || is_none (client_id c) || is_none (client_secret c)); cbn;
    [now repeat split|].
  destruct fs as [|[] [|[] [|[] fs]]]; cbn; try (now repeat split).
  all: destruct (first_index _ (integrations db)) as [i|] eqn:F; cbn;
    try (now repeat split).
  all: unfold integration_keys, other_bundles; cbn;
    rewrite keys_alter_credentials, (others_alter_credentials _ _ _ _ _ F);
    now repeat split.
Qed.

End RefreshFrame.

(** ** Saving credentials *)

Section Upsert.
Context {A : Type}.
Implicit Types (p : A -> bool) (f : A -> A) (l : list A).






End Upsert.

Section SaveTwice.
Variable utcnow : PyDatetime.datetime.


End SaveTwice.


(** ** Sending the notification *)

(** X6. A message reaches Gmail only when the summary is present and both
    parts, the serialisation and the client were built without failure, and
    then exactly once: it is addressed from the sender to the recipient, its
    subject is "Calendar Invitation: " followed by the summary, and it
    carries the plain part and the HTML part in this order.  A send that
    fails in transport has still been issued. *)
Theorem send_email_notification_sends_once
  (credentials : option Credentials) (sender_email recipient_email : string)
  (event_details : gmap string (option string)) (db : DB) (fs : list bool) :
  let st := snd (run (send_email_notification credentials sender_email
                        recipient_email event_details) db fs) in
  List.filter is_gmail_send (trace st)
  = match event_details !! "summary" with
    | Some summary =>
        if existsb id (firstn 4 fs) then []
        else [EvGmailSend (invitation_message sender_email recipient_email
                             (py_str summary) event_details)]
    | None => []
    end.
Proof.
  unfold send_email_notification, invitation_message, attach. unfold_py.
  destruct (event_details !! "summary") as [v|]; cbn; [|reflexivity].
  destruct fs as [|[] [|[] [|[] [|[] [|[] fs]]]]]; reflexivity.
Qed.

(** ** The OAuth callback *)

#[local] Arguments save_integration_to_db : simpl never.

Section CallbackMore.
Variable utcnow : PyDatetime.datetime.
Variable exchanged : Credentials.
Variable userinfo_email : json.
Variable timestamp_text : string.

Abbreviation callback_handler :=
  (google_callback utcnow exchanged userinfo_email timestamp_text).

Ltac next_fault :=
  match goal with
  | |- context [match ?fs with [] => _ | _ :: _ => _ end] =>
      is_var fs; destruct fs as [|[] fs]
  end.

Lemma save_integration_to_db_cases credentials email user_id st :
  let '(r, st') := save_integration_to_db utcnow credentials email user_id st in
  (r = Ok tt
   /\ bundle_of user_id google_calendar (committed st')
      = Some (credentials_dict credentials email)
   /\ status_of user_id google_calendar (committed st') = Some ("active", utcnow))
  \/ (r = Raise DbError /\ committed st' = committed st).
Proof.
  pose proof (upsert_bundle user_id (credentials_dict credentials email)
                (integrations (committed st))) as (B1 & _ & _).
  pose proof (upsert_status utcnow user_id (integration_status (committed st)))
    as (S1 & _).
  destruct st as [c s d fs t].
  unfold save_integration_to_db. unfold_py. cbn in *.
  destruct (first_index _ (integrations c)) eqn:E1;
    destruct (first_index _ (integration_status c)) eqn:E2;
    destruct fs as [|[] [|[] [|[] fs]]];
    cbn; rewrite ?E1; cbn; rewrite ?E2; cbn; auto.
Qed.

(** X7. The callback changes the database only when it answers 200, and
    then the bundle granted by the exchange is stored for the user of the
    state with an [active] status; every other answer is a 400 or a 500 and
    leaves the committed rows as they were. *)
Theorem google_callback_stores_only_on_success
  (request : callback_request) (db : DB) (fs : list bool) :
  let '(r, st) := serve (callback_handler request) db fs in
  (status_code r = 200
   /\ exists user_id email,
        bundle_of user_id google_calendar (committed st)
          = Some (credentials_dict exchanged email)
        /\ status_of user_id google_calendar (committed st) = Some ("active", utcnow))
  \/ ((status_code r = 400 \/ status_code r = 500) /\ committed st = db).
Proof.
  destruct request as [q code].
  unfold serve, fastapi, google_callback, load_state, state_user_id. unfold_py.
  destruct q as [|[| | | | |l]|]; cbn; auto.
  all: destruct (truthy _); cbn; auto.
  all: destruct (text_truthy code); cbn; auto.
  all: destruct (text_truthy (refresh_token exchanged)) eqn:RT; cbn.
  all: repeat (try next_fault; cbn; rewrite ?RT; cbn; auto).
  all: try (destruct (truthy userinfo_email); cbn).
  all: destruct (py_int _) as [uid|]; cbn; auto.
  all: match goal with
       | |- context [save_integration_to_db ?a ?b ?c ?d ?s] =>
           pose proof (save_integration_to_db_cases b c d s) as H;
           destruct (save_integration_to_db a b c d s) as [r' s']
       end.
  all: destruct H as [(-> & B & S)|(-> & C)]; cbn in *; eauto 8.
Qed.

Lemma save_integration_to_db_no_fault credentials email user_id st :
  faults st = [] ->
  let '(r, st') := save_integration_to_db utcnow credentials email user_id st in
  r = Ok tt
  /\ bundle_of user_id google_calendar (committed st')
     = Some (credentials_dict credentials email)
  /\ status_of user_id google_calendar (committed st') = Some ("active", utcnow).
Proof.
  pose proof (upsert_bundle user_id (credentials_dict credentials email)
                (integrations (committed st))) as (B1 & _ & _).
  pose proof (upsert_status utcnow user_id (integration_status (committed st)))
    as (S1 & _).
  destruct st as [c s d fs t]. cbn. intros ->.
  unfold save_integration_to_db. unfold_py. cbn in *.
  destruct (first_index _ (integrations c)) eqn:E1;
    destruct (first_index _ (integration_status c)) eqn:E2;
    cbn; rewrite ?E1; cbn; rewrite ?E2; cbn; auto.
Qed.

(** X8. The account email is best effort.  When the exchange granted a
    refresh token and the state names an integer user, a userinfo request
    that fails, or that reports no email, does not stop the callback: it
    answers 200 and stores the bundle under the placeholder email made of
    "user_" and the current timestamp. *)
Theorem google_callback_placeholder_email
  (l : list (string * json)) (code : option string) (user_id : Z) (db : DB) :
  let v := match assoc "user_id" l with Some v => v | None => JNull end in
  let request := mk_callback_request (StateJson (JObj l)) code in
  let stored := Some (credentials_dict exchanged (JStr ("user_" +:+ timestamp_text))) in
  truthy v = true -> py_int v = Ok user_id ->
  text_truthy code = true ->
  text_truthy (refresh_token exchanged) = true ->
  (let '(r, st) := serve (callback_handler request) db [false; false; true] in
   status_code r = 200 /\ bundle_of user_id google_calendar (committed st) = stored)
  /\ (truthy userinfo_email = false ->
      let '(r, st) := serve (callback_handler request) db [] in
      status_code r = 200 /\ bundle_of user_id google_calendar (committed st) = stored).
Proof.
  intros v request stored T I C R. subst v request stored.
  unfold serve, fastapi, google_callback, load_state, state_user_id. unfold_py. cbn.
  rewrite T, C. cbn. rewrite R. cbn. rewrite I. cbn.
  split; [|intros E; rewrite E; cbn].
  all: match goal with
       | |- context [save_integration_to_db ?a ?b ?c ?d ?s] =>
           pose proof (save_integration_to_db_no_fault b c d s eq_refl) as H;
           destruct (save_integration_to_db a b c d s) as [r' s']
       end.
  all: destruct H as (-> & B & _); cbn; auto.
Qed.

End CallbackMore.

Lemma google_callback_placeholder_email_witness :
  (let '(r, st) := serve (google_callback sample_now fresh_credentials JNull "1705320000.0"
                            (mk_callback_request state_of_user_1 (Some "4/0AbCd")))
                         empty_db [false; false; true] in
   status_code r = 200
   /\ bundle_of 1 google_calendar (committed st)
      = Some (credentials_dict fresh_credentials (JStr "user_1705320000.0")))
  /\ (let '(r, st) := serve (google_callback sample_now fresh_credentials JNull "1705320000.0"
                               (mk_callback_request state_of_user_1 (Some "4/0AbCd")))
                            empty_db [] in
      status_code r = 200
      /\ bundle_of 1 google_calendar (committed st)
         = Some (credentials_dict fresh_credentials (JStr "user_1705320000.0"))).
Proof.
  destruct (google_callback_placeholder_email sample_now fresh_credentials JNull
              "1705320000.0" [("user_id", JStr "1"); ("prompt", JStr "consent")]
              (Some "4/0AbCd") 1 empty_db eq_refl eq_refl eq_refl eq_refl) as [A B].
  split; [exact A|exact (B eq_refl)].
Defined.

(** ** Saving a communication: all outcomes *)

Ltac next_fault' :=
  match goal with
  | |- context [match ?fs with [] => _ | _ :: _ => _ end] =>
      is_var fs; destruct fs as [|[] fs]
  end.

Section SaveCommunicationMore.
Variable utcnow : PyDatetime.datetime.

(** X9. [save_communication] answers 201 or 500 and nothing else: the 400
    and 404 it raises for a missing field, an unknown user, a missing
    lead_id and drew_id, or a call without duration and call_id are all
    turned into 500 by its own handler. *)
Theorem save_communication_status_codes
  (data : communication_request) (db : DB) (fs : list bool) :
  let r := fst (serve (save_communication utcnow data) db fs) in
  status_code r = 201 \/ status_code r = 500.
Proof.
  destruct data as [uid type status details lead drew duration cid ctime].
  unfold serve, fastapi, save_communication, with_request_session, parse_time, flush.
  unfold_py.
  destruct uid, type as [type|], status, details; cbn; auto.
  repeat (try next_fault'; cbn; auto).
  all: destruct (find _ (users db)); cbn; auto.
  all: destruct (int_truthy lead), (text_truthy drew); cbn; auto.
  all: destruct (String.eqb (PyStr.upper type) "CALL"); cbn;
    repeat (try next_fault'; cbn; auto).
  all: destruct duration, cid; cbn; auto.
  all: destruct (text_truthy ctime); cbn; auto.
  all: try (destruct (PyDatetime.fromisoformat _); cbn; auto).
  all: repeat (try next_fault'; cbn; auto).
Qed.

(** X10. When [save_communication] answers 201, exactly one communication
    row has been appended, of the class chosen by the truthy ones among
    lead_id and drew_id (a lead_id of 0 counts as absent) and with the type
    as submitted; a call row is appended as well exactly when the type is
    CALL in any letter case; the user exists and no other table changed. *)
Theorem save_communication_created
  (data : communication_request) (db : DB) (fs : list bool) :
  let '(r, st) := serve (save_communication utcnow data) db fs in
  status_code r = 201 -> communication_saved data db (committed st).
Proof.
  destruct data as [uid type status details lead drew duration cid ctime].
  unfold communication_saved, communication_of, serve, fastapi, save_communication,
    with_request_session, parse_time, flush.
  unfold_py.
  destruct uid as [uid|], type as [type|], status as [status|],
    details as [details|]; cbn; try easy.
  repeat (try next_fault'; cbn; try easy).
  all: destruct (find _ (users db)) eqn:U; cbn; try easy.
  all: destruct (int_truthy lead) eqn:L, (text_truthy drew) eqn:D; cbn; try easy.
  all: destruct (String.eqb (PyStr.upper type) "CALL") eqn:T; cbn;
    repeat (try next_fault'; cbn; try easy).
  all: try (destruct duration as [duration|], cid as [cid|]; cbn; try easy).
  all: try (destruct (text_truthy ctime); cbn; try easy).
  all: try (destruct (PyDatetime.fromisoformat _); cbn; try easy).
  all: repeat (try next_fault'; cbn; try easy).
  all: intros _; exists uid, type, status, details; cbn; rewrite ?T, ?U.
  all: repeat split; try easy; eauto 8.
Qed.

End SaveCommunicationMore.

Lemma save_communication_created_witness :
  let '(r, st) := serve (save_communication sample_now lowercase_call_request)
                        connected_db [] in
  status_code r = 201 /\ communication_saved lowercase_call_request connected_db (committed st).
Proof.
  pose proof (save_communication_created sample_now lowercase_call_request
                connected_db []) as H.
  destruct (serve (save_communication sample_now lowercase_call_request) connected_db [])
    as [r st] eqn:E.
  vm_compute in E. injection E as <- <-.
  split; [reflexivity|apply H; reflexivity].
Defined.

(** ** The workflow endpoints: rejections and effects *)

Section WorkflowMore.
Variable now : PyDatetime.datetime.

(** X11. A request that lacks a required field is rejected before any lookup,
    but not alike: [initiate_call] and [send_message] answer 400, whereas
    [book_appointment] raises its 400 inside its own handler and answers
    500.  [send_message] also answers 400 before any lookup when the message
    type is neither SMS nor EMAIL. *)
Theorem workflow_rejections_before_lookup (db : DB) (fs : list bool) :
  (forall data : book_request,
     is_none (b_user_id data) || is_none (b_lead_name data)
       || is_none (b_start_time data) = true ->
     let '(r, st) := serve (book_appointment data) db fs in
     status_code r = 500 /\ count_events is_select (trace st) = 0%nat)
  /\ (forall data : call_request,
        is_none (k_req_user_id data) || is_none (k_contact_name data)
          || is_none (k_req_call_time data) = true ->
        let '(r, st) := serve (initiate_call now data) db fs in
        status_code r = 400 /\ count_events is_select (trace st) = 0%nat)
  /\ (forall data : message_request,
        is_none (m_user_id data) || is_none (m_lead_name data)
          || is_none (m_message_type data) || is_none (m_message_content data)
          || negb (allowed_message_type (default "" (m_message_type data))) = true ->
        let '(r, st) := serve (send_message data) db fs in
        status_code r = 400 /\ count_events is_select (trace st) = 0%nat).
Proof.
  unfold serve, fastapi, with_request_session. repeat split.
  - intros [u n s d l m] H. unfold book_appointment. unfold_py.
    destruct u, n, s; cbn in *; try discriminate; auto.
  - intros [u n s d] H. unfold initiate_call. unfold_py.
    destruct u, n, s; cbn in *; try discriminate; auto.
  - intros [u n t c] H. unfold send_message. unfold_py.
    destruct u, n, t as [t|], c; cbn in *; try discriminate; auto.
    apply negb_true_iff in H. rewrite H. cbn. auto.
Qed.

End WorkflowMore.

Lemma workflow_rejections_before_lookup_witness :
  status_code (fst (serve (book_appointment
                      (mk_book_request (Some 1) (Some "bob") None None None None))
                      leads_db [])) = 500
  /\ status_code (fst (serve (initiate_call sample_now
                         (mk_call_request (Some 1) (Some "bob") None None))
                         leads_db [])) = 400
  /\ status_code (fst (serve (send_message (messaging "bob" "fax")) leads_db [])) = 400.
Proof.
  destruct (workflow_rejections_before_lookup sample_now leads_db []) as (B & C & M).
  split; [|split].
  - pose proof (B (mk_book_request (Some 1) (Some "bob") None None None None) eq_refl) as H.
    destruct (serve _ _ _). exact (proj1 H).
  - pose proof (C (mk_call_request (Some 1) (Some "bob") None None) eq_refl) as H.
    destruct (serve _ _ _). exact (proj1 H).
  - pose proof (M (messaging "bob" "fax") eq_refl) as H.
    destruct (serve _ _ _). exact (proj1 H).
Defined.

Ltac next_fault'' :=
  match goal with
  | |- context [match ?fs with [] => _ | _ :: _ => _ end] =>
      is_var fs; destruct fs as [|[] fs]
  end.

Section WorkflowEffects.
Variable now : PyDatetime.datetime.

Ltac open_handler :=
  unfold serve, fastapi, with_request_session, query_leads, parse_time,
    plus_one_hour, le_now; unfold_py.

Ltac lookup db :=
  repeat (try next_fault''; cbn; auto);
  try (destruct (filter_rows _ (leads db)) as [[|l1 [|l2 rest]]|]; cbn; auto).

(** X12. The three workflow endpoints never write to the database: the
    committed rows are those before the request and no flush or commit is
    sent.  [book_appointment] and [send_message] hand a background closure
    to the framework exactly when they answer 202, and then exactly one;
    [initiate_call] hands over one when it answers 202 and never more than
    one. *)
Theorem workflow_requests_only_enqueue (db : DB) (fs : list bool) :
  (forall data : book_request,
     let '(r, st) := serve (book_appointment data) db fs in
     committed st = db /\ existsb is_db_write (trace st) = false
     /\ count_events is_add_task (trace st)
        = if status_code r =? 202 then 1%nat else 0%nat)
  /\ (forall data : message_request,
        let '(r, st) := serve (send_message data) db fs in
        committed st = db /\ existsb is_db_write (trace st) = false
        /\ count_events is_add_task (trace st)
           = if status_code r =? 202 then 1%nat else 0%nat)
  /\ (forall data : call_request,
        let '(r, st) := serve (initiate_call now data) db fs in
        committed st = db /\ existsb is_db_write (trace st) = false
        /\ if status_code r =? 202
           then count_events is_add_task (trace st) = 1%nat
           else (count_events is_add_task (trace st) <= 1)%nat).
Proof.
  repeat split.
  - destruct data as [u n s d l m]. unfold book_appointment. open_handler.
    destruct u, n, s; cbn; auto. lookup db.
    all: destruct (PyDatetime.fromisoformat _) as [t|]; cbn; auto.
    all: destruct (PyDatetime.add_one_hour t); cbn; auto.
  - destruct data as [u n t c]. unfold send_message. open_handler.
    destruct u, n, t as [t|], c; cbn; auto.
    destruct (allowed_message_type t); cbn; auto. lookup db.
  - destruct data as [u n s d]. unfold initiate_call. open_handler.
    destruct u, n, s; cbn; auto. lookup db.
    all: destruct (PyDatetime.fromisoformat _) as [t|]; cbn; auto.
    all: destruct (PyDatetime.tzinfo t); cbn; auto.
Qed.

(** X13. [initiate_call] compares the call time with the naive
    [datetime.now()].  When exactly one contact matches and the call time
    parses to a time with a UTC offset, as every time ending in Z does, the
    comparison fails after the background closure was handed over, and the
    request is answered 500. *)
Theorem initiate_call_offset_time
  (user_id : Z) (name call_text : string) (discussion_points : option string)
  (contact : Lead) (t : PyDatetime.datetime) (off : Z) (db : DB) (fs : list bool) :
  filter_rows (lead_matches user_id name) (leads db) = Some [contact] ->
  PyDatetime.fromisoformat (PyStr.replace_char "Z"%char "+00:00" call_text) = Some t ->
  PyDatetime.tzinfo t = Some off ->
  let '(r, st) := serve (initiate_call now
                           (mk_call_request (Some user_id) (Some name) (Some call_text)
                              discussion_points)) db (false :: fs) in
  status_code r = 500
  /\ List.filter is_add_task (trace st)
     = [EvAddTask (CallTask user_id contact t discussion_points)].
Proof.
  intros Q P Z. unfold initiate_call. open_handler. cbn.
  rewrite Q. cbn. rewrite P. cbn. rewrite Z. cbn. auto.
Qed.

End WorkflowEffects.

Lemma initiate_call_offset_time_witness :
  let '(r, st) := serve (initiate_call sample_now (calling "bob" "2024-01-15T14:00:00Z"))
                        leads_db [false] in
  status_code r = 500
  /\ List.filter is_add_task (trace st)
     = [EvAddTask (CallTask 1 (sample_lead 3 1 "Bob Stone")
                     (PyDatetime.mk_datetime 2024 1 15 14 0 0 0 (Some 0)) None)].
Proof.
  apply (initiate_call_offset_time sample_now 1 "bob" "2024-01-15T14:00:00Z" None
           (sample_lead 3 1 "Bob Stone")
           (PyDatetime.mk_datetime 2024 1 15 14 0 0 0 (Some 0)) 0 leads_db []);
    reflexivity.
Defined.

(** ** The lead lookup for any name *)


(** X14. The lookup behind the workflow endpoints and the lead search never
    fails on the text it is given, whatever pattern characters the text
    holds, and it never returns a lead of another user or a lead without a
    name: the rows found are rows of the table, in table order, each owned
    by the requesting user. *)
Theorem lead_lookup_scoped (user_id : Z) (name : string) (rows : list Lead) :
  exists found,
    filter_rows (lead_matches user_id name) rows = Some found
    /\ sublist found rows
    /\ Forall (fun lead => named_lead_of user_id lead = true) found.
Proof.
  induction rows as [|lead rows (found & F & S & A)].
  - exists []. repeat split; constructor.
  - destruct (lead_matches_decided user_id name lead) as (b & Hb & Hn).
    cbn. rewrite Hb, F. destruct b.
    + exists (lead :: found). repeat split; [now constructor|].
      constructor; auto.
    + exists found. repeat split; [now constructor|assumption].
Qed.

(** X15. An empty name matches every named lead of the user: when the
    query itself succeeds, the lookup returns all the leads of the user that
    have a name, in table order. *)
Theorem lead_lookup_empty_name (user_id : Z) (db : DB) (fs : list bool) :
  let '(r, st) := run (query_leads user_id "") db (false :: fs) in
  r = Ok (List.filter (named_lead_of user_id) (leads db)).
Proof.
  unfold run. rewrite query_leads_ok by reflexivity. cbn. f_equal.
  unfold leads_named. apply List.filter_ext. intros lead.
  unfold named_like, named_lead_of.
  destruct (l_user_id lead), (l_name lead) as [n|]; try reflexivity.
  destruct n; cbn; now rewrite andb_true_r.
Qed.

(** ** Draft cleaning: shape of the result *)

(** X16. The cleaned draft has no whitespace at either end and is never
    longer than the draft it was made from. *)
Theorem clean_generated_email_trimmed (s : string) :
  PyStr.strip (clean_generated_email s) = clean_generated_email s
  /\ (String.length (clean_generated_email s) <= String.length s)%nat.
Proof.
  split; [apply clean_stripped|].
  rewrite clean_stages.
  pose proof (remove_html_line_length (remove_fences (PyStr.strip s))).
  pose proof (strip_length s).
  assert (String.length (remove_fences (PyStr.strip s))
          <= String.length (PyStr.strip s))%nat.
  { destruct (is_fenced (PyStr.strip s)) eqn:E.
    - pose proof (remove_fences_shrinks _ E). lia.
    - unfold remove_fences. rewrite E. lia. }
  lia.
Qed.

(** ** Reading stored credentials *)

Section ReadCredentials.
Variable local_utcoffset : PyDatetime.datetime -> option Z.

(** X23. [get_user_credentials] never raises, whatever is stored and
    whether or not the query fails: every failure ends in [None].  It sends
    one query, calls no outside service, writes nothing and leaves its
    session closed. *)
Theorem get_user_credentials_quiet
  (user_id : Z) (platform_name : string) (db : DB) (fs : list bool) :
  let '(r, st) := run (get_user_credentials local_utcoffset user_id platform_name) db fs in
  is_raise r = false
  /\ committed st = db /\ session st = db /\ dirty st = false
  /\ existsb is_db_write (trace st) = false
  /\ existsb is_external_call (trace st) = false
  /\ count_events is_select (trace st) = 1%nat.
Proof.
  unfold get_user_credentials, load_expiry, item. unfold_py.
  destruct fs as [|[] fs]; cbn; try (now repeat split).
  all: destruct (find _ (integrations db)) as [row|]; cbn; try (now repeat split).
  all: case_bool_decide; cbn; try (now repeat split).
  all: repeat (match goal with
               | |- context [?d !! ?k] =>
                   lazymatch d with i_credentials _ => idtac end;
                   destruct (d !! k) as [?v|] eqn:?; cbn; try (now repeat split)
               end).
  all: repeat (match goal with
               | |- context [truthy ?v] => destruct (truthy v); cbn; try (now repeat split)
               | |- context [match ?v with JNull => _ | _ => _ end] =>
                   destruct v; cbn; try (now repeat split)
               | |- context [PyDatetime.fromisoformat ?s] =>
                   destruct (PyDatetime.fromisoformat s); cbn; try (now repeat split)
               | |- context [astimezone_utc ?f ?d] =>
                   destruct (astimezone_utc f d); cbn; try (now repeat split)
               end).
Qed.

End ReadCredentials.

(** ** A naive time survives [isoformat] and [fromisoformat] *)

Section IsoNaive.
Import PyDatetime.

Lemma pad6_value n :
  0 <= n < 1000000 ->
  (((((0 * 10 + n / 10 / 10 / 10 / 10 / 10 mod 10) * 10
      + n / 10 / 10 / 10 / 10 mod 10) * 10
     + n / 10 / 10 / 10 mod 10) * 10
    + n / 10 / 10 mod 10) * 10
   + n / 10 mod 10) * 10 + n mod 10 = n.
Proof. intros H. Z.div_mod_to_equations. lia. Qed.

Lemma check_fields_microsecond dt :
  check_fields dt = true -> 0 <= microsecond dt < 1000000.
Proof.
  unfold check_fields. intros H. repeat (apply andb_prop in H as [H ?]).
  rewrite ?Z.leb_le in *. lia.
Qed.

#[local] Arguments Z.div : simpl never.
#[local] Arguments Z.modulo : simpl never.
#[local] Arguments Z.mul : simpl never.
#[local] Arguments Z.add : simpl never.
#[local] Arguments digit_char : simpl never.
#[local] Arguments is_digit : simpl never.
#[local] Arguments digit_val : simpl never.
#[local] Arguments Ascii.eqb : simpl nomatch.
#[local] Arguments check_fields : simpl never.

Lemma canonical_chars y m d hh mm ss frac :
  canonical y m d hh mm ss +:+ frac
  = String (digit_char (y / 10 / 10 / 10 mod 10))
     (String (digit_char (y / 10 / 10 mod 10))
     (String (digit_char (y / 10 mod 10))
     (String (digit_char (y mod 10))
     (String "-"
     (String (digit_char (m / 10 mod 10))
     (String (digit_char (m mod 10))
     (String "-"
     (String (digit_char (d / 10 mod 10))
     (String (digit_char (d mod 10))
     (String "T"
     (String (digit_char (hh / 10 mod 10))
     (String (digit_char (hh mod 10))
     (String ":"
     (String (digit_char (mm / 10 mod 10))
     (String (digit_char (mm mod 10))
     (String ":"
     (String (digit_char (ss / 10 mod 10))
     (String (digit_char (ss mod 10)) frac)))))))))))))))))).
Proof. reflexivity. Qed.

Lemma append_empty s : s +:+ "" = s.
Proof.
  induction s as [|c s IH]; [reflexivity|].
  change (String c s +:+ "") with (String c (s +:+ "")). now rewrite IH.
Qed.

Lemma isoformat_naive y m d hh mm ss us :
  isoformat (mk_datetime y m d hh mm ss us None)
  = canonical y m d hh mm ss +:+ (if us =? 0 then "" else "." +:+ pad 6 us).
Proof.
  unfold isoformat, canonical. cbn [year month day hour minute second microsecond tzinfo].
  rewrite !append_assoc. repeat f_equal. apply append_empty.
Qed.

Lemma replace_Z_isoformat_naive dt :
  tzinfo dt = None ->
  PyStr.replace_char "Z" "+00:00" (isoformat dt) = isoformat dt.
Proof.
  destruct dt as [y m d hh mm ss us tz]. cbn [tzinfo]. intros ->.
  rewrite isoformat_naive. unfold canonical.
  rewrite !replace_char_append, !replace_Z_pad.
  destruct (us =? 0); [reflexivity|].
  now rewrite replace_char_append, replace_Z_pad.
Qed.

Lemma fromisoformat_isoformat_naive dt :
  check_fields dt = true -> tzinfo dt = None ->
  fromisoformat (isoformat dt) = Some dt.
Proof.
  intros V N. pose proof (check_fields_microsecond dt V) as Rus.
  destruct dt as [y m d hh mm ss us tz]. cbn [tzinfo microsecond] in *. subst tz.
  destruct (check_fields_ranges _ _ _ _ _ _ _ _ V) as (Ry & Rm & Rd & Rh & Rmi & Rs).
  rewrite isoformat_naive, canonical_chars.
  destruct (us =? 0) eqn:U.
  - apply Z.eqb_eq in U. subst us.
    unfold fromisoformat, parse_isoformat_date, parse_isoformat_time, parse_digits, char_at,
      tz_sign_pos.
    do 3 (cbn;
          rewrite ?is_digit_digit_char, ?digit_val_digit_char,
            ?digit_char_not_minus, ?digit_char_not_plus;
          rewrite ?pad4_value, ?pad2_value by assumption).
    now rewrite V.
  - change ("." +:+ pad 6 us)
      with (String "."%char
             (String (digit_char (us / 10 / 10 / 10 / 10 / 10 mod 10))
             (String (digit_char (us / 10 / 10 / 10 / 10 mod 10))
             (String (digit_char (us / 10 / 10 / 10 mod 10))
             (String (digit_char (us / 10 / 10 mod 10))
             (String (digit_char (us / 10 mod 10))
             (String (digit_char (us mod 10)) ""))))))).
    unfold fromisoformat, parse_isoformat_date, parse_isoformat_time, parse_digits, char_at,
      tz_sign_pos, parse_fraction.
    do 3 (cbn;
          rewrite ?is_digit_digit_char, ?digit_val_digit_char,
            ?digit_char_not_minus, ?digit_char_not_plus;
          rewrite ?pad4_value, ?pad2_value, ?pad6_value by assumption).
    now rewrite V.
Qed.

End IsoNaive.

(** ** [_ord2ymd] and [_ymd2ord] are inverse on the years 1 to 9999 *)

Section Calendar400.
Import PyDatetime.

Lemma all_from_spec p start count :
  all_from p start count = true ->
  forall n, start <= n < start + Z.of_nat count -> p n = true.
Proof.
  revert start; induction count as [|c IH]; intros start H n Hn; [lia|].
  cbn [all_from] in H. apply andb_prop in H as [H1 H2].
  destruct (Z.eq_dec n start) as [->|]; [assumption|].
  apply (IH (start + 1) H2). lia.
Qed.

Ltac split_andb :=
  repeat match goal with
         | H : (_ && _) = true |- _ => apply andb_prop in H as [? ?]
         end.

Lemma first_cycle_ordinals : all_from ordinal_ok 1 (Z.to_nat 146097) = true.
Proof. vm_cast_no_check (eq_refl true). Qed.

Lemma first_cycle_dates :
  all_from (fun y => all_from (fun m => all_from (date_ok y m) 1 31) 1 12) 1 400 = true.
Proof. vm_cast_no_check (eq_refl true). Qed.

Lemma ordinal_ok_first_cycle n : 1 <= n <= 146097 -> ordinal_ok n = true.
Proof.
  intros H. apply (all_from_spec _ _ _ first_cycle_ordinals). lia.
Qed.

Lemma date_ok_first_cycle y m d :
  1 <= y <= 400 -> 1 <= m <= 12 -> 1 <= d <= 31 -> date_ok y m d = true.
Proof.
  intros Hy Hm Hd.
  pose proof (all_from_spec _ _ _ first_cycle_dates y ltac:(lia)) as H1.
  pose proof (all_from_spec _ _ _ H1 m ltac:(lia)) as H2.
  apply (all_from_spec _ _ _ H2 d). lia.
Qed.

Lemma is_leap_cycle q y : is_leap (400 * q + y) = is_leap y.
Proof.
  unfold is_leap.
  replace ((400 * q + y) mod 4) with (y mod 4)
    by (replace (400 * q + y) with (y + (100 * q) * 4) by lia; now rewrite Z_mod_plus_full).
  replace ((400 * q + y) mod 100) with (y mod 100)
    by (replace (400 * q + y) with (y + (4 * q) * 100) by lia; now rewrite Z_mod_plus_full).
  replace ((400 * q + y) mod 400) with (y mod 400)
    by (replace (400 * q + y) with (y + q * 400) by lia; now rewrite Z_mod_plus_full).
  reflexivity.
Qed.

Lemma days_in_month_cycle q y m : days_in_month (400 * q + y) m = days_in_month y m.
Proof. unfold days_in_month. now rewrite is_leap_cycle. Qed.

Lemma valid_date_cycle q y m d : valid_date (400 * q + y) m d = valid_date y m d.
Proof. unfold valid_date. now rewrite days_in_month_cycle. Qed.

Lemma ymd2ord_cycle q y m d :
  ymd2ord (400 * q + y) m d = 146097 * q + ymd2ord y m d.
Proof.
  unfold ymd2ord, days_before_month, days_before_year. rewrite is_leap_cycle.
  assert ((400 * q + y - 1) / 4 = 100 * q + (y - 1) / 4)
    by (Z.div_mod_to_equations; lia).
  assert ((400 * q + y - 1) / 100 = 4 * q + (y - 1) / 100)
    by (Z.div_mod_to_equations; lia).
  assert ((400 * q + y - 1) / 400 = q + (y - 1) / 400)
    by (Z.div_mod_to_equations; lia).
  cbv zeta. lia.
Qed.

Lemma ord2ymd_cycle n :
  ord2ymd n
  = let '(y, m, d) := ord2ymd ((n - 1) mod 146097 + 1) in
    (400 * ((n - 1) / 146097) + y, m, d).
Proof.
  unfold ord2ymd, DI400Y.
  pose proof (Z.mod_pos_bound (n - 1) 146097 ltac:(lia)) as B.
  replace ((n - 1) mod 146097 + 1 - 1) with ((n - 1) mod 146097) by lia.
  rewrite (Z.div_small _ _ B), (Z.mod_small _ _ B).
  set (r := (n - 1) mod 146097). set (q := (n - 1) / 146097).
  cbv zeta.
  destruct ((r mod DI100Y mod DI4Y / 365 =? 4) || (r / DI100Y =? 4));
    [f_equal; f_equal; lia|].
  destruct (_ <? _); f_equal; f_equal; lia.
Qed.

Lemma ord2ymd_valid n :
  1 <= n <= MAXORDINAL ->
  let '(y, m, d) := ord2ymd n in
  1 <= y <= 9999 /\ valid_date y m d = true /\ ymd2ord y m d = n.
Proof.
  unfold MAXORDINAL. intros H. rewrite ord2ymd_cycle.
  pose proof (Z.mod_pos_bound (n - 1) 146097 ltac:(lia)) as B.
  pose proof (ordinal_ok_first_cycle ((n - 1) mod 146097 + 1) ltac:(lia)) as K.
  unfold ordinal_ok in K.
  destruct (ord2ymd ((n - 1) mod 146097 + 1)) as [[y m] d].
  repeat (apply andb_prop in K as [K ?]).
  rewrite valid_date_cycle, ymd2ord_cycle.
  match goal with H : (_ =? _) = true |- _ => apply Z.eqb_eq in H; rewrite H end.
  split; [|split; [assumption|]].
  - match goal with H : (_ || _) = true |- _ => apply orb_prop in H end.
    rewrite ?Z.leb_le, ?Z.ltb_lt in *. Z.div_mod_to_equations. lia.
  - Z.div_mod_to_equations. lia.
Qed.

Lemma ymd2ord_valid y m d :
  1 <= y <= 9999 -> valid_date y m d = true ->
  1 <= ymd2ord y m d <= MAXORDINAL /\ ord2ymd (ymd2ord y m d) = (y, m, d).
Proof.
  unfold MAXORDINAL. intros Hy V.
  set (q := (y - 1) / 400). set (y' := (y - 1) mod 400 + 1).
  assert (Ey : y = 400 * q + y') by (subst q y'; Z.div_mod_to_equations; lia).
  assert (By : 1 <= y' <= 400) by (subst y'; Z.div_mod_to_equations; lia).
  assert (Bq : 0 <= q <= 24) by (subst q; Z.div_mod_to_equations; lia).
  clearbody q y'. subst y.
  rewrite valid_date_cycle in V. rewrite ymd2ord_cycle.
  assert (Bm : 1 <= m <= 12 /\ 1 <= d <= 31).
  { unfold valid_date in V. repeat (apply andb_prop in V as [V ?]).
    rewrite ?Z.leb_le in *.
    assert (days_in_month y' m <= 31)
      by (unfold days_in_month; repeat destruct (_ =? _); try destruct (is_leap y'); cbn; lia).
    lia. }
  pose proof (date_ok_first_cycle y' m d By (proj1 Bm) (proj2 Bm)) as K.
  unfold date_ok, DI400Y in K. rewrite V in K. cbn [negb orb] in K. cbv zeta in K.
  set (n := ymd2ord y' m d) in *.
  destruct (ord2ymd n) as [[y2 m2] d2] eqn:E.
  split_andb.
  match goal with H : (_ || _) = true |- _ => apply orb_prop in H end.
  rewrite ?Z.leb_le, ?Z.eqb_eq in *. subst y2 m2 d2.
  split; [lia|].
  rewrite ord2ymd_cycle.
  replace ((146097 * q + n - 1) mod 146097) with (n - 1)
    by (Z.div_mod_to_equations; lia).
  replace ((146097 * q + n - 1) / 146097) with q by (Z.div_mod_to_equations; lia).
  replace (n - 1 + 1) with n by lia. now rewrite E.
Qed.

End Calendar400.

(** ** Adding a duration to a time *)

Section AddTimedelta.
Import PyDatetime.

Lemma check_fields_spec dt :
  check_fields dt = true
  <-> (1 <= year dt <= 9999 /\ valid_date (year dt) (month dt) (day dt) = true
       /\ 0 <= hour dt <= 23 /\ 0 <= minute dt <= 59 /\ 0 <= second dt <= 59
       /\ 0 <= microsecond dt <= 999999
       /\ match tzinfo dt with
          | None => True
          | Some off => - DAY_US < off < DAY_US
          end).
Proof.
  unfold check_fields, valid_date, MINYEAR, MAXYEAR.
  rewrite !andb_true_iff, !Z.leb_le.
  destruct (tzinfo dt) as [off|].
  - rewrite andb_true_iff, !Z.ltb_lt. tauto.
  - tauto.
Qed.

Lemma add_timedelta_spec dt us r :
  check_fields dt = true -> add_timedelta dt us = Some r ->
  check_fields r = true /\ wall_micros r = wall_micros dt + us /\ tzinfo r = tzinfo dt.
Proof.
  intros V. apply check_fields_spec in V as (_ & _ & _ & _ & _ & _ & T).
  unfold add_timedelta. set (total := wall_micros dt + us).
  destruct ((0 <? total / 1000000 / 86400) && (total / 1000000 / 86400 <=? MAXORDINAL))
    eqn:R; [|discriminate].
  apply andb_prop in R as [R1 R2]. apply Z.ltb_lt in R1. apply Z.leb_le in R2.
  pose proof (ord2ymd_valid (total / 1000000 / 86400) ltac:(lia)) as K.
  destruct (ord2ymd _) as [[y m] d]. destruct K as (Ky & Kv & Ko).
  intros [= <-]. split; [|split; [|reflexivity]].
  - apply check_fields_spec. cbn [year month day hour minute second microsecond tzinfo].
    repeat split; try assumption; try lia; Z.div_mod_to_equations; lia.
  - unfold wall_micros, toordinal.
    cbn [year month day hour minute second microsecond tzinfo]. rewrite Ko.
    Z.div_mod_to_equations. lia.
Qed.

Lemma add_timedelta_zero dt :
  check_fields dt = true -> add_timedelta dt 0 = Some dt.
Proof.
  intros V. apply check_fields_spec in V as (Vy & Vd & Vh & Vm & Vs & Vu & _).
  destruct (ymd2ord_valid _ _ _ Vy Vd) as (Bn & E).
  unfold add_timedelta, wall_micros, toordinal.
  destruct dt as [y m d hh mm ss us tz].
  cbn [year month day hour minute second microsecond tzinfo] in *.
  set (n := ymd2ord y m d) in *.
  set (total := (((n * 24 + hh) * 60 + mm) * 60 + ss) * 1000000 + us + 0).
  assert (E1 : total mod 1000000 = us) by (subst total; Z.div_mod_to_equations; lia).
  assert (E2 : total / 1000000 = n * 86400 + (hh * 3600 + mm * 60 + ss))
    by (subst total; Z.div_mod_to_equations; lia).
  rewrite E1, E2.
  assert (E3 : (n * 86400 + (hh * 3600 + mm * 60 + ss)) / 86400 = n)
    by (Z.div_mod_to_equations; lia).
  assert (E4 : (n * 86400 + (hh * 3600 + mm * 60 + ss)) mod 86400 = hh * 3600 + mm * 60 + ss)
    by (Z.div_mod_to_equations; lia).
  rewrite E3, E4, E.
  replace ((0 <? n) && (n <=? MAXORDINAL)) with true
    by (symmetry; apply andb_true_intro; split; [apply Z.ltb_lt|apply Z.leb_le]; lia).
  assert ((hh * 3600 + mm * 60 + ss) / 3600 = hh) as -> by (Z.div_mod_to_equations; lia).
  assert ((hh * 3600 + mm * 60 + ss) mod 3600 = mm * 60 + ss) as ->
    by (Z.div_mod_to_equations; lia).
  assert ((mm * 60 + ss) / 60 = mm) as -> by (Z.div_mod_to_equations; lia).
  assert ((mm * 60 + ss) mod 60 = ss) as -> by (Z.div_mod_to_equations; lia).
  reflexivity.
Qed.

End AddTimedelta.

(** ** What the stored dicts hold *)

Section StoredDicts.

(** A dict that stores the fields of [credentials] under the seven keys
    [get_user_credentials] looks at. *)
Lemma credentials_dict_stores c email : stores (credentials_dict c email) c.
Proof. repeat split; reflexivity. Qed.

Lemma refreshed_dict_stores c : stores (refreshed_dict c) c.
Proof. repeat split; reflexivity. Qed.

End StoredDicts.

(** ** What [get_user_credentials] returns *)

Section ReadBack.
Import PyDatetime.
Variable local_utcoffset : datetime -> option Z.

Lemma replace_tzinfo_twice a b dt :
  replace_tzinfo a (replace_tzinfo b dt) = replace_tzinfo a dt.
Proof. reflexivity. Qed.

Lemma replace_tzinfo_same dt : replace_tzinfo (tzinfo dt) dt = dt.
Proof. now destruct dt. Qed.

Lemma wall_micros_replace tz dt : wall_micros (replace_tzinfo tz dt) = wall_micros dt.
Proof. reflexivity. Qed.

Lemma check_fields_replace_none dt :
  check_fields dt = true -> check_fields (replace_tzinfo None dt) = true.
Proof.
  intros V. apply check_fields_spec in V. apply check_fields_spec. cbn. tauto.
Qed.

Lemma isoformat_not_empty dt : tzinfo dt = None -> String.eqb (isoformat dt) "" = false.
Proof.
  destruct dt as [y m d hh mm ss us tz]. cbn [tzinfo]. intros ->.
  now rewrite isoformat_naive, canonical_chars.
Qed.

(** The conversion to UTC is the subtraction of the offset. *)
Lemma astimezone_utc_spec dt utc :
  check_fields dt = true -> astimezone_utc local_utcoffset dt = Ok utc ->
  exists off, offset_of local_utcoffset dt = Some off
              /\ check_fields (replace_tzinfo None utc) = true
              /\ wall_micros utc = wall_micros dt - off.
Proof.
  intros V. unfold astimezone_utc, offset_of.
  destruct (tzinfo dt) as [off|] eqn:T.
  - destruct (off =? 0) eqn:Z0.
    + apply Z.eqb_eq in Z0. subst off. intros [= <-]. exists 0.
      repeat split; [now apply check_fields_replace_none|lia].
    + destruct (add_timedelta dt (- off)) as [r|] eqn:A; [|discriminate].
      intros [= <-]. exists off. destruct (add_timedelta_spec _ _ _ V A) as (Vr & W & _).
      rewrite replace_tzinfo_twice, wall_micros_replace.
      repeat split; [now apply check_fields_replace_none|lia].
  - destruct (local_utcoffset dt) as [off|]; [|discriminate].
    destruct (add_timedelta dt (- off)) as [r|] eqn:A; [|discriminate].
    intros [= <-]. exists off. destruct (add_timedelta_spec _ _ _ V A) as (Vr & W & _).
    rewrite replace_tzinfo_twice, wall_micros_replace.
    repeat split; [now apply check_fields_replace_none|lia].
Qed.

Ltac open_reader :=
  unfold get_user_credentials, item; unfold_py; cbn.

(** Reading a dict that stores typed credentials. *)
Lemma get_user_credentials_typed user_id platform_name db fs d c :
  bundle_of user_id platform_name db = Some d -> stores d c -> naive_expiry c ->
  fst (run (get_user_credentials local_utcoffset user_id platform_name) db (false :: fs))
  = Ok (match expiry c with
        | None => Some (loaded_fields c None)
        | Some e =>
            match local_utcoffset e with
            | Some off =>
                option_map (fun utc => loaded_fields c (Some (replace_tzinfo None utc)))
                  (add_timedelta e (- off))
            | None => None
            end
        end).
Proof.
  unfold bundle_of. intros B (S1 & S2 & S3 & S4 & S5 & S6 & S7) N.
  open_reader.
  destruct (find _ (integrations db)) as [row|]; [|discriminate].
  cbn in B. injection B as ->. cbn.
  case_bool_decide as E; [rewrite E, lookup_empty in S1; discriminate|].
  cbn. rewrite S1. cbn. rewrite S2. cbn. rewrite S3. cbn. rewrite S4. cbn.
  rewrite S5. cbn. rewrite S6. cbn.
  unfold load_expiry. rewrite S7. unfold naive_expiry in N.
  destruct (expiry c) as [e|]; cbn; [|reflexivity].
  destruct N as [V T].
  rewrite (isoformat_not_empty _ T). cbn.
  rewrite (replace_Z_isoformat_naive _ T), (fromisoformat_isoformat_naive _ V T).
  unfold_py. unfold astimezone_utc. rewrite T.
  destruct (local_utcoffset e) as [off|]; cbn; [|reflexivity].
  destruct (add_timedelta e (- off)); reflexivity.
Qed.

End ReadBack.

Section ReadBackProperties.
Import PyDatetime.
Variable local_utcoffset : datetime -> option Z.

Ltac open_reader :=
  unfold get_user_credentials, item; unfold_py; cbn.

(** X17. [get_user_credentials] invents nothing.  When it returns
    credentials, the pair has a stored bundle, the six constructor fields
    are the values stored under their keys, and the expiry is absent exactly
    when no truthy expiry is stored; otherwise the stored expiry is a text
    that parses, and the expiry returned is the valid naive time at the
    parsed wall clock minus the offset of the parsed time, which for a text
    without offset is the UTC offset of the host. *)
Theorem get_user_credentials_returns_stored
  (user_id : Z) (platform_name : string) (db : DB) (fs : list bool)
  (ld : LoadedCredentials) :
  fst (run (get_user_credentials local_utcoffset user_id platform_name) db fs)
  = Ok (Some ld) ->
  exists d,
    bundle_of user_id platform_name db = Some d
    /\ d !! "token" = Some (ld_token ld)
    /\ d !! "refresh_token" = Some (ld_refresh_token ld)
    /\ d !! "token_uri" = Some (ld_token_uri ld)
    /\ d !! "client_id" = Some (ld_client_id ld)
    /\ d !! "client_secret" = Some (ld_client_secret ld)
    /\ d !! "scopes" = Some (ld_scopes ld)
    /\ match ld_expiry ld with
       | None => forall v, d !! "expiry" = Some v -> truthy v = false
       | Some e =>
           tzinfo e = None /\ check_fields e = true
           /\ exists s dt off,
                d !! "expiry" = Some (JStr s)
                /\ fromisoformat (PyStr.replace_char "Z"%char "+00:00" s) = Some dt
                /\ offset_of local_utcoffset dt = Some off
                /\ wall_micros e = wall_micros dt - off
       end.
Proof.
  unfold bundle_of. open_reader.
  destruct fs as [|[] fs]; cbn; try discriminate.
  all: destruct (find _ (integrations db)) as [row|]; cbn; try discriminate.
  all: case_bool_decide; cbn; try discriminate.
  all: destruct (i_credentials row !! "token") as [v1|] eqn:E1; cbn; try discriminate.
  all: destruct (i_credentials row !! "refresh_token") as [v2|] eqn:E2; cbn;
    try discriminate.
  all: destruct (i_credentials row !! "token_uri") as [v3|] eqn:E3; cbn; try discriminate.
  all: destruct (i_credentials row !! "client_id") as [v4|] eqn:E4; cbn; try discriminate.
  all: destruct (i_credentials row !! "client_secret") as [v5|] eqn:E5; cbn;
    try discriminate.
  all: destruct (i_credentials row !! "scopes") as [v6|] eqn:E6; cbn; try discriminate.
  all: unfold load_expiry; unfold_py.
  all: destruct (i_credentials row !! "expiry") as [v7|] eqn:E7; cbn.
  all: try (destruct (truthy v7) eqn:T7; cbn).
  all: try (destruct v7 as [| | |s| |]; cbn; try discriminate).
  all: try (destruct (fromisoformat _) as [dt|] eqn:P; cbn; try discriminate).
  all: try (destruct (astimezone_utc _ dt) as [utc|] eqn:A; cbn; try discriminate).
  all: intros [= <-]; exists (i_credentials row); cbn; repeat split; try assumption.
  all: try (intros v E; congruence).
  all: destruct (astimezone_utc_spec _ _ _ (fromisoformat_checked _ _ P) A)
    as (off & O & V & W); try assumption.
  all: exists s, dt, off; repeat split; assumption.
Qed.

(** X18. One unusable field loses the whole bundle.  [None] is returned
    although a bundle is stored when one of the six constructor keys is
    missing, and when the stored expiry is truthy but is not a text that
    [fromisoformat] accepts. *)
Theorem get_user_credentials_unusable_bundle
  (user_id : Z) (platform_name : string) (db : DB) (fs : list bool)
  (d : gmap string json) :
  bundle_of user_id platform_name db = Some d ->
  (exists key, In key ["token"; "refresh_token"; "token_uri"; "client_id";
                       "client_secret"; "scopes"] /\ d !! key = None)
  \/ (exists v, d !! "expiry" = Some v /\ truthy v = true
                /\ forall s, v = JStr s
                     -> fromisoformat (PyStr.replace_char "Z"%char "+00:00" s) = None) ->
  fst (run (get_user_credentials local_utcoffset user_id platform_name) db fs) = Ok None.
Proof.
  unfold bundle_of. intros B H. open_reader.
  destruct fs as [|[] fs]; cbn; try reflexivity.
  all: destruct (find _ (integrations db)) as [row|]; [|discriminate].
  all: cbn in B; injection B as <-; cbn.
  all: case_bool_decide; cbn; try reflexivity.
  all: destruct (i_credentials row !! "token") as [v1|] eqn:E1; cbn; try reflexivity.
  all: destruct (i_credentials row !! "refresh_token") as [v2|] eqn:E2; cbn;
    try reflexivity.
  all: destruct (i_credentials row !! "token_uri") as [v3|] eqn:E3; cbn; try reflexivity.
  all: destruct (i_credentials row !! "client_id") as [v4|] eqn:E4; cbn; try reflexivity.
  all: destruct (i_credentials row !! "client_secret") as [v5|] eqn:E5; cbn;
    try reflexivity.
  all: destruct (i_credentials row !! "scopes") as [v6|] eqn:E6; cbn; try reflexivity.
  all: destruct H as [(key & K & N)|(v & E & T & P)];
    [cbn in K; intuition (subst; congruence)|].
  all: unfold load_expiry; unfold_py; rewrite E, T.
  all: destruct v as [| | |s| |]; cbn; try reflexivity.
  all: now rewrite (P s eq_refl).
Qed.

(** Reading what [save_integration_to_db] and the refresh path have
    written. *)
Section AfterWriting.
Variable utcnow : datetime.
Variable REFRESH_THRESHOLD : Z.
Variable token_endpoint : Credentials -> string * option datetime * option string.

(** X19. What [save_integration_to_db] stores comes back, up to the
    expiry.  After a save without failure, [get_user_credentials] returns
    the six fields as saved, whatever email was stored with them; a bundle
    without expiry comes back without one.  A stored expiry comes back
    shifted by the UTC offset the host has at that wall-clock time: only on a
    host at offset zero is it the expiry that was saved; when the host
    cannot convert the time, or the shifted time leaves the years 1 to 9999,
    nothing is returned at all. *)
Theorem get_user_credentials_after_save
  (credentials : Credentials) (email : json) (user_id : Z) (db : DB) (fs : list bool) :
  naive_expiry credentials ->
  let saved := committed (snd (run (save_integration_to_db utcnow credentials email
                                      user_id) db [])) in
  let r := fst (run (get_user_credentials local_utcoffset user_id google_calendar)
                    saved (false :: fs)) in
  match expiry credentials with
  | None => r = Ok (Some (loaded_fields credentials None))
  | Some e =>
      match local_utcoffset e with
      | None => r = Ok None
      | Some off =>
          match add_timedelta e (- off) with
          | None => r = Ok None
          | Some utc =>
              r = Ok (Some (loaded_fields credentials (Some (replace_tzinfo None utc))))
              /\ wall_micros utc = wall_micros e - off
              /\ (off = 0 -> replace_tzinfo None utc = e)
          end
      end
  end.
Proof.
  intros N.
  pose proof (save_integration_to_db_no_fault utcnow credentials email user_id
                (mk_state db db false [] []) eq_refl) as H.
  unfold run. destruct (save_integration_to_db _ _ _ _ _) as [r' st']. cbn [snd].
  destruct H as (_ & B & _).
  pose proof (get_user_credentials_typed local_utcoffset _ _ _ fs _ _ B
                (credentials_dict_stores credentials email) N) as G.
  unfold run in G. rewrite G. unfold naive_expiry in N.
  destruct (expiry credentials) as [e|]; [|reflexivity].
  destruct N as [V T].
  destruct (local_utcoffset e) as [off|]; [|reflexivity].
  destruct (add_timedelta e (- off)) as [utc|] eqn:A; [|reflexivity].
  destruct (add_timedelta_spec _ _ _ V A) as (_ & W & _).
  repeat split; [lia|]. intros ->. change (- 0) with 0 in A.
  rewrite (add_timedelta_zero _ V) in A. injection A as <-.
  rewrite <- T. apply replace_tzinfo_same.
Qed.

End AfterWriting.

End ReadBackProperties.

Section ReadAfterRefresh.
Import PyDatetime.
Variable local_utcoffset : datetime -> option Z.
Variable utcnow : datetime.
Variable REFRESH_THRESHOLD : Z.
Variable token_endpoint : Credentials -> string * option datetime * option string.

(** The reader looks at seven keys only. *)
Lemma get_user_credentials_same_fields user_id platform_name db1 db2 fs d1 d2 :
  bundle_of user_id platform_name db1 = Some d1 ->
  bundle_of user_id platform_name db2 = Some d2 ->
  d1 <> ∅ -> d2 <> ∅ ->
  Forall (fun key => d1 !! key = d2 !! key)
    ["token"; "refresh_token"; "token_uri"; "client_id"; "client_secret"; "scopes";
     "expiry"] ->
  fst (run (get_user_credentials local_utcoffset user_id platform_name) db1 fs)
  = fst (run (get_user_credentials local_utcoffset user_id platform_name) db2 fs).
Proof.
  unfold bundle_of. intros B1 B2 N1 N2 K.
  repeat (apply Forall_cons in K as [? K]).
  unfold get_user_credentials, item, load_expiry. unfold_py. cbn.
  destruct fs as [|[] fs]; cbn; try reflexivity.
  all: destruct (find _ (integrations db1)) as [row1|]; [|discriminate].
  all: destruct (find _ (integrations db2)) as [row2|]; [|discriminate].
  all: cbn in B1, B2; injection B1 as <-; injection B2 as <-; cbn.
  all: do 2 (case_bool_decide; [contradiction|]).
  all: repeat match goal with H : _ !! _ = _ !! _ |- _ => rewrite H; clear H end.
  all: repeat match goal with
              | |- context [i_credentials ?r !! ?k] =>
                  destruct (i_credentials r !! k) as [?v|]; cbn; try reflexivity
              end.
  all: repeat match goal with
              | |- context [truthy ?v] => destruct (truthy v); cbn; try reflexivity
              | |- context [match ?v with JNull => _ | _ => _ end] =>
                  destruct v; cbn; try reflexivity
              | |- context [fromisoformat ?s] =>
                  destruct (fromisoformat s); cbn; try reflexivity
              | |- context [astimezone_utc ?f ?d] =>
                  destruct (astimezone_utc f d); cbn; try reflexivity
              end.
Qed.

(** The rows a granted refresh commits when the pair has a row. *)
Lemma refresh_written user_id credentials platform_name db i :
  refreshable utcnow REFRESH_THRESHOLD credentials ->
  first_index (integration_matches user_id platform_name) (integrations db) = Some i ->
  committed (snd (run (refresh_and_save_credentials utcnow REFRESH_THRESHOLD
                         token_endpoint user_id (Some credentials) platform_name) db []))
  = set_integrations
      (alter (set_credentials
                (refreshed_dict (apply_grant credentials (token_endpoint credentials)))) i)
      db.
Proof.
  intros (E & R & U & C & S) F.
  unfold refresh_and_save_credentials; unfold_py.
  rewrite E; cbn; rewrite R; cbn.
  rewrite !refresh_granted by assumption. unfold_py; cbn.
  rewrite F. cbn. reflexivity.
Qed.

(** X20. The reader cannot tell a bundle written by the refresh path from
    one written by [save_integration_to_db]: after a granted refresh of a
    stored Google Calendar bundle, [get_user_credentials] returns what it
    would return had the refreshed credentials been saved with any email,
    although the dict the refresh writes has no [email] key. *)
Theorem get_user_credentials_after_refresh
  (user_id : Z) (credentials : Credentials) (email : json) (db : DB) (fs : list bool) :
  refreshable utcnow REFRESH_THRESHOLD credentials ->
  is_Some (bundle_of user_id google_calendar db) ->
  let refreshed := apply_grant credentials (token_endpoint credentials) in
  let after_refresh :=
    committed (snd (run (refresh_and_save_credentials utcnow REFRESH_THRESHOLD
                           token_endpoint user_id (Some credentials) google_calendar)
                        db [])) in
  let after_save :=
    committed (snd (run (save_integration_to_db utcnow refreshed email user_id) db [])) in
  bundle_of user_id google_calendar after_refresh = Some (refreshed_dict refreshed)
  /\ bundle_of user_id google_calendar after_save
     = Some (credentials_dict refreshed email)
  /\ fst (run (get_user_credentials local_utcoffset user_id google_calendar)
              after_refresh fs)
     = fst (run (get_user_credentials local_utcoffset user_id google_calendar)
                after_save fs).
Proof.
  intros R [d0 B0] refreshed after_refresh after_save.
  assert (B1 : bundle_of user_id google_calendar after_refresh
               = Some (refreshed_dict refreshed)).
  { unfold bundle_of in *.
    destruct (first_index (integration_matches user_id google_calendar) (integrations db))
      as [i|] eqn:F.
    - subst after_refresh refreshed. rewrite (refresh_written _ _ _ _ _ R F).
      unfold set_integrations. cbn [integrations].
      rewrite (find_alter_first (integration_matches user_id google_calendar)
                 (set_credentials _) _ _ (fun x => eq_refl) F).
      destruct (find _ (integrations db)); [reflexivity|discriminate].
    - rewrite (proj1 (first_index_none _ _ F)) in B0. discriminate. }
  assert (B2 : bundle_of user_id google_calendar after_save
               = Some (credentials_dict refreshed email)).
  { pose proof (save_integration_to_db_no_fault utcnow refreshed email user_id
                  (mk_state db db false [] []) eq_refl) as H.
    subst after_save. unfold run.
    destruct (save_integration_to_db _ _ _ _ _) as [r' st']. cbn [snd]. tauto. }
  repeat split; try assumption.
  apply (get_user_credentials_same_fields _ _ _ _ _ _ _ B1 B2).
  - intros E. apply (f_equal (fun d => d !! "token")) in E. now rewrite lookup_empty in E.
  - intros E. apply (f_equal (fun d => d !! "token")) in E. now rewrite lookup_empty in E.
  - repeat constructor.
Qed.

End ReadAfterRefresh.

(** ** Searching leads *)

Section SearchLeadsProperties.
Variable str_of : json -> string.
Variable lead_data : Lead -> json.

Ltac next_fault3 :=
  match goal with
  | |- context [match ?fs with [] => _ | _ :: _ => _ end] =>
      is_var fs; destruct fs as [|[] fs]
  end.

(** X21. [search_leads] answers 200 or 500 and nothing else: the three 400
    it raises, for an empty body, a missing or falsy [user_id] or
    [search_term], and a [user_id] that is no integer, are raised inside its
    own handler and come out as 500.  It reads the leads at most once and
    never writes. *)
Theorem search_leads_status_codes (body : option json) (db : DB) (fs : list bool) :
  let '(r, st) := serve (search_leads str_of lead_data body) db fs in
  (status_code r = 200 \/ status_code r = 500)
  /\ committed st = db
  /\ existsb is_db_write (trace st) = false
  /\ (count_events is_select (trace st) <= 1)%nat.
Proof.
  unfold serve, fastapi, search_leads, with_request_session, dict_get, query_leads.
  unfold_py.
  destruct body as [data|]; cbn; [|auto].
  destruct (truthy data); cbn; [|auto].
  destruct data as [| | | | |l]; cbn; auto.
  destruct (truthy (default JNull (assoc "user_id" l))); cbn; [|auto].
  destruct (truthy (default JNull (assoc "search_term" l))); cbn; [|auto].
  destruct (py_int _) as [n|[]]; cbn; auto.
  repeat (try next_fault3; cbn; auto).
  all: destruct (filter_rows _ (leads db)); cbn; auto.
Qed.

(** X22. A search by a user id and a text without pattern characters
    answers 200 with one entry for each lead of that user whose name contains
    the text, letters compared without case, in table order.  The user id
    may come as a number, as a boolean or as text that [int] accepts: only
    its integer value counts. *)
Theorem search_leads_lists_matches
  (user_id : json) (search_term : string) (n : Z) (db : DB) (fs : list bool) :
  truthy user_id = true -> py_int user_id = Ok n ->
  search_term <> "" -> Sql.has_meta search_term = false ->
  let '(r, st) := serve (search_leads str_of lead_data
                           (search_request user_id search_term)) db (false :: fs) in
  r = mk_Response 200 (JArr (map lead_data (leads_named n search_term db)))
  /\ committed st = db.
Proof.
  intros T I N H.
  unfold serve, fastapi, search_leads, with_request_session, dict_get, search_request.
  unfold_py. cbn. rewrite T. cbn.
  destruct search_term as [|c s]; [contradiction|]. cbn. rewrite I. cbn.
  rewrite query_leads_ok by (assumption || reflexivity). cbn. auto.
Qed.

End SearchLeadsProperties.

(** ** The reader at sample data *)

Lemma get_user_credentials_returns_stored_witness :
  exists d,
    bundle_of 1 google_calendar connected_db = Some d
    /\ d !! "token" = Some (JStr "ya29.old")
    /\ d !! "refresh_token" = Some (JStr "1//refresh")
    /\ d !! "token_uri" = Some (JStr "https://oauth2.googleapis.com/token")
    /\ d !! "client_id" = Some (JStr "client-id")
    /\ d !! "client_secret" = Some (JStr "client-secret")
    /\ d !! "scopes" = Some (JArr [JStr "https://www.googleapis.com/auth/calendar"])
    /\ PyDatetime.tzinfo (at_time 2024 1 15 10 0) = None
    /\ PyDatetime.check_fields (at_time 2024 1 15 10 0) = true
    /\ exists s dt off,
         d !! "expiry" = Some (JStr s)
         /\ PyDatetime.fromisoformat (PyStr.replace_char "Z"%char "+00:00" s) = Some dt
         /\ offset_of (host_at PyDatetime.HOUR_US) dt = Some off
         /\ PyDatetime.wall_micros (at_time 2024 1 15 10 0)
            = PyDatetime.wall_micros dt - off.
Proof.
  apply (get_user_credentials_returns_stored (host_at PyDatetime.HOUR_US) 1
           google_calendar connected_db []
           (loaded_fields stale_credentials (Some (at_time 2024 1 15 10 0)))).
  vm_compute. reflexivity.
Defined.

Lemma get_user_credentials_unusable_bundle_witness :
  is_Some (bundle_of 1 google_calendar damaged_db)
  /\ fst (run (get_user_credentials (host_at 0) 1 google_calendar) damaged_db []) = Ok None.
Proof.
  split; [eexists; reflexivity|].
  apply (get_user_credentials_unusable_bundle (host_at 0) 1 google_calendar damaged_db []
           (delete "scopes" (credentials_dict stale_credentials (JStr "agent@example.com")))).
  - reflexivity.
  - left. exists "scopes". split; [simpl; tauto|reflexivity].
Defined.

Lemma get_user_credentials_after_save_witness :
  naive_expiry fresh_credentials
  /\ (let saved := committed (snd (run (save_integration_to_db sample_now fresh_credentials
                                          (JStr "agent@example.com") 1) empty_db [])) in
      let r := fst (run (get_user_credentials (host_at PyDatetime.HOUR_US) 1
                           google_calendar) saved [false]) in
      r = Ok (Some (loaded_fields fresh_credentials (Some (at_time 2024 1 15 12 0))))
      /\ PyDatetime.wall_micros (at_time 2024 1 15 12 0)
         = PyDatetime.wall_micros (at_time 2024 1 15 13 0) - PyDatetime.HOUR_US).
Proof.
  assert (N : naive_expiry fresh_credentials) by (split; reflexivity).
  split; [exact N|].
  pose proof (get_user_credentials_after_save (host_at PyDatetime.HOUR_US) sample_now
                fresh_credentials (JStr "agent@example.com") 1 empty_db [] N) as H.
  vm_compute in H. vm_compute. tauto.
Defined.

Lemma get_user_credentials_after_refresh_witness :
  refreshable sample_now sample_threshold stale_credentials
  /\ is_Some (bundle_of 1 google_calendar connected_db)
  /\ fst (run (get_user_credentials (host_at 0) 1 google_calendar)
            (committed (snd (run (refresh_and_save_credentials sample_now sample_threshold
                                    sample_endpoint 1 (Some stale_credentials)
                                    google_calendar) connected_db []))) [])
     = fst (run (get_user_credentials (host_at 0) 1 google_calendar)
              (committed (snd (run (save_integration_to_db sample_now
                                      (apply_grant stale_credentials
                                         (sample_endpoint stale_credentials))
                                      JNull 1) connected_db []))) []).
Proof.
  assert (R : refreshable sample_now sample_threshold stale_credentials)
    by (repeat split; reflexivity).
  assert (B : is_Some (bundle_of 1 google_calendar connected_db))
    by (eexists; reflexivity).
  split; [exact R|]. split; [exact B|].
  exact (proj2 (proj2 (get_user_credentials_after_refresh (host_at 0) sample_now
                         sample_threshold sample_endpoint 1 stale_credentials JNull
                         connected_db [] R B))).
Defined.

Lemma search_leads_lists_matches_witness :
  let '(r, st) := serve (search_leads (fun _ => "") (lead_info "lead_id")
                           (search_request (JStr " 1 ") "smith")) leads_db [false] in
  r = mk_Response 200
        (JArr (map (lead_info "lead_id")
                 [sample_lead 1 1 "John Smith"; sample_lead 2 1 "Jane Smithers"]))
  /\ committed st = leads_db.
Proof.
  exact (search_leads_lists_matches (fun _ => "") (lead_info "lead_id") (JStr " 1 ")
           "smith" 1 leads_db [] eq_refl eq_refl ltac:(discriminate) eq_refl).
Defined.
